(** * Prometheus TUI: rendering engine, layout and navigation

    A shallow embedding of the terminal dashboard's core
    (src/prometheus_tui): the glyph renderer of [utils/braille_chart.cpp],
    the layout computation of [ui_manager.cpp], the panel base behaviour of
    [panels/base_panel.cpp], the panels' [refresh] functions and the
    navigation controller of [application.cpp].

    C++ [double] is IEEE 754 binary64 and is modelled by Rocq's primitive
    floats, which are the same format with the same rounding;
    [size_t] is a 64-bit unsigned integer and [int] a 32-bit signed one, both
    modelled in [Z] with the wrap-around written out. *)

From Stdlib Require Import ZArith List String Ascii Bool Lia Floats DecimalString.
Import ListNotations.

Set Warnings "-inexact-float,-register-all".

(* ================================================================== *)
(** * The C++ value model *)
(* ================================================================== *)

Module Cxx.
Local Open Scope Z_scope.

(** ** Integers *)

(** [size_t]: arithmetic is modulo 2^64. *)
Definition size_wrap (z : Z) : Z := z mod 2 ^ 64.
Definition size_mul (a b : Z) : Z := size_wrap (a * b).
Definition size_add (a b : Z) : Z := size_wrap (a + b).
Definition size_sub (a b : Z) : Z := size_wrap (a - b).

(** [int]: 32 bits, two's complement.  Signed overflow is undefined in C++;
    the model gives the two's-complement result of the target machine.
    Conversions of an out-of-range integer to [int] are modular (C++20). *)
Definition INT_MIN : Z := - 2 ^ 31.
Definition INT_MAX : Z := 2 ^ 31 - 1.
Definition int_wrap (z : Z) : Z := (z + 2 ^ 31) mod 2 ^ 32 - 2 ^ 31.
Definition int_add (a b : Z) : Z := int_wrap (a + b).
Definition int_sub (a b : Z) : Z := int_wrap (a - b).
Definition in_int (z : Z) : bool := (INT_MIN <=? z) && (z <=? INT_MAX).

(** ** Doubles *)

(** Truncation toward zero of a finite double; [None] for NaN and the
    infinities. *)
Definition trunc_double (f : float) : option Z :=
  match Prim2SF f with
  | S754_zero _ => Some 0
  | S754_finite s m e =>
      let a := match e with
               | Z0 => Zpos m
               | Zpos p => Z.shiftl (Zpos m) (Zpos p)
               | Zneg p => Z.shiftr (Zpos m) (Zpos p)
               end in
      Some (if s then - a else a)
  | S754_infinity _ => None
  | S754_nan => None
  end.

(** A double is convertible to [int] when its truncation is representable;
    for the others [static_cast<int>] is undefined behaviour. *)
Definition convertible (f : float) : bool :=
  match trunc_double f with
  | Some z => in_int z
  | None => false
  end.

(** [static_cast<int>(f)].  Where the conversion is undefined the hardware
    still delivers some [int]: [indefinite f] stands for it (x86-64's
    cvttsd2si delivers INT_MIN, see [x86_indefinite]); every statement below
    about the renderer holds whatever that value is. *)
Definition static_cast_int (indefinite : float -> Z) (f : float) : Z :=
  match trunc_double f with
  | Some z => if in_int z then z else int_wrap (indefinite f)
  | None => int_wrap (indefinite f)
  end.

Definition x86_indefinite (_ : float) : Z := INT_MIN.

(** Conversion of an integer ([int] or [size_t]) to [double]: the nearest
    double, ties to even. *)
Definition double_of_Z (z : Z) : float :=
  SF2Prim (binary_normalize prec emax z 0 false).

(** ** Vectors *)

Definition size {A} (v : list A) : Z := Z.of_nat (List.length v).

(** [v[i]]; reading outside the vector is undefined, the model delivers
    [d] there. *)
Definition at_ {A} (d : A) (v : list A) (i : Z) : A :=
  if i <? 0 then d else nth (Z.to_nat i) v d.

(** [v[i] = f(v[i])]; writing outside the vector is undefined, the model
    leaves the vector unchanged there. *)
Fixpoint update_nat {A} (f : A -> A) (v : list A) (n : nat) : list A :=
  match v, n with
  | [], _ => []
  | x :: v', O => f x :: v'
  | x :: v', S n' => x :: update_nat f v' n'
  end.

Definition update {A} (f : A -> A) (v : list A) (i : Z) : list A :=
  if i <? 0 then v else update_nat f v (Z.to_nat i).

(** The sum of the elements of a vector of integers. *)
Definition total (v : list Z) : Z := fold_right Z.add 0 v.

(** The indices [0, 1, ..., n-1] of a counting [for] loop. *)
Definition iota (n : Z) : list Z := map Z.of_nat (seq 0 (Z.to_nat n)).

(** [*std::min_element(first, last)] and [*std::max_element(first, last)]
    on a non-empty range [x0 :: xs], with [operator<] given by [lt]: the
    first smallest, respectively the first largest, element. *)
Section Elements.
Context {A : Type} (lt : A -> A -> bool).

Definition min_element (x0 : A) (xs : list A) : A :=
  fold_left (fun smallest x => if lt x smallest then x else smallest) xs x0.

Definition max_element (x0 : A) (xs : list A) : A :=
  fold_left (fun largest x => if lt largest x then x else largest) xs x0.
End Elements.

(** ** Strings *)

(** [std::wstring_convert<std::codecvt_utf8<wchar_t>>::to_bytes] of one
    code point. *)
Definition byte_of (z : Z) : ascii := ascii_of_N (Z.to_N (z mod 256)).

Definition to_bytes (cp : Z) : string :=
  if cp <? 128 then String (byte_of cp) EmptyString
  else if cp <? 2048 then
    String (byte_of (Z.lor 192 (Z.shiftr cp 6)))
      (String (byte_of (Z.lor 128 (Z.land cp 63))) EmptyString)
  else if cp <? 65536 then
    String (byte_of (Z.lor 224 (Z.shiftr cp 12)))
      (String (byte_of (Z.lor 128 (Z.land (Z.shiftr cp 6) 63)))
         (String (byte_of (Z.lor 128 (Z.land cp 63))) EmptyString))
  else
    String (byte_of (Z.lor 240 (Z.shiftr cp 18)))
      (String (byte_of (Z.lor 128 (Z.land (Z.shiftr cp 12) 63)))
         (String (byte_of (Z.lor 128 (Z.land (Z.shiftr cp 6) 63)))
            (String (byte_of (Z.lor 128 (Z.land cp 63))) EmptyString))).

(** The number of glyphs (code points) of a UTF-8 string: the bytes that are
    not continuation bytes [10xxxxxx]. *)
Definition is_continuation (c : ascii) : bool :=
  Z.land (Z.of_N (N_of_ascii c)) 192 =? 128.

Fixpoint glyph_count (s : string) : nat :=
  match s with
  | EmptyString => O
  | String c s' =>
      if is_continuation c then glyph_count s' else S (glyph_count s')
  end.

End Cxx.

(* ================================================================== *)
(** * The glyph renderer (utils/braille_chart.cpp) *)
(* ================================================================== *)

Module BrailleChart.
Import Cxx.
Local Open Scope Z_scope.

(** [BRAILLE_DOTS] and [BRAILLE_BASE] of braille_chart.hpp. *)
Definition BRAILLE_DOTS : list Z := [1; 2; 4; 8; 16; 32; 64; 128].
Definition BRAILLE_BASE : Z := 10240.

Definition make_braille (dots : Z) : Z := BRAILLE_BASE + dots.

(** The ramp of [inline_sparkline] (and of [bars]). *)
Definition blocks : list string :=
  [" "; "▁"; "▂"; "▃"; "▄"; "▅"; "▆"; "▇"; "█"]%string.

(** [BrailleChart::normalize].  *)
Definition normalize (data : list float) (min_val max_val : float)
  : list float :=
  match data with
  | [] => []
  | d0 :: ds =>
      let '(min_val, max_val) :=
        if PrimFloat.eqb min_val max_val
        then (min_element PrimFloat.ltb d0 ds, max_element PrimFloat.ltb d0 ds)
        else (min_val, max_val) in
      if PrimFloat.eqb min_val max_val
      then repeat 0.5%float (List.length data)
      else
        let range := (max_val - min_val)%float in
        map (fun val => ((val - min_val) / range)%float) data
  end.

Section Renderer.
(** What [static_cast<int>] delivers where it is undefined. *)
Variable indefinite : float -> Z.

(** The glyphs appended to [result] by [inline_sparkline], in order. *)
Definition inline_sparkline_glyphs (data : list float) (width : Z)
  : list string :=
  match data with
  | [] => []
  | d0 :: ds =>
      if width =? 0 then []
      else
        let min_val := min_element PrimFloat.ltb d0 ds in
        let max_val := max_element PrimFloat.ltb d0 ds in
        if PrimFloat.eqb min_val max_val
        then map (fun _ => "▄"%string) (iota width)
        else
          let resampled :=
            map (fun i =>
                   let idx := size_mul i (size data) / width in
                   ((at_ nan data idx - min_val) / (max_val - min_val))%float)
                (iota width) in
          map (fun val =>
                 let idx := static_cast_int indefinite (val * 8)%float in
                 let idx := if idx <? 0 then 0 else idx in
                 let idx := if idx >? 8 then 8 else idx in
                 at_ ""%string blocks idx)
              resampled
  end.

(** [inline_sparkline]: the returned [std::string]. *)
Definition inline_sparkline (data : list float) (width : Z) : string :=
  String.concat "" (inline_sparkline_glyphs data width).

(** The bin counts computed by the first loop of [histogram]. *)
Definition histogram_bin_counts (data : list float) (bins : Z)
  (min_val bin_width : float) : list Z :=
  fold_left
    (fun bin_counts val =>
       let bin := static_cast_int indefinite ((val - min_val) / bin_width)%float in
       let bin := if bin >=? int_wrap bins then int_wrap (size_sub bins 1) else bin in
       let bin := if bin <? 0 then 0 else bin in
       update (fun c => int_add c 1) bin_counts bin)
    data (repeat 0 (Z.to_nat bins)).

(** The normalised bins handed to [inline_sparkline]. *)
Definition histogram_normalized_bins (bin_counts : list Z) : list float :=
  match bin_counts with
  | [] => []
  | c0 :: cs =>
      let max_count := max_element Z.ltb c0 cs in
      map (fun count => (double_of_Z count / double_of_Z max_count)%float)
          bin_counts
  end.

(** [BrailleChart::histogram]. *)
Definition histogram (data : list float) (bins width height : Z) : string :=
  match data with
  | [] => ""%string
  | d0 :: ds =>
      if bins =? 0 then ""%string
      else
        let min_val := min_element PrimFloat.ltb d0 ds in
        let max_val := max_element PrimFloat.ltb d0 ds in
        let bin_width := ((max_val - min_val) / double_of_Z bins)%float in
        let bin_counts := histogram_bin_counts data bins min_val bin_width in
        inline_sparkline (histogram_normalized_bins bin_counts) width
  end.

(** ** The dense renderer, [BrailleChart::sparkline] *)

(** The samples plotted by [sparkline]: the normalised series, down-sampled
    by nearest index when it is longer than [pixel_width]. *)
Definition sparkline_resampled (data : list float) (pixel_width : Z)
  : list float :=
  let normalized := normalize data 0 0 in
  if size data <=? pixel_width then normalized
  else
    map (fun i =>
           let idx := size_mul i (size data) / pixel_width in
           at_ nan normalized idx)
        (iota pixel_width).

(** The [int y] computed for one sample in the plotting loop. *)
Definition plot_y (pixel_height : Z) (v : float) : Z :=
  static_cast_int indefinite
    ((1 - v) * double_of_Z (size_sub pixel_height 1))%float.

(** One iteration of the plotting loop. *)
Definition plot_step (resampled : list float) (pixel_height height : Z)
  (grid : list (list bool)) (x : Z) : list (list bool) :=
  let y := plot_y pixel_height (at_ nan resampled x) in
  if (y >=? 0) && (y <? int_wrap pixel_height) then
    let row := Z.quot y 4 in
    if row <? height
    then update (fun line => update (fun _ => true) line x) grid row
    else grid
  else grid.

(** The [grid] after the plotting loop: [height] rows of [width * 2]
    columns. *)
Definition sparkline_grid (data : list float) (width height : Z)
  : list (list bool) :=
  let pixel_width := size_mul width 2 in
  let pixel_height := size_mul height 4 in
  let resampled := sparkline_resampled data pixel_width in
  let grid :=
    repeat (repeat false (Z.to_nat (size_mul width 2))) (Z.to_nat height) in
  fold_left (plot_step resampled pixel_height height)
    (iota (Z.min (size resampled) pixel_width)) grid.

End Renderer.

(** The [dots] of the character cell [(row, col)]: the packing loop. *)
Definition cell_dots (grid : list (list bool)) (row col : Z) : Z :=
  let x1 := size_mul col 2 in
  let x2 := size_add (size_mul col 2) 1 in
  fold_left
    (fun dots dy =>
       let y := size_add (size_mul row 4) dy in
       if y <? size grid then
         let line := at_ [] grid row in
         let dots :=
           if (x1 <? size line) && at_ false line x1
           then Z.lor dots (at_ 0 BRAILLE_DOTS dy) else dots in
         let dots :=
           if (x2 <? size line) && at_ false line x2
           then Z.lor dots (at_ 0 BRAILLE_DOTS (dy + 4)) else dots in
         dots
       else dots)
    [0; 1; 2; 3] 0.

(** The code points of the output, row by row. *)
Definition grid_cells (grid : list (list bool)) (width height : Z)
  : list (list Z) :=
  map (fun row => map (fun col => make_braille (cell_dots grid row col))
                      (iota width))
      (iota height).

Definition sparkline_cells (indefinite : float -> Z) (data : list float)
  (width height : Z) : list (list Z) :=
  grid_cells (sparkline_grid indefinite data width height) width height.

(** The text of the output: each row's glyphs in UTF-8, a line feed after
    every row but the last. *)
Definition cells_text (cells : list (list Z)) (height : Z) : string :=
  String.concat ""
    (map (fun '(row, line) =>
            String.append (String.concat "" (map to_bytes line))
              (if row <? size_sub height 1 then String "010" EmptyString
               else EmptyString))
         (combine (iota height) cells)).

(** [BrailleChart::sparkline]. *)
Definition sparkline (indefinite : float -> Z) (data : list float)
  (width height : Z) : string :=
  match data with
  | [] => ""%string
  | _ :: _ =>
      if (width =? 0) || (height =? 0) then ""%string
      else cells_text (sparkline_cells indefinite data width height) height
  end.

(** [trend_indicator]. *)
Definition trend_indicator (indefinite : float -> Z) (data : list float)
  (width height : Z) : string :=
  if height =? 1 then inline_sparkline indefinite data width
  else sparkline indefinite data width height.

(** [BrailleChart::bars]. *)
Definition bars (indefinite : float -> Z) (values : list float)
  (max_height : Z) : list string :=
  match values with
  | [] => []
  | v0 :: vs =>
      if max_height =? 0 then []
      else
        let max_val := max_element PrimFloat.ltb v0 vs in
        let max_val := if PrimFloat.eqb max_val 0 then 1%float else max_val in
        map (fun val =>
               let normalized := (val / max_val)%float in
               let bar_height := static_cast_int indefinite (normalized * 8)%float in
               let bar_height := if bar_height <? 0 then 0 else bar_height in
               let bar_height := if bar_height >? 8 then 8 else bar_height in
               at_ ""%string blocks bar_height)
            values
  end.

(** ** Reading the plot *)

(** [grid[row][x]]. *)
Definition marked (grid : list (list bool)) (row x : Z) : bool :=
  at_ false (at_ [] grid row) x.

(** The row written by the iteration of the plotting loop for sub-column
    [x], if it writes at all: the row holding [y = plot_y ...], when [y]
    passes the range tests. *)
Definition step_row (indefinite : float -> Z) (resampled : list float)
  (pixel_height height x : Z) : option Z :=
  let y := plot_y indefinite pixel_height (at_ nan resampled x) in
  if (y >=? 0) && (y <? int_wrap pixel_height) && (Z.quot y 4 <? height)
  then Some (Z.quot y 4) else None.

(** The character row in which [sparkline] marks sub-column [x], if it marks
    it at all: [x] has to be one of the plotted samples. *)
Definition plotted_row (indefinite : float -> Z) (data : list float)
  (width height x : Z) : option Z :=
  let pixel_width := size_mul width 2 in
  let pixel_height := size_mul height 4 in
  let resampled := sparkline_resampled data pixel_width in
  if (0 <=? x) && (x <? Z.min (size resampled) pixel_width)
  then step_row indefinite resampled pixel_height height x
  else None.

(** The grid has [h] rows of [w] columns each. *)
Definition shape (h w : Z) (grid : list (list bool)) : Prop :=
  size grid = h /\ Forall (fun line => size line = w) grid.

(** The number of dots lit in sub-column [x] of the output, over all rows:
    bit [dy] (left dot column, [x] even) or bit [dy + 4] (right dot column,
    [x] odd) of the mask of the glyph in character column [x / 2]. *)
Definition lit_subcells (cells : list (list Z)) (x : Z) : Z :=
  fold_left
    (fun n line =>
       let dots := at_ BRAILLE_BASE line (x / 2) - BRAILLE_BASE in
       fold_left
         (fun n dy =>
            if Z.eqb (Z.land dots (at_ 0 BRAILLE_DOTS (dy + 4 * (x mod 2)))) 0
            then n else n + 1)
         [0; 1; 2; 3] n)
    cells 0.

End BrailleChart.

(* ================================================================== *)
(** * The dense renderer as the specification words it *)
(* ================================================================== *)

(** The specification's [dense_trend], written from its words and used only
    to compare with [BrailleChart.sparkline]: normalise, resample to
    [width * 2] sub-columns, light in each sub-column the one sub-cell at
    sub-row [round ((1 - v) * (height * 4 - 1))], and pack each 2x4 block
    into base + mask. *)
Module DenseTrendSpec.
Import Cxx BrailleChart.
Local Open Scope Z_scope.

(** Rounding to the nearest integer, halves away from zero. *)
Definition round_double (f : float) : Z :=
  match trunc_double (if PrimFloat.ltb f 0 then f - 0.5 else f + 0.5)%float with
  | Some z => z
  | None => 0
  end.

Definition sub_row (height : Z) (v : float) : Z :=
  round_double ((1 - v) * double_of_Z (height * 4 - 1))%float.

(** The sub-cell [(x, y)] of the [width * 2] by [height * 4] grid is lit. *)
Definition lit (resampled : list float) (height x y : Z) : bool :=
  (x <? size resampled) && (sub_row height (at_ nan resampled x) =? y).

Definition block_mask (resampled : list float) (height row col : Z) : Z :=
  fold_left
    (fun dots dy =>
       let dots :=
         if lit resampled height (col * 2) (row * 4 + dy)
         then Z.lor dots (at_ 0 BRAILLE_DOTS dy) else dots in
       if lit resampled height (col * 2 + 1) (row * 4 + dy)
       then Z.lor dots (at_ 0 BRAILLE_DOTS (dy + 4)) else dots)
    [0; 1; 2; 3] 0.

Definition dense_trend_cells (data : list float) (width height : Z)
  : list (list Z) :=
  let resampled := sparkline_resampled data (width * 2) in
  map (fun row => map (fun col => BRAILLE_BASE + block_mask resampled height row col)
                      (iota width))
      (iota height).

End DenseTrendSpec.

(* ================================================================== *)
(** * The layout computation (ui_manager.cpp) *)
(* ================================================================== *)

Module Layout.
Import Cxx.
Local Open Scope Z_scope.

(** [struct LayoutDimensions]. *)
Record LayoutDimensions := {
  term_width : Z;
  term_height : Z;
  top_bar_height : Z;
  left_width : Z;
  right_width : Z;
  status_bar_height : Z;
  main_x : Z;
  main_y : Z;
  main_width : Z;
  main_height : Z
}.

(** A default-initialised [LayoutDimensions]: the four thicknesses have
    member initialisers; the other members are indeterminate until
    [calculate] assigns every one of them, and are 0 here. *)
Definition initial : LayoutDimensions := {|
  term_width := 0;
  term_height := 0;
  top_bar_height := 3;
  left_width := 20;
  right_width := 30;
  status_bar_height := 1;
  main_x := 0;
  main_y := 0;
  main_width := 0;
  main_height := 0
|}.

(** [LayoutDimensions::calculate]: a member function, it updates the
    object it is called on. *)
Definition calculate (l : LayoutDimensions) (tw th : Z) : LayoutDimensions :=
  let left := if tw >? 180 then 35 else left_width l in
  let right := if tw >? 180 then 35 else right_width l in
  {| term_width := tw;
     term_height := th;
     top_bar_height := top_bar_height l;
     left_width := left;
     right_width := right;
     status_bar_height := status_bar_height l;
     main_x := left;
     main_y := top_bar_height l;
     main_width := int_sub (int_sub tw left) right;
     main_height :=
       int_sub (int_sub th (top_bar_height l)) (status_bar_height l) |}.

(** The layouts an object can hold: the initial one and those left by any
    number of [calculate] calls. *)
Inductive reachable : LayoutDimensions -> Prop :=
| reachable_initial : reachable initial
| reachable_calculate l tw th :
    reachable l -> reachable (calculate l tw th).

(** The five regions. *)
Inductive RegionName :=
  TopBar | LeftNav | MainContent | RightSidebar | StatusBar.

(** The rectangle handed to [newwin (nlines, ncols, begin_y, begin_x)]. *)
Record Region := {
  nlines : Z;
  ncols : Z;
  begin_y : Z;
  begin_x : Z
}.

(** [UIManager::create_windows]: the five windows, in creation order. *)
Definition create_windows (l : LayoutDimensions)
  : list (RegionName * Region) :=
  [ (TopBar,
     {| nlines := top_bar_height l; ncols := term_width l;
        begin_y := 0; begin_x := 0 |});
    (LeftNav,
     {| nlines := main_height l; ncols := left_width l;
        begin_y := main_y l; begin_x := 0 |});
    (MainContent,
     {| nlines := main_height l; ncols := main_width l;
        begin_y := main_y l; begin_x := main_x l |});
    (RightSidebar,
     {| nlines := main_height l; ncols := right_width l;
        begin_y := main_y l;
        begin_x := int_add (main_x l) (main_width l) |});
    (StatusBar,
     {| nlines := status_bar_height l; ncols := term_width l;
        begin_y := int_sub (term_height l) (status_bar_height l);
        begin_x := 0 |}) ].

(** The character cell in column [x], line [y] lies in the region. *)
Definition covers (r : Region) (x y : Z) : bool :=
  (begin_x r <=? x) && (x <? begin_x r + ncols r)
  && (begin_y r <=? y) && (y <? begin_y r + nlines r).

(** The regions tile the [tw] by [th] terminal: each lies inside it, every
    cell of it is in one of them, and no cell is in two of them. *)
Definition tiles (regions : list (RegionName * Region)) (tw th : Z) : Prop :=
  (forall n r x y, In (n, r) regions -> covers r x y = true ->
                   0 <= x < tw /\ 0 <= y < th)
  /\ (forall x y, 0 <= x < tw -> 0 <= y < th ->
                  exists n r, In (n, r) regions /\ covers r x y = true)
  /\ (forall n1 r1 n2 r2 x y,
        In (n1, r1) regions -> In (n2, r2) regions -> n1 <> n2 ->
        covers r1 x y = true -> covers r2 x y = true -> False).

End Layout.

(* ================================================================== *)
(** * The panel base class (panels/base_panel.cpp) *)
(* ================================================================== *)

Module Keys.
Local Open Scope Z_scope.
(** The key codes of <ncurses.h>, which the switch statements name. *)
Definition ERR : Z := -1.
Definition KEY_DOWN : Z := 258.
Definition KEY_UP : Z := 259.
Definition KEY_HOME : Z := 262.
Definition KEY_NPAGE : Z := 338.
Definition KEY_PPAGE : Z := 339.
Definition KEY_END : Z := 360.
Definition KEY_RESIZE : Z := 410.
End Keys.

Module BasePanel.
Import Cxx Keys.
Local Open Scope Z_scope.

(** The data members of [class BasePanel]. *)
Record t := {
  panel_id_ : string;
  display_name_ : string;
  needs_refresh_ : bool;
  scroll_offset_ : Z;
  max_scroll_ : Z
}.

(** The constructor: [needs_refresh_ = true], scroll members 0. *)
Definition make (id display_name : string) : t := {|
  panel_id_ := id;
  display_name_ := display_name;
  needs_refresh_ := true;
  scroll_offset_ := 0;
  max_scroll_ := 0
|}.

Definition set_needs_refresh (b : bool) (p : t) : t := {|
  panel_id_ := panel_id_ p;
  display_name_ := display_name_ p;
  needs_refresh_ := b;
  scroll_offset_ := scroll_offset_ p;
  max_scroll_ := max_scroll_ p
|}.

Definition mark_dirty : t -> t := set_needs_refresh true.
Definition mark_clean : t -> t := set_needs_refresh false.

Definition set_scroll_offset (s : Z) (p : t) : t := {|
  panel_id_ := panel_id_ p;
  display_name_ := display_name_ p;
  needs_refresh_ := needs_refresh_ p;
  scroll_offset_ := s;
  max_scroll_ := max_scroll_ p
|}.

(** [BasePanel::handle_input]: the panel after the key and the returned
    flag. *)
Definition handle_input (p : t) (ch : Z) : t * bool :=
  if ch =? KEY_UP then
    if scroll_offset_ p >? 0
    then (set_scroll_offset (int_sub (scroll_offset_ p) 1) p, true)
    else (p, false)
  else if ch =? KEY_DOWN then
    if scroll_offset_ p <? max_scroll_ p
    then (set_scroll_offset (int_add (scroll_offset_ p) 1) p, true)
    else (p, false)
  else if ch =? KEY_PPAGE then
    (set_scroll_offset (Z.max 0 (int_sub (scroll_offset_ p) 10)) p, true)
  else if ch =? KEY_NPAGE then
    (set_scroll_offset
       (Z.min (max_scroll_ p) (int_add (scroll_offset_ p) 10)) p, true)
  else if ch =? KEY_HOME then (set_scroll_offset 0 p, true)
  else if ch =? KEY_END then (set_scroll_offset (max_scroll_ p) p, true)
  else (p, false).

(** The panels seen while a sequence of keys is handled, one per key. *)
Fixpoint input_trace (p : t) (keys : list Z) : list t :=
  match keys with
  | [] => []
  | ch :: keys' =>
      let p' := fst (handle_input p ch) in
      p' :: input_trace p' keys'
  end.

(** The scroll offset is within [0, max_scroll_]. *)
Definition scroll_in_bounds (p : t) : Prop :=
  0 <= scroll_offset_ p <= max_scroll_ p.

End BasePanel.

(* ================================================================== *)
(** * Process-wide state: the logger and the application state *)
(* ================================================================== *)

(** [class Logger] (utils/logger.cpp).  The wall-clock timestamp of an
    entry is left out. *)
Module Logger.
Import Cxx.
Local Open Scope Z_scope.

Inductive LogLevel := DEBUG | INFO | WARN | ERROR | CRITICAL.

Definition level_rank (l : LogLevel) : Z :=
  match l with
  | DEBUG => 0 | INFO => 1 | WARN => 2 | ERROR => 3 | CRITICAL => 4
  end.

Record LogEntry := {
  level : LogLevel;
  source : string;
  message : string
}.

Record t := {
  entries_ : list LogEntry;
  min_level_ : LogLevel;
  max_entries_ : Z
}.

Definition initial : t :=
  {| entries_ := []; min_level_ := DEBUG; max_entries_ := 1000 |}.

(** [Logger::log]. *)
Definition log (lvl : LogLevel) (src msg : string) (lg : t) : t :=
  if level_rank lvl <? level_rank (min_level_ lg) then lg
  else
    let entries := entries_ lg ++ [{| level := lvl; source := src; message := msg |}] in
    let entries :=
      if size entries >? max_entries_ lg
      then skipn (Z.to_nat (size_sub (size entries) (max_entries_ lg))) entries
      else entries in
    {| entries_ := entries;
       min_level_ := min_level_ lg;
       max_entries_ := max_entries_ lg |}.

(** [Logger::get_recent_logs]: the last [count] entries, or all of them. *)
Definition get_recent_logs (count : Z) (lg : t) : list LogEntry :=
  if size (entries_ lg) <=? count then entries_ lg
  else skipn (Z.to_nat (size_sub (size (entries_ lg)) count)) (entries_ lg).

(** [Logger::clear], [Logger::set_min_level], [Logger::set_max_entries]. *)
Definition clear (lg : t) : t :=
  {| entries_ := []; min_level_ := min_level_ lg;
     max_entries_ := max_entries_ lg |}.

Definition set_min_level (lvl : LogLevel) (lg : t) : t :=
  {| entries_ := entries_ lg; min_level_ := lvl;
     max_entries_ := max_entries_ lg |}.

Definition set_max_entries (max : Z) (lg : t) : t :=
  {| entries_ := entries_ lg; min_level_ := min_level_ lg;
     max_entries_ := max |}.

(** [LogEntry::level_str]. *)
Definition level_str (e : LogEntry) : string :=
  match level e with
  | DEBUG => "DEBUG"
  | INFO => "INFO"
  | WARN => "WARN"
  | ERROR => "ERROR"
  | CRITICAL => "CRITICAL"
  end.

End Logger.

(** [class AppState] (app_state.cpp). *)
Module AppState.

Inductive Mode := LIVE | PAPER | BACKTEST.

Record t := {
  market_id_ : string;
  strategy_id_ : string;
  portfolio_id_ : string;
  mode_ : Mode;
  as_of_date_ : string;
  active_workspace_ : string;
  active_panel_ : string
}.

Definition initial : t := {|
  market_id_ := "US_EQ";
  strategy_id_ := "MAIN";
  portfolio_id_ := "MAIN";
  mode_ := PAPER;
  as_of_date_ := "";
  active_workspace_ := "overview";
  active_panel_ := "overview"
|}.

Definition set_active_workspace (workspace : string) (a : t) : t := {|
  market_id_ := market_id_ a;
  strategy_id_ := strategy_id_ a;
  portfolio_id_ := portfolio_id_ a;
  mode_ := mode_ a;
  as_of_date_ := as_of_date_ a;
  active_workspace_ := workspace;
  active_panel_ := active_panel_ a
|}.

Definition set_active_panel (panel : string) (a : t) : t := {|
  market_id_ := market_id_ a;
  strategy_id_ := strategy_id_ a;
  portfolio_id_ := portfolio_id_ a;
  mode_ := mode_ a;
  as_of_date_ := as_of_date_ a;
  active_workspace_ := active_workspace_ a;
  active_panel_ := panel
|}.

(** [AppState::mode_to_string] and [AppState::string_to_mode]. *)
Definition mode_to_string (mode : Mode) : string :=
  match mode with
  | LIVE => "LIVE"
  | PAPER => "PAPER"
  | BACKTEST => "BACKTEST"
  end.

Definition string_to_mode (str : string) : Mode :=
  if String.eqb str "LIVE" then LIVE
  else if String.eqb str "PAPER" then PAPER
  else if String.eqb str "BACKTEST" then BACKTEST
  else PAPER.

End AppState.

(** The singletons every function can reach, threaded as a state. *)
Module Eff.

Record Globals := {
  logger : Logger.t;
  app_state : AppState.t
}.

Definition M (A : Type) : Type := Globals -> A * Globals.

Definition ret {A} (x : A) : M A := fun g => (x, g).

Definition bind {A B} (c : M A) (k : A -> M B) : M B :=
  fun g => let (x, g') := c g in k x g'.

Declare Scope eff_scope.
Delimit Scope eff_scope with eff.
Notation "x <- c ;; k" := (bind c (fun x => k))
  (at level 61, c at next level, right associativity) : eff_scope.
Notation "c ;; k" := (bind c (fun _ => k))
  (at level 61, right associativity) : eff_scope.

Definition log (lvl : Logger.LogLevel) (src msg : string) : M unit :=
  fun g => (tt, {| logger := Logger.log lvl src msg (logger g);
                   app_state := app_state g |}).

Definition LOG_INFO := log Logger.INFO.
Definition LOG_WARN := log Logger.WARN.
Definition LOG_ERROR := log Logger.ERROR.

Definition get_app_state : M AppState.t := fun g => (app_state g, g).

Definition modify_app_state (f : AppState.t -> AppState.t) : M unit :=
  fun g => (tt, {| logger := logger g; app_state := f (app_state g) |}).

End Eff.

(* ================================================================== *)
(** * The data source (api_client.hpp) *)
(* ================================================================== *)

Module Api.
Import Eff.
Local Open Scope eff_scope.

(** The values of a JSON document.  An object lists its members; the
    library keeps them sorted by key. *)
Inductive json :=
| JNull
| JBool (b : bool)
| JInt (z : Z)
| JFloat (f : float)
| JString (s : string)
| JArray (items : list json)
| JObject (members : list (string * json)).

(** What one request delivers: the lines the client logs while it handles
    the response, and the parsed document, or nothing when the backend is
    unreachable or the answer is not JSON. *)
Record Response := {
  emitted : list Logger.LogEntry;
  document : option json
}.

(** The backend as the panels see it: the answer to each request they
    make. *)
Record ApiClient := {
  get_status_overview : Response;
  get_status_regime : string -> string -> Response;
  get_status_stability : string -> string -> Response;
  get_status_universe : string -> Response;
  get_status_execution : string -> string -> Z -> Z -> Response
}.

(** Performing a request: the client's log lines reach the logger, the
    caller gets the document. *)
Definition request (r : Response) : M (option json) :=
  fun g =>
    (document r,
     {| logger := fold_left
                    (fun lg e => Logger.log (Logger.level e) (Logger.source e)
                                            (Logger.message e) lg)
                    (emitted r) (logger g);
        app_state := app_state g |}).

(** The data source is unavailable: no request delivers a document. *)
Definition unavailable (api : ApiClient) : Prop :=
  document (get_status_overview api) = None
  /\ (forall region date, document (get_status_regime api region date) = None)
  /\ (forall region date, document (get_status_stability api region date) = None)
  /\ (forall strategy, document (get_status_universe api strategy) = None)
  /\ (forall portfolio mode lo lf,
        document (get_status_execution api portfolio mode lo lf) = None).

(** A backend that is down and whose client logs nothing. *)
Definition silent : Response := {| emitted := []; document := None |}.

Definition down : ApiClient := {|
  get_status_overview := silent;
  get_status_regime := fun _ _ => silent;
  get_status_stability := fun _ _ => silent;
  get_status_universe := fun _ => silent;
  get_status_execution := fun _ _ _ _ => silent
|}.

End Api.

(** [class WorkspaceManager] (workspace_manager.cpp). *)
Module WorkspaceManager.

Record Workspace := {
  id : string;
  display_name : string;
  panel_ids : list string
}.

(** [default_workspaces]: a [std::map], so in the order of its keys. *)
Definition workspaces_ : list (string * Workspace) :=
  [ ("global",
     {| id := "global"; display_name := "Global View";
        panel_ids := ["geo"; "regime_stab"; "fragility"] |});
    ("monitoring",
     {| id := "monitoring"; display_name := "Monitoring";
        panel_ids := ["live_system"; "regime_stab"; "portfolio_risk";
                      "execution"; "geo"] |});
    ("overview",
     {| id := "overview"; display_name := "Overview";
        panel_ids := ["overview"; "regime_stab"; "live_system"] |});
    ("research",
     {| id := "research"; display_name := "Research";
        panel_ids := ["assessment_universe"; "meta_experiments"; "ant_hill"] |});
    ("trading",
     {| id := "trading"; display_name := "Trading";
        panel_ids := ["portfolio_risk"; "execution"; "fragility"; "terminal"] |}) ]%string.

Fixpoint find (key : string) (m : list (string * Workspace)) : option Workspace :=
  match m with
  | [] => None
  | (k, w) :: m' => if String.eqb k key then Some w else find key m'
  end.

Definition get_workspace (id : string) : option Workspace :=
  find id workspaces_.

Definition get_workspace_ids : list string := map fst workspaces_.

Definition get_panels (workspace_id : string) : list string :=
  match get_workspace workspace_id with
  | Some w => panel_ids w
  | None => []
  end.

End WorkspaceManager.

(* ================================================================== *)
(** * The panels (panels/*.cpp) *)
(* ================================================================== *)

(** Each panel class is a module: its structs, its data members (with the
    [BasePanel] sub-object as [base]), its constructor [make], its [refresh]
    and its [handle_input].  The hard-coded data that [refresh] falls back
    to is named [mock_...]. *)

Module OverviewPanel.
Import Eff Api.
Local Open Scope eff_scope.
Local Open Scope string_scope.

Record t := {
  base : BasePanel.t;
  overview_data_ : option json;
  regime_data_ : option json;
  stability_data_ : option json;
  error_message_ : string
}.

Definition make : t := {|
  base := BasePanel.make "overview" "System Overview & Health";
  overview_data_ := None;
  regime_data_ := None;
  stability_data_ := None;
  error_message_ := ""
|}.

Definition mock_overview_data : json :=
  JObject
    [ ("pnl_today", JFloat 1234.56);
      ("pnl_mtd", JFloat 5432.10);
      ("pnl_ytd", JFloat 12345.67);
      ("max_drawdown", JFloat (-0.042));
      ("net_exposure", JFloat 0.125);
      ("gross_exposure", JFloat 1.234);
      ("leverage", JFloat 1.45);
      ("global_stability_index", JFloat 0.872);
      ("regimes",
       JArray
         [ JObject [("region", JString "US");
                    ("regime_label", JString "GROWTH");
                    ("confidence", JFloat 0.85)];
           JObject [("region", JString "EU");
                    ("regime_label", JString "DEFENSIVE");
                    ("confidence", JFloat 0.72)];
           JObject [("region", JString "ASIA");
                    ("regime_label", JString "TRANSITION");
                    ("confidence", JFloat 0.45)] ]);
      ("alerts",
       JArray
         [ JObject [("severity", JString "WARN");
                    ("message", JString "High volatility detected in US_EQ")];
           JObject [("severity", JString "INFO");
                    ("message", JString "Backtest completed successfully")] ]) ].

Definition mock_regime_data : json :=
  JObject [("current_regime", JString "GROWTH"); ("confidence", JFloat 0.85)].

(** [OverviewPanel::refresh]. *)
Definition refresh (api : ApiClient) (p : t) : M t :=
  LOG_INFO "OverviewPanel" "Refreshing data..." ;;
  overview <- request (get_status_overview api) ;;
  match overview with
  | None =>
      LOG_WARN "OverviewPanel" "Backend not available, using mock data" ;;
      LOG_INFO "OverviewPanel" "Mock data loaded" ;;
      ret {| base := BasePanel.mark_clean (base p);
             overview_data_ := Some mock_overview_data;
             regime_data_ := Some mock_regime_data;
             stability_data_ := stability_data_ p;
             error_message_ := "" |}
  | Some _ =>
      regime <- request (get_status_regime api "US" "") ;;
      stability <- request (get_status_stability api "US" "") ;;
      LOG_INFO "OverviewPanel" "Data refreshed successfully" ;;
      ret {| base := BasePanel.mark_clean (base p);
             overview_data_ := overview;
             regime_data_ := regime;
             stability_data_ := stability;
             error_message_ := "" |}
  end.

(** Not overridden: [BasePanel::handle_input]. *)
Definition handle_input (p : t) (ch : Z) : M (t * bool) :=
  let (b, consumed) := BasePanel.handle_input (base p) ch in
  ret ({| base := b;
          overview_data_ := overview_data_ p;
          regime_data_ := regime_data_ p;
          stability_data_ := stability_data_ p;
          error_message_ := error_message_ p |}, consumed).

End OverviewPanel.

Module RegimeStabPanel.
Import Eff Api Keys.
Local Open Scope eff_scope.
Local Open Scope string_scope.

Inductive RegimeData :=
  mkRegimeData (regime_name : string) (stability fragility : float)
               (status : string) (days_in_regime : Z).

Inductive RegimeTransition :=
  mkRegimeTransition (from_regime to_regime : string) (probability : float).

Record t := {
  base : BasePanel.t;
  regimes_ : list RegimeData;
  transitions_ : list RegimeTransition;
  current_regime_ : string;
  overall_fragility_ : float
}.

Definition make : M t :=
  LOG_INFO "RegimeStabPanel" "Initialized" ;;
  ret {| base := BasePanel.make "regime_stab" "Regime Stability";
         regimes_ := [];
         transitions_ := [];
         current_regime_ := "";
         overall_fragility_ := 0 |}.

Definition mock_regimes : list RegimeData :=
  [ mkRegimeData "RISK_ON" 0.82 0.35 "STABLE" 47;
    mkRegimeData "NEUTRAL" 0.65 0.58 "TRANSITIONAL" 12;
    mkRegimeData "RISK_OFF" 0.71 0.48 "STABLE" 23;
    mkRegimeData "CRISIS" 0.45 0.89 "VOLATILE" 3 ].

Definition mock_transitions : list RegimeTransition :=
  [ mkRegimeTransition "RISK_ON" "NEUTRAL" 0.15;
    mkRegimeTransition "RISK_ON" "RISK_OFF" 0.08;
    mkRegimeTransition "NEUTRAL" "RISK_ON" 0.25;
    mkRegimeTransition "NEUTRAL" "RISK_OFF" 0.18;
    mkRegimeTransition "RISK_OFF" "NEUTRAL" 0.22;
    mkRegimeTransition "CRISIS" "RISK_OFF" 0.42 ].

Section Refresh.
(** [parse_regime_data], which reads the document through the JSON
    library. *)
Variable parse_regime_data : json -> t -> M t.

(** [RegimeStabPanel::refresh]. *)
Definition refresh (api : ApiClient) (p : t) : M t :=
  LOG_INFO "RegimeStabPanel" "Refreshing data..." ;;
  response <- request (get_status_regime api "US" "") ;;
  match response with
  | Some data => parse_regime_data data p
  | None =>
      LOG_WARN "RegimeStabPanel" "Using mock regime data" ;;
      ret {| base := base p;
             regimes_ := mock_regimes;
             transitions_ := mock_transitions;
             current_regime_ := "RISK_ON";
             overall_fragility_ := 0.42 |}
  end.
End Refresh.

(** [RegimeStabPanel::handle_input]. *)
Definition handle_input (p : t) (ch : Z) : M (t * bool) :=
  if (ch =? KEY_UP)%Z || (ch =? KEY_DOWN)%Z then
    LOG_INFO "RegimeStabPanel" "Navigation key pressed" ;;
    ret (p, true)
  else ret (p, false).

End RegimeStabPanel.

Module LiveSystemPanel.
Import Cxx Eff Api Keys.
Local Open Scope eff_scope.
Local Open Scope string_scope.

Inductive SystemMetric :=
  mkSystemMetric (name : string) (value : float) (unit status : string).

Inductive LogEntry :=
  mkLogEntry (timestamp level component message : string).

Record t := {
  base : BasePanel.t;
  metrics_ : list SystemMetric;
  recent_logs_ : list LogEntry;
  system_status_ : string;
  scroll_offset_ : Z
}.

Definition make : M t :=
  LOG_INFO "LiveSystemPanel" "Initialized" ;;
  ret {| base := BasePanel.make "live_system" "Live System";
         metrics_ := [];
         recent_logs_ := [];
         system_status_ := "";
         scroll_offset_ := 0 |}.

Definition mock_metrics : list SystemMetric :=
  [ mkSystemMetric "CPU Usage" 42.5 "%" "OK";
    mkSystemMetric "Memory" 68.2 "%" "OK";
    mkSystemMetric "Disk I/O" 15.3 "MB/s" "OK";
    mkSystemMetric "Network" 128.7 "Mbps" "OK";
    mkSystemMetric "Active Orders" 47 "" "OK";
    mkSystemMetric "Connections" 8 "" "OK";
    mkSystemMetric "Latency" 12.4 "ms" "OK";
    mkSystemMetric "Throughput" 1250 "msgs/s" "OK" ].

Definition mock_recent_logs : list LogEntry :=
  [ mkLogEntry "2024-12-08 15:42:13" "INFO" "OrderManager"
      "Order filled: AAPL 100 @ 185.50";
    mkLogEntry "2024-12-08 15:42:10" "INFO" "RiskEngine"
      "Position check passed";
    mkLogEntry "2024-12-08 15:41:58" "WARN" "DataFeed"
      "Minor latency spike: 45ms";
    mkLogEntry "2024-12-08 15:41:45" "INFO" "Strategy"
      "Signal generated: BUY MSFT";
    mkLogEntry "2024-12-08 15:41:32" "INFO" "Portfolio" "Rebalance triggered";
    mkLogEntry "2024-12-08 15:41:20" "INFO" "Market" "Market open detected";
    mkLogEntry "2024-12-08 15:41:15" "INFO" "System" "Health check passed";
    mkLogEntry "2024-12-08 15:41:00" "INFO" "OrderManager"
      "Order submitted: TSLA 50" ].

Definition set_scroll_offset (s : Z) (p : t) : t := {|
  base := base p;
  metrics_ := metrics_ p;
  recent_logs_ := recent_logs_ p;
  system_status_ := system_status_ p;
  scroll_offset_ := s
|}.

Section Refresh.
(** [parse_system_data], which reads the document through the JSON
    library. *)
Variable parse_system_data : json -> t -> M t.

(** [LiveSystemPanel::refresh]. *)
Definition refresh (api : ApiClient) (p : t) : M t :=
  LOG_INFO "LiveSystemPanel" "Refreshing data..." ;;
  overview_response <- request (get_status_overview api) ;;
  match overview_response with
  | Some data => parse_system_data data p
  | None =>
      LOG_WARN "LiveSystemPanel" "Using mock system data" ;;
      ret {| base := base p;
             metrics_ := mock_metrics;
             recent_logs_ := mock_recent_logs;
             system_status_ := "HEALTHY";
             scroll_offset_ := scroll_offset_ p |}
  end.
End Refresh.

(** [LiveSystemPanel::handle_input]. *)
Definition handle_input (p : t) (ch : Z) : M (t * bool) :=
  if (ch =? KEY_UP)%Z then
    if (scroll_offset_ p >? 0)%Z then
      LOG_INFO "LiveSystemPanel" "Scrolled up" ;;
      ret (set_scroll_offset (int_sub (scroll_offset_ p) 1) p, true)
    else ret (p, true)
  else if (ch =? KEY_DOWN)%Z then
    if (int_add (scroll_offset_ p) 10 <? int_wrap (size (recent_logs_ p)))%Z then
      LOG_INFO "LiveSystemPanel" "Scrolled down" ;;
      ret (set_scroll_offset (int_add (scroll_offset_ p) 1) p, true)
    else ret (p, true)
  else ret (p, false).

End LiveSystemPanel.

Module PortfolioRiskPanel.
Import Eff Api.
Local Open Scope eff_scope.
Local Open Scope string_scope.

Inductive RiskMetric :=
  mkRiskMetric (name : string) (value limit : float) (status : string).

Inductive Position :=
  mkPosition (symbol : string) (quantity : Z) (value pnl pnl_pct : float).

Record t := {
  base : BasePanel.t;
  risk_metrics_ : list RiskMetric;
  positions_ : list Position;
  total_portfolio_value_ : float;
  total_pnl_ : float
}.

Definition make : M t :=
  LOG_INFO "PortfolioRiskPanel" "Initialized" ;;
  ret {| base := BasePanel.make "portfolio_risk" "Portfolio Risk";
         risk_metrics_ := [];
         positions_ := [];
         total_portfolio_value_ := 0;
         total_pnl_ := 0 |}.

Definition mock_risk_metrics : list RiskMetric :=
  [ mkRiskMetric "VaR (95%)" 125000 250000 "OK";
    mkRiskMetric "CVaR (95%)" 185000 350000 "OK";
    mkRiskMetric "Max Drawdown" 0.08 0.15 "OK";
    mkRiskMetric "Sharpe Ratio" 1.85 1.0 "OK";
    mkRiskMetric "Beta" 0.92 1.5 "OK";
    mkRiskMetric "Leverage" 1.2 2.0 "OK" ].

Definition mock_positions : list Position :=
  [ mkPosition "AAPL" 500 92750 1250 1.35;
    mkPosition "MSFT" 300 112800 (-450) (-0.40);
    mkPosition "GOOGL" 200 28400 800 2.90;
    mkPosition "TSLA" 150 37875 2125 5.95;
    mkPosition "NVDA" 400 56800 3200 5.97 ].

(** [PortfolioRiskPanel::refresh]. *)
Definition refresh (api : ApiClient) (p : t) : M t :=
  LOG_INFO "PortfolioRiskPanel" "Refreshing data..." ;;
  ret {| base := base p;
         risk_metrics_ := mock_risk_metrics;
         positions_ := mock_positions;
         total_portfolio_value_ := 328625;
         total_pnl_ := 6925 |}.

(** [PortfolioRiskPanel::handle_input]. *)
Definition handle_input (p : t) (ch : Z) : M (t * bool) := ret (p, false).

End PortfolioRiskPanel.

Module ExecutionPanel.
Import Cxx Eff Api Keys.
Local Open Scope eff_scope.
Local Open Scope string_scope.

Inductive Order :=
  mkOrder (timestamp symbol side : string) (quantity : Z) (price : float)
          (status : string).

Record t := {
  base : BasePanel.t;
  recent_orders_ : list Order;
  scroll_offset_ : Z
}.

Definition make : M t :=
  LOG_INFO "ExecutionPanel" "Initialized" ;;
  ret {| base := BasePanel.make "execution" "Execution";
         recent_orders_ := [];
         scroll_offset_ := 0 |}.

Definition mock_recent_orders : list Order :=
  [ mkOrder "15:42:13" "AAPL" "BUY" 100 185.50 "FILLED";
    mkOrder "15:42:05" "MSFT" "SELL" 50 376.20 "FILLED";
    mkOrder "15:41:52" "GOOGL" "BUY" 25 142.15 "FILLED";
    mkOrder "15:41:40" "TSLA" "BUY" 75 252.30 "PARTIAL";
    mkOrder "15:41:28" "NVDA" "SELL" 40 142.00 "FILLED";
    mkOrder "15:41:15" "AAPL" "SELL" 50 185.75 "FILLED";
    mkOrder "15:41:02" "MSFT" "BUY" 100 375.80 "FILLED";
    mkOrder "15:40:48" "GOOGL" "SELL" 30 142.50 "FILLED";
    mkOrder "15:40:35" "TSLA" "SELL" 60 252.75 "FILLED";
    mkOrder "15:40:22" "NVDA" "BUY" 80 141.50 "FILLED";
    mkOrder "15:40:10" "AMD" "BUY" 120 165.80 "FILLED";
    mkOrder "15:39:58" "META" "SELL" 35 482.90 "FILLED";
    mkOrder "15:39:45" "NFLX" "BUY" 15 612.40 "FILLED";
    mkOrder "15:39:30" "AMZN" "SELL" 45 178.25 "FILLED";
    mkOrder "15:39:18" "JPM" "BUY" 90 195.60 "FILLED" ].

(** [ExecutionPanel::refresh]. *)
Definition refresh (api : ApiClient) (p : t) : M t :=
  LOG_INFO "ExecutionPanel" "Refreshing data..." ;;
  exec_response <- request (get_status_execution api "MAIN" "" 50 50) ;;
  match exec_response with
  | Some _ => LOG_INFO "ExecutionPanel" "Loaded real execution data"
  | None => ret tt
  end ;;
  ret {| base := base p;
         recent_orders_ := mock_recent_orders;
         scroll_offset_ := scroll_offset_ p |}.

Definition set_scroll_offset (s : Z) (p : t) : t := {|
  base := base p;
  recent_orders_ := recent_orders_ p;
  scroll_offset_ := s
|}.

(** [ExecutionPanel::handle_input]. *)
Definition handle_input (p : t) (ch : Z) : M (t * bool) :=
  if (ch =? KEY_UP)%Z then
    if (scroll_offset_ p >? 0)%Z
    then ret (set_scroll_offset (int_sub (scroll_offset_ p) 1) p, true)
    else ret (p, true)
  else if (ch =? KEY_DOWN)%Z then
    if (int_add (scroll_offset_ p) 10 <? int_wrap (size (recent_orders_ p)))%Z
    then ret (set_scroll_offset (int_add (scroll_offset_ p) 1) p, true)
    else ret (p, true)
  else ret (p, false).

End ExecutionPanel.

Module AssessmentUniversePanel.
Import Cxx Eff Api Keys.
Local Open Scope eff_scope.
Local Open Scope string_scope.

Inductive UniverseMember :=
  mkUniverseMember (symbol name : string) (assessment_score : float)
                   (universe_status : string)
                   (quality_score liquidity_score : float)
                   (days_in_universe : Z).

Definition universe_status_of (m : UniverseMember) : string :=
  match m with mkUniverseMember _ _ _ st _ _ _ => st end.

Record t := {
  base : BasePanel.t;
  members_ : list UniverseMember;
  strategy_id_ : string;
  scroll_offset_ : Z;
  total_count_ : Z;
  active_count_ : Z
}.

Definition make : M t :=
  LOG_INFO "AssessmentUniversePanel" "Initialized" ;;
  ret {| base := BasePanel.make "assessment_universe" "Assessment Universe";
         members_ := [];
         strategy_id_ := "MAIN";
         scroll_offset_ := 0;
         total_count_ := 0;
         active_count_ := 0 |}.

Definition mock_members : list UniverseMember :=
  [ mkUniverseMember "AAPL" "Apple Inc." 0.87 "IN" 0.92 0.98 245;
    mkUniverseMember "MSFT" "Microsoft Corp." 0.85 "IN" 0.89 0.95 198;
    mkUniverseMember "GOOGL" "Alphabet Inc." 0.82 "IN" 0.88 0.91 167;
    mkUniverseMember "AMZN" "Amazon.com Inc." 0.79 "IN" 0.84 0.89 143;
    mkUniverseMember "NVDA" "NVIDIA Corp." 0.91 "IN" 0.93 0.88 98;
    mkUniverseMember "META" "Meta Platforms" 0.76 "IN" 0.81 0.85 76;
    mkUniverseMember "TSLA" "Tesla Inc." 0.72 "PENDING" 0.75 0.68 0;
    mkUniverseMember "JPM" "JPMorgan Chase" 0.83 "IN" 0.87 0.94 234;
    mkUniverseMember "V" "Visa Inc." 0.88 "IN" 0.91 0.96 287;
    mkUniverseMember "WMT" "Walmart Inc." 0.74 "IN" 0.79 0.92 156;
    mkUniverseMember "DIS" "Walt Disney Co." 0.68 "OUT" 0.71 0.76 0;
    mkUniverseMember "BA" "Boeing Co." 0.63 "OUT" 0.67 0.72 0;
    mkUniverseMember "XOM" "Exxon Mobil" 0.80 "IN" 0.84 0.91 201;
    mkUniverseMember "PG" "Procter & Gamble" 0.77 "IN" 0.82 0.93 178;
    mkUniverseMember "HD" "Home Depot" 0.81 "IN" 0.85 0.89 145 ].

(** [AssessmentUniversePanel::refresh]. *)
Definition refresh (api : ApiClient) (p : t) : M t :=
  LOG_INFO "AssessmentUniversePanel" "Refreshing data..." ;;
  universe_response <- request (get_status_universe api (strategy_id_ p)) ;;
  match universe_response with
  | Some _ => LOG_INFO "AssessmentUniversePanel" "Loaded real universe data"
  | None => ret tt
  end ;;
  ret {| base := base p;
         members_ := mock_members;
         strategy_id_ := strategy_id_ p;
         scroll_offset_ := scroll_offset_ p;
         total_count_ := int_wrap (size mock_members);
         active_count_ :=
           fold_left
             (fun count m =>
                if String.eqb (universe_status_of m) "IN"
                then int_add count 1 else count)
             mock_members 0%Z |}.

Definition set_scroll_offset (s : Z) (p : t) : t := {|
  base := base p;
  members_ := members_ p;
  strategy_id_ := strategy_id_ p;
  scroll_offset_ := s;
  total_count_ := total_count_ p;
  active_count_ := active_count_ p
|}.

(** [AssessmentUniversePanel::handle_input]. *)
Definition handle_input (p : t) (ch : Z) : M (t * bool) :=
  if (ch =? KEY_UP)%Z then
    if (scroll_offset_ p >? 0)%Z
    then ret (set_scroll_offset (int_sub (scroll_offset_ p) 1) p, true)
    else ret (p, true)
  else if (ch =? KEY_DOWN)%Z then
    if (int_add (scroll_offset_ p) 10 <? int_wrap (size (members_ p)))%Z
    then ret (set_scroll_offset (int_add (scroll_offset_ p) 1) p, true)
    else ret (p, true)
  else ret (p, false).

End AssessmentUniversePanel.

Module MetaExperimentsPanel.
Import Eff Api.
Local Open Scope eff_scope.
Local Open Scope string_scope.

Inductive Experiment :=
  mkExperiment (exp_id name status : string) (performance_score : float)
               (iterations : Z) (hyperparams : string).

Record t := {
  base : BasePanel.t;
  experiments_ : list Experiment;
  scroll_offset_ : Z
}.

Definition make : t := {|
  base := BasePanel.make "meta_experiments" "Meta Experiments";
  experiments_ := [];
  scroll_offset_ := 0
|}.

Definition mock_experiments : list Experiment :=
  [ mkExperiment "EXP_001" "LSTM-Attention-v2" "COMPLETED" 0.87 1000
      "lr=0.001,layers=3";
    mkExperiment "EXP_002" "Transformer-Base" "RUNNING" 0.82 743
      "lr=0.0005,heads=8";
    mkExperiment "EXP_003" "GRU-Ensemble" "COMPLETED" 0.79 1200
      "lr=0.002,units=256";
    mkExperiment "EXP_004" "CNN-LSTM-Hybrid" "FAILED" 0.45 234
      "lr=0.01,conv=32";
    mkExperiment "EXP_005" "Meta-Learner-v3" "RUNNING" 0.91 567
      "meta_lr=0.0001" ].

(** [MetaExperimentsPanel::refresh]. *)
Definition refresh (api : ApiClient) (p : t) : M t :=
  ret {| base := base p;
         experiments_ := mock_experiments;
         scroll_offset_ := scroll_offset_ p |}.

(** [MetaExperimentsPanel::handle_input]. *)
Definition handle_input (p : t) (ch : Z) : M (t * bool) := ret (p, false).

End MetaExperimentsPanel.

Module AntHillPanel.
Import Eff Api.
Local Open Scope eff_scope.
Local Open Scope string_scope.

Inductive Scene :=
  mkScene (scene_id name : string) (nodes edges : Z) (status : string).

Record t := {
  base : BasePanel.t;
  scenes_ : list Scene
}.

Definition make : t := {|
  base := BasePanel.make "ant_hill" "ANT_HILL Visualization";
  scenes_ := []
|}.

Definition mock_scenes : list Scene :=
  [ mkScene "SCENE_001" "Strategy Network" 247 589 "ACTIVE";
    mkScene "SCENE_002" "Risk Connectivity" 189 423 "ACTIVE";
    mkScene "SCENE_003" "Asset Correlations" 512 1247 "RENDERING";
    mkScene "SCENE_004" "Market Topology" 334 756 "ACTIVE" ].

(** [AntHillPanel::refresh]. *)
Definition refresh (api : ApiClient) (p : t) : M t :=
  ret {| base := base p; scenes_ := mock_scenes |}.

(** [AntHillPanel::handle_input]. *)
Definition handle_input (p : t) (ch : Z) : M (t * bool) := ret (p, false).

End AntHillPanel.

(** ** The panel interface *)

(** A [BasePanel*]: one of the eight classes, with the virtual functions
    dispatched on the class. *)
Module Panel.
Import Eff Api.
Local Open Scope eff_scope.
Local Open Scope string_scope.

Inductive t :=
| Overview (p : OverviewPanel.t)
| RegimeStab (p : RegimeStabPanel.t)
| LiveSystem (p : LiveSystemPanel.t)
| PortfolioRisk (p : PortfolioRiskPanel.t)
| Execution (p : ExecutionPanel.t)
| AssessmentUniverse (p : AssessmentUniversePanel.t)
| MetaExperiments (p : MetaExperimentsPanel.t)
| AntHill (p : AntHillPanel.t).

(** The [BasePanel] sub-object. *)
Definition base (panel : t) : BasePanel.t :=
  match panel with
  | Overview p => OverviewPanel.base p
  | RegimeStab p => RegimeStabPanel.base p
  | LiveSystem p => LiveSystemPanel.base p
  | PortfolioRisk p => PortfolioRiskPanel.base p
  | Execution p => ExecutionPanel.base p
  | AssessmentUniverse p => AssessmentUniversePanel.base p
  | MetaExperiments p => MetaExperimentsPanel.base p
  | AntHill p => AntHillPanel.base p
  end.

Definition map_base (f : BasePanel.t -> BasePanel.t) (panel : t) : t :=
  match panel with
  | Overview p =>
      Overview
        {| OverviewPanel.base := f (OverviewPanel.base p);
           OverviewPanel.overview_data_ := OverviewPanel.overview_data_ p;
           OverviewPanel.regime_data_ := OverviewPanel.regime_data_ p;
           OverviewPanel.stability_data_ := OverviewPanel.stability_data_ p;
           OverviewPanel.error_message_ := OverviewPanel.error_message_ p |}
  | RegimeStab p =>
      RegimeStab
        {| RegimeStabPanel.base := f (RegimeStabPanel.base p);
           RegimeStabPanel.regimes_ := RegimeStabPanel.regimes_ p;
           RegimeStabPanel.transitions_ := RegimeStabPanel.transitions_ p;
           RegimeStabPanel.current_regime_ := RegimeStabPanel.current_regime_ p;
           RegimeStabPanel.overall_fragility_ :=
             RegimeStabPanel.overall_fragility_ p |}
  | LiveSystem p =>
      LiveSystem
        {| LiveSystemPanel.base := f (LiveSystemPanel.base p);
           LiveSystemPanel.metrics_ := LiveSystemPanel.metrics_ p;
           LiveSystemPanel.recent_logs_ := LiveSystemPanel.recent_logs_ p;
           LiveSystemPanel.system_status_ := LiveSystemPanel.system_status_ p;
           LiveSystemPanel.scroll_offset_ := LiveSystemPanel.scroll_offset_ p |}
  | PortfolioRisk p =>
      PortfolioRisk
        {| PortfolioRiskPanel.base := f (PortfolioRiskPanel.base p);
           PortfolioRiskPanel.risk_metrics_ := PortfolioRiskPanel.risk_metrics_ p;
           PortfolioRiskPanel.positions_ := PortfolioRiskPanel.positions_ p;
           PortfolioRiskPanel.total_portfolio_value_ :=
             PortfolioRiskPanel.total_portfolio_value_ p;
           PortfolioRiskPanel.total_pnl_ := PortfolioRiskPanel.total_pnl_ p |}
  | Execution p =>
      Execution
        {| ExecutionPanel.base := f (ExecutionPanel.base p);
           ExecutionPanel.recent_orders_ := ExecutionPanel.recent_orders_ p;
           ExecutionPanel.scroll_offset_ := ExecutionPanel.scroll_offset_ p |}
  | AssessmentUniverse p =>
      AssessmentUniverse
        {| AssessmentUniversePanel.base := f (AssessmentUniversePanel.base p);
           AssessmentUniversePanel.members_ := AssessmentUniversePanel.members_ p;
           AssessmentUniversePanel.strategy_id_ :=
             AssessmentUniversePanel.strategy_id_ p;
           AssessmentUniversePanel.scroll_offset_ :=
             AssessmentUniversePanel.scroll_offset_ p;
           AssessmentUniversePanel.total_count_ :=
             AssessmentUniversePanel.total_count_ p;
           AssessmentUniversePanel.active_count_ :=
             AssessmentUniversePanel.active_count_ p |}
  | MetaExperiments p =>
      MetaExperiments
        {| MetaExperimentsPanel.base := f (MetaExperimentsPanel.base p);
           MetaExperimentsPanel.experiments_ := MetaExperimentsPanel.experiments_ p;
           MetaExperimentsPanel.scroll_offset_ :=
             MetaExperimentsPanel.scroll_offset_ p |}
  | AntHill p =>
      AntHill
        {| AntHillPanel.base := f (AntHillPanel.base p);
           AntHillPanel.scenes_ := AntHillPanel.scenes_ p |}
  end.

Definition panel_id (panel : t) : string := BasePanel.panel_id_ (base panel).
Definition needs_refresh (panel : t) : bool :=
  BasePanel.needs_refresh_ (base panel).

(** [BasePanel::on_activated] and [BasePanel::on_deactivated], which no
    class overrides. *)
Definition on_activated (panel : t) : M t :=
  LOG_INFO "Panel" ("Activated: " ++ panel_id panel) ;;
  ret (map_base BasePanel.mark_dirty panel).

Definition on_deactivated (panel : t) : M t :=
  LOG_INFO "Panel" ("Deactivated: " ++ panel_id panel) ;;
  ret panel.

(** The functions that read a document through the JSON library. *)
Record Parsers := {
  parse_regime_data : json -> RegimeStabPanel.t -> M RegimeStabPanel.t;
  parse_system_data : json -> LiveSystemPanel.t -> M LiveSystemPanel.t
}.

(** [panel->refresh(api_client)]. *)
Definition refresh (ps : Parsers) (api : ApiClient) (panel : t) : M t :=
  match panel with
  | Overview p => q <- OverviewPanel.refresh api p ;; ret (Overview q)
  | RegimeStab p =>
      q <- RegimeStabPanel.refresh (parse_regime_data ps) api p ;;
      ret (RegimeStab q)
  | LiveSystem p =>
      q <- LiveSystemPanel.refresh (parse_system_data ps) api p ;;
      ret (LiveSystem q)
  | PortfolioRisk p => q <- PortfolioRiskPanel.refresh api p ;; ret (PortfolioRisk q)
  | Execution p => q <- ExecutionPanel.refresh api p ;; ret (Execution q)
  | AssessmentUniverse p =>
      q <- AssessmentUniversePanel.refresh api p ;; ret (AssessmentUniverse q)
  | MetaExperiments p =>
      q <- MetaExperimentsPanel.refresh api p ;; ret (MetaExperiments q)
  | AntHill p => q <- AntHillPanel.refresh api p ;; ret (AntHill q)
  end.

(** [panel->handle_input(ch)]. *)
Definition handle_input (panel : t) (ch : Z) : M (t * bool) :=
  match panel with
  | Overview p =>
      r <- OverviewPanel.handle_input p ch ;; ret (Overview (fst r), snd r)
  | RegimeStab p =>
      r <- RegimeStabPanel.handle_input p ch ;; ret (RegimeStab (fst r), snd r)
  | LiveSystem p =>
      r <- LiveSystemPanel.handle_input p ch ;; ret (LiveSystem (fst r), snd r)
  | PortfolioRisk p =>
      r <- PortfolioRiskPanel.handle_input p ch ;;
      ret (PortfolioRisk (fst r), snd r)
  | Execution p =>
      r <- ExecutionPanel.handle_input p ch ;; ret (Execution (fst r), snd r)
  | AssessmentUniverse p =>
      r <- AssessmentUniversePanel.handle_input p ch ;;
      ret (AssessmentUniverse (fst r), snd r)
  | MetaExperiments p =>
      r <- MetaExperimentsPanel.handle_input p ch ;;
      ret (MetaExperiments (fst r), snd r)
  | AntHill p =>
      r <- AntHillPanel.handle_input p ch ;; ret (AntHill (fst r), snd r)
  end.

(** The hard-coded dataset of each class: the panel's content is it. *)
Definition shows_placeholder (panel : t) : Prop :=
  match panel with
  | Overview p =>
      OverviewPanel.overview_data_ p = Some OverviewPanel.mock_overview_data
      /\ OverviewPanel.regime_data_ p = Some OverviewPanel.mock_regime_data
  | RegimeStab p =>
      RegimeStabPanel.regimes_ p = RegimeStabPanel.mock_regimes
      /\ RegimeStabPanel.transitions_ p = RegimeStabPanel.mock_transitions
      /\ RegimeStabPanel.current_regime_ p = "RISK_ON"
      /\ RegimeStabPanel.overall_fragility_ p = 0.42%float
  | LiveSystem p =>
      LiveSystemPanel.metrics_ p = LiveSystemPanel.mock_metrics
      /\ LiveSystemPanel.recent_logs_ p = LiveSystemPanel.mock_recent_logs
      /\ LiveSystemPanel.system_status_ p = "HEALTHY"
  | PortfolioRisk p =>
      PortfolioRiskPanel.risk_metrics_ p = PortfolioRiskPanel.mock_risk_metrics
      /\ PortfolioRiskPanel.positions_ p = PortfolioRiskPanel.mock_positions
      /\ PortfolioRiskPanel.total_portfolio_value_ p = 328625%float
      /\ PortfolioRiskPanel.total_pnl_ p = 6925%float
  | Execution p =>
      ExecutionPanel.recent_orders_ p = ExecutionPanel.mock_recent_orders
  | AssessmentUniverse p =>
      AssessmentUniversePanel.members_ p = AssessmentUniversePanel.mock_members
      /\ AssessmentUniversePanel.total_count_ p = 15%Z
      /\ AssessmentUniversePanel.active_count_ p = 12%Z
  | MetaExperiments p =>
      MetaExperimentsPanel.experiments_ p = MetaExperimentsPanel.mock_experiments
  | AntHill p => AntHillPanel.scenes_ p = AntHillPanel.mock_scenes
  end.

End Panel.

(* ================================================================== *)
(** * The screen manager and the navigation controller *)
(* ================================================================== *)

(** What the program reads from outside during one step: the answers of
    the backend, the terminal size reported by curses ([getmaxyx]) and the
    reading of [std::chrono::steady_clock], in nanoseconds. *)
Record Env := {
  api_client : Api.ApiClient;
  term_cols : Z;
  term_lines : Z;
  now : Z
}.

(** [std::format ("{}", n)] for an integer. *)
Definition format_int (n : Z) : string :=
  NilEmpty.string_of_int (Z.to_int n).

(** [class UIManager] (ui_manager.cpp): the members that outlive a frame. *)
Module UIManager.
Import Eff.
Local Open Scope eff_scope.
Local Open Scope string_scope.

Record t := {
  layout_ : Layout.LayoutDimensions;
  active_panel_ : option Panel.t;
  initialized_ : bool
}.

Definition set_panel (panel : option Panel.t) (ui : t) : t := {|
  layout_ := layout_ ui;
  active_panel_ := panel;
  initialized_ := initialized_ ui
|}.

(** [UIManager::set_active_panel]. *)
Definition set_active_panel (panel : option Panel.t) (ui : t) : M t :=
  match active_panel_ ui with
  | Some old => Panel.on_deactivated old ;; ret tt
  | None => ret tt
  end ;;
  match panel with
  | Some new =>
      activated <- Panel.on_activated new ;;
      modify_app_state (AppState.set_active_panel (Panel.panel_id activated)) ;;
      ret (set_panel (Some activated) ui)
  | None => ret (set_panel None ui)
  end.

(** [UIManager::update_layout], with [create_windows]' log line. *)
Definition update_layout (env : Env) (ui : t) : M t :=
  let h := term_lines env in
  let w := term_cols env in
  if negb (h =? Layout.term_height (layout_ ui))%Z
     || negb (w =? Layout.term_width (layout_ ui))%Z
  then
    LOG_INFO "UIManager" "Windows created" ;;
    LOG_INFO "UIManager"
      ("Layout updated (" ++ format_int w ++ "x" ++ format_int h ++ ")") ;;
    ret {| layout_ := Layout.calculate (layout_ ui) w h;
           active_panel_ := active_panel_ ui;
           initialized_ := initialized_ ui |}
  else ret ui.

End UIManager.

(** [class Application] (application.cpp). *)
Module Application.
Import Cxx Keys Eff.
Local Open Scope eff_scope.
Local Open Scope string_scope.

Record t := {
  ui_manager_ : UIManager.t;
  running_ : bool;
  backend_available_ : bool;
  current_panel_list_ : list string;
  current_panel_index_ : Z;
  last_refresh_ : Z
}.

Definition set_ui_manager (ui : UIManager.t) (app : t) : t := {|
  ui_manager_ := ui;
  running_ := running_ app;
  backend_available_ := backend_available_ app;
  current_panel_list_ := current_panel_list_ app;
  current_panel_index_ := current_panel_index_ app;
  last_refresh_ := last_refresh_ app
|}.

Definition set_panels (panels : list string) (index : Z) (app : t) : t := {|
  ui_manager_ := ui_manager_ app;
  running_ := running_ app;
  backend_available_ := backend_available_ app;
  current_panel_list_ := panels;
  current_panel_index_ := index;
  last_refresh_ := last_refresh_ app
|}.

Definition set_last_refresh (time : Z) (app : t) : t := {|
  ui_manager_ := ui_manager_ app;
  running_ := running_ app;
  backend_available_ := backend_available_ app;
  current_panel_list_ := current_panel_list_ app;
  current_panel_index_ := current_panel_index_ app;
  last_refresh_ := time
|}.

(** The panel ids the factory knows. *)
Definition implemented (panel_id : string) : bool :=
  existsb (String.eqb panel_id)
    ["overview"; "regime_stab"; "live_system"; "portfolio_risk"; "execution";
     "assessment_universe"; "meta_experiments"; "ant_hill"].

(** [refresh_interval], 10 s, in nanoseconds. *)
Definition refresh_interval : Z := 10000000000.

Section Controller.
Variable parsers : Panel.Parsers.

(** [Application::create_panel]. *)
Definition create_panel (panel_id : string) : M Panel.t :=
  if String.eqb panel_id "overview" then
    ret (Panel.Overview OverviewPanel.make)
  else if String.eqb panel_id "regime_stab" then
    p <- RegimeStabPanel.make ;; ret (Panel.RegimeStab p)
  else if String.eqb panel_id "live_system" then
    p <- LiveSystemPanel.make ;; ret (Panel.LiveSystem p)
  else if String.eqb panel_id "portfolio_risk" then
    p <- PortfolioRiskPanel.make ;; ret (Panel.PortfolioRisk p)
  else if String.eqb panel_id "execution" then
    p <- ExecutionPanel.make ;; ret (Panel.Execution p)
  else if String.eqb panel_id "assessment_universe" then
    p <- AssessmentUniversePanel.make ;; ret (Panel.AssessmentUniverse p)
  else if String.eqb panel_id "meta_experiments" then
    ret (Panel.MetaExperiments MetaExperimentsPanel.make)
  else if String.eqb panel_id "ant_hill" then
    ret (Panel.AntHill AntHillPanel.make)
  else
    LOG_WARN "Application"
      ("Panel '" ++ panel_id ++ "' not implemented yet, using Overview") ;;
    ret (Panel.Overview OverviewPanel.make).

(** [Application::switch_to_panel]: the factory never returns null, and
    both branches of the first test refresh the panel. *)
Definition switch_to_panel (env : Env) (panel_id : string) (app : t) : M t :=
  LOG_INFO "Application" ("Switching to panel: " ++ panel_id) ;;
  panel <- create_panel panel_id ;;
  panel <- Panel.refresh parsers (api_client env) panel ;;
  ui <- UIManager.set_active_panel (Some panel) (ui_manager_ app) ;;
  modify_app_state (AppState.set_active_panel panel_id) ;;
  ret (set_ui_manager ui app).

(** [Application::cycle_next_panel]. *)
Definition cycle_next_panel (env : Env) (app : t) : M t :=
  match current_panel_list_ app with
  | [] => ret app
  | _ :: _ =>
      let n := size (current_panel_list_ app) in
      let index := (size_add (current_panel_index_ app) 1 mod n)%Z in
      let app := set_panels (current_panel_list_ app) index app in
      app <- switch_to_panel env (at_ "" (current_panel_list_ app) index) app ;;
      LOG_INFO "Application"
        ("Cycled to panel " ++ format_int (size_add index 1) ++ "/"
         ++ format_int n) ;;
      ret app
  end.

(** [Application::cycle_prev_panel]. *)
Definition cycle_prev_panel (env : Env) (app : t) : M t :=
  match current_panel_list_ app with
  | [] => ret app
  | _ :: _ =>
      let n := size (current_panel_list_ app) in
      let index :=
        if (current_panel_index_ app =? 0)%Z then size_sub n 1
        else size_sub (current_panel_index_ app) 1 in
      let app := set_panels (current_panel_list_ app) index app in
      app <- switch_to_panel env (at_ "" (current_panel_list_ app) index) app ;;
      LOG_INFO "Application"
        ("Cycled to panel " ++ format_int (size_add index 1) ++ "/"
         ++ format_int n) ;;
      ret app
  end.

(** [Application::switch_workspace]. *)
Definition switch_workspace (env : Env) (workspace_id : string) (app : t)
  : M t :=
  LOG_INFO "Application" ("Switching to workspace: " ++ workspace_id) ;;
  match WorkspaceManager.get_workspace workspace_id with
  | None =>
      LOG_ERROR "Application" ("Workspace not found: " ++ workspace_id) ;;
      ret app
  | Some workspace =>
      modify_app_state (AppState.set_active_workspace workspace_id) ;;
      let app := set_panels (WorkspaceManager.panel_ids workspace) 0 app in
      match current_panel_list_ app with
      | [] => ret app
      | first :: _ => switch_to_panel env first app
      end
  end.

(** The element after the first occurrence of [current] in [ids], wrapping
    around to [first]; [first] also when [current] does not occur. *)
Fixpoint next_after (current first : string) (ids : list string) : string :=
  match ids with
  | [] => first
  | id :: rest =>
      if String.eqb id current
      then match rest with [] => first | next :: _ => next end
      else next_after current first rest
  end.

(** [Application::cycle_next_workspace]. *)
Definition cycle_next_workspace (env : Env) (app : t) : M t :=
  match WorkspaceManager.get_workspace_ids with
  | [] => ret app
  | first :: _ =>
      a <- get_app_state ;;
      switch_workspace env
        (next_after (AppState.active_workspace_ a) first
                    WorkspaceManager.get_workspace_ids)
        app
  end.

(** [Application::handle_input]: the application after the key, and
    whether to continue running. *)
Definition handle_input (env : Env) (ch : Z) (app : t) : M (t * bool) :=
  LOG_INFO "input"
    ("Key: " ++ format_int ch ++ " ('" ++ String (byte_of ch) "" ++ "')") ;;
  if (ch =? 113)%Z || (ch =? 81)%Z then
    LOG_INFO "Application" "User quit" ;;
    ret (app, false)
  else if (ch =? 114)%Z || (ch =? 82)%Z then
    match UIManager.active_panel_ (ui_manager_ app) with
    | Some panel =>
        panel <- Panel.refresh parsers (api_client env) panel ;;
        LOG_INFO "Application" "Manual refresh triggered" ;;
        ret (set_ui_manager
               (UIManager.set_panel (Some panel) (ui_manager_ app)) app, true)
    | None => ret (app, true)
    end
  else if (ch =? 9)%Z then
    app <- cycle_next_panel env app ;; ret (app, true)
  else if (ch =? 119)%Z || (ch =? 87)%Z then
    app <- cycle_next_workspace env app ;; ret (app, true)
  else if (ch =? KEY_RESIZE)%Z then
    ui <- UIManager.update_layout env (ui_manager_ app) ;;
    LOG_INFO "Application" "Terminal resized" ;;
    ret (set_ui_manager ui app, true)
  else
    match UIManager.active_panel_ (ui_manager_ app) with
    | Some panel =>
        r <- Panel.handle_input panel ch ;;
        ret (set_ui_manager
               (UIManager.set_panel (Some (fst r)) (ui_manager_ app)) app,
             true)
    | None => ret (app, true)
    end.

(** [Application::handle_auto_refresh]. *)
Definition handle_auto_refresh (env : Env) (app : t) : M t :=
  if (now env - last_refresh_ app >=? refresh_interval)%Z then
    app <-
      match UIManager.active_panel_ (ui_manager_ app) with
      | Some panel =>
          panel <- Panel.refresh parsers (api_client env) panel ;;
          LOG_INFO "Application" "Auto-refresh triggered" ;;
          ret (set_ui_manager
                 (UIManager.set_panel (Some panel) (ui_manager_ app)) app)
      | None => ret app
      end ;;
    ret (set_last_refresh (now env) app)
  else ret app.

(** One iteration of the loop of [Application::run], after rendering:
    [ch] is what [get_input] returned, [ERR] when no key was pending.  The
    flag is false when the loop is left. *)
Definition loop_iteration (env : Env) (ch : Z) (app : t) : M (t * bool) :=
  if (ch =? ERR)%Z then
    app <- handle_auto_refresh env app ;; ret (app, true)
  else
    r <- handle_input env ch app ;;
    if snd r then
      app <- handle_auto_refresh env (fst r) ;; ret (app, true)
    else ret (fst r, false).

(** The loop over the iterations the environment offers. *)
Fixpoint run_loop (events : list (Env * Z)) (app : t) : M t :=
  match events with
  | [] => ret app
  | (env, ch) :: events' =>
      r <- loop_iteration env ch app ;;
      if snd r then run_loop events' (fst r) else ret (fst r)
  end.

End Controller.

(** The timer as a function of the clock readings alone: it restarts at a
    reading that is at least [refresh_interval] after it was last
    restarted, and at no other. *)
Fixpoint timer_after (last_refresh : Z) (clock : list Z) : Z :=
  match clock with
  | [] => last_refresh
  | time :: clock' =>
      timer_after
        (if (time - last_refresh >=? refresh_interval)%Z then time
         else last_refresh)
        clock'
  end.

(** The key does not end the loop. *)
Definition keeps_running (ch : Z) : bool :=
  negb ((ch =? 113)%Z || (ch =? 81)%Z).

End Application.

(* ================================================================== *)
(** * A concrete session *)
(* ================================================================== *)

(** The state the examples start from: the backend is down, the terminal
    is 100x40, the "overview" workspace is loaded and no panel is active
    yet. *)
Module Session.
Import Eff.
Local Open Scope Z_scope.

(** With the backend down no document is ever parsed. *)
Definition parsers : Panel.Parsers := {|
  Panel.parse_regime_data := fun _ p => ret p;
  Panel.parse_system_data := fun _ p => ret p
|}.

Definition globals : Globals := {|
  logger := Logger.initial;
  app_state := AppState.initial
|}.

Definition app : Application.t := {|
  Application.ui_manager_ :=
    {| UIManager.layout_ := Layout.calculate Layout.initial 100 40;
       UIManager.active_panel_ := None;
       UIManager.initialized_ := true |};
  Application.running_ := true;
  Application.backend_available_ := false;
  Application.current_panel_list_ := WorkspaceManager.get_panels "overview";
  Application.current_panel_index_ := 0;
  Application.last_refresh_ := 0
|}.

(** The environment at clock reading [time], in nanoseconds. *)
Definition env_at (time : Z) : Env := {|
  api_client := Api.down;
  term_cols := 100;
  term_lines := 40;
  now := time
|}.

(** The environment once the terminal has been resized to [w] columns and
    [h] lines. *)
Definition resized (w h : Z) : Env := {|
  api_client := Api.down;
  term_cols := w;
  term_lines := h;
  now := 0
|}.

(** The screen manager after the resize notifications for the given
    terminal sizes, in order. *)
Definition after_resizes (sizes : list (Z * Z)) : UIManager.t :=
  fst (fold_left
         (fun st '(w, h) => UIManager.update_layout (resized w h) (fst st) (snd st))
         sizes (Application.ui_manager_ app, globals)).

(** What [Application::init] leaves: the first panel of the workspace has
    been switched to and the timer started, here at clock reading 0. *)
Definition started : Application.t * Globals :=
  Application.switch_to_panel parsers (env_at 0) "overview" app globals.

(** The session after the given keys, one per loop iteration, each with
    the clock reading of its iteration. *)
Definition after_keys (keys : list (Z * Z)) : Application.t * Globals :=
  Application.run_loop parsers
    (map (fun '(time, ch) => (env_at time, ch)) keys)
    (fst started) (snd started).

(** The messages the application itself has logged, oldest first. *)
Definition application_log (g : Globals) : list string :=
  map Logger.message
    (filter (fun e => String.eqb (Logger.source e) "Application")
            (Logger.entries_ (logger g))).

(** The id of the active panel object, if any. *)
Definition active_panel_id (a : Application.t) : option string :=
  option_map Panel.panel_id
    (UIManager.active_panel_ (Application.ui_manager_ a)).

End Session.

(* ================================================================== *)
(** * The HTTP client and the API client's response handling *)
(* ================================================================== *)

(** utils/http_client.cpp and the helper of api_client.cpp.  What libcurl
    does with a request is an input: the outcome of the transfer. *)
Module Http.
Import Eff Api.
Local Open Scope eff_scope.
Local Open Scope string_scope.

(** [struct HttpResponse]. *)
Record HttpResponse := {
  status_code : Z;
  body : string;
  success : bool;
  error_message : string
}.

(** The outcome of a transfer: no curl handle, an error of
    [curl_easy_perform] with its [curl_easy_strerror] text, or an answer with
    its status code and body. *)
Inductive Transfer :=
| NoHandle
| TransferFailed (strerror : string)
| Answered (code : Z) (response_body : string).

(** [HttpClient::full_url]. *)
Definition full_url (base_url_ path : string) : string :=
  match path with
  | EmptyString => base_url_ ++ "/" ++ path
  | String c _ =>
      if Ascii.eqb c "/" then base_url_ ++ path
      else base_url_ ++ "/" ++ path
  end.

(** [HttpClient::perform_request], from the outcome of the transfer on. *)
Definition perform_request (outcome : Transfer) : M HttpResponse :=
  match outcome with
  | NoHandle =>
      ret {| status_code := 0; body := ""; success := false;
             error_message := "Failed to initialize CURL" |}
  | TransferFailed strerror =>
      LOG_ERROR "HttpClient" ("Request failed: " ++ strerror) ;;
      ret {| status_code := 0; body := ""; success := false;
             error_message := strerror |}
  | Answered code response_body =>
      let ok := ((code >=? 200) && (code <? 300))%Z in
      (if ok then ret tt
       else LOG_WARN "HttpClient"
              ("Request returned status " ++ format_int code)) ;;
      ret {| status_code := code; body := response_body; success := ok;
             error_message := if ok then "" else "HTTP " ++ format_int code |}
  end.

(** [HttpClient::get]: the network answers the full URL. *)
Definition get (base_url_ : string) (network : string -> Transfer)
  (path : string) : M HttpResponse :=
  perform_request (network (full_url base_url_ path)).

Section Parsing.
(** [nlohmann::json::parse]: the document, or the text of the exception. *)
Variable parse : string -> json + string.

(** [HttpResponse::as_json]. *)
Definition as_json (r : HttpResponse) : M (option json) :=
  if negb (success r) || String.eqb (body r) "" then ret None
  else
    match parse (body r) with
    | inl doc => ret (Some doc)
    | inr what =>
        LOG_ERROR "HttpResponse" ("JSON parse error: " ++ what) ;;
        ret None
    end.

(** [ApiClient::handle_response]. *)
Definition handle_response (response : HttpResponse) (endpoint : string)
  : M (option json) :=
  if negb (success response) then
    LOG_ERROR "ApiClient"
      (endpoint ++ ": " ++ format_int (status_code response) ++ " - "
       ++ error_message response) ;;
    ret None
  else
    json_response <- as_json response ;;
    match json_response with
    | None =>
        LOG_ERROR "ApiClient" (endpoint ++ ": Failed to parse JSON response") ;;
        ret None
    | Some doc => ret (Some doc)
    end.

(** [ApiClient::get_status_overview] and [ApiClient::get_status_regime]. *)
Definition get_status_overview (base_url_ : string)
  (network : string -> Transfer) : M (option json) :=
  response <- get base_url_ network "/api/status/overview" ;;
  handle_response response "get_status_overview".

Definition get_status_regime (base_url_ : string)
  (network : string -> Transfer) (region as_of_date : string)
  : M (option json) :=
  let url := "/api/status/regime?region=" ++ region in
  let url :=
    if String.eqb as_of_date "" then url
    else url ++ "&as_of_date=" ++ as_of_date in
  response <- get base_url_ network url ;;
  handle_response response "get_status_regime".
End Parsing.

End Http.

(* ================================================================== *)
(** * What the screen manager draws in the sidebars *)
(* ================================================================== *)

(** [UIManager::render_workspace_list], [render_panel_list] and
    [render_console_section]: the [mvwprintw] calls they make, in order, each
    with the colour pair and attribute switched on around it. *)
Module Sidebar.
Import Cxx.
Local Open Scope string_scope.
Local Open Scope Z_scope.

(** The colour pairs of utils/colors.hpp the three functions use. *)
Definition DEFAULT : Z := 0.
Definition ACCENT_CYAN : Z := 8.
Definition NAV_ACTIVE : Z := 20.

(** [mvwprintw (win, row, col, ...)] of [text] under a colour pair. *)
Record Print := {
  row : Z;
  col : Z;
  pair : Z;
  bold : bool;
  text : string
}.

(** The loop of [render_workspace_list], from [row] on; an id that
    [get_workspace] does not find is skipped. *)
Fixpoint workspace_rows (active_workspace : string) (ids : list string)
  (row : Z) : list Print :=
  match ids with
  | [] => []
  | id :: rest =>
      match WorkspaceManager.get_workspace id with
      | None => workspace_rows active_workspace rest row
      | Some ws =>
          (if String.eqb id active_workspace
           then {| row := row; col := 2; pair := NAV_ACTIVE; bold := true;
                   text := "• " ++ WorkspaceManager.display_name ws |}
           else {| row := row; col := 2; pair := DEFAULT; bold := false;
                   text := "  " ++ WorkspaceManager.display_name ws |})
          :: workspace_rows active_workspace rest (int_add row 1)
      end
  end.

(** [UIManager::render_workspace_list]. *)
Definition render_workspace_list (state : AppState.t) : list Print :=
  {| row := 1; col := 2; pair := ACCENT_CYAN; bold := true;
     text := "Workspaces" |}
  :: workspace_rows (AppState.active_workspace_ state)
       WorkspaceManager.get_workspace_ids 2.







End Sidebar.

(* ================================================================== *)
(** * What the document readers may do *)
(* ================================================================== *)

Module PanelContract.
Import Eff.

(** [parse_regime_data] and [parse_system_data] assign the data members of
    their own class and log; they leave the [BasePanel] sub-object, the
    panel's scroll offset and the application state alone. *)
Definition parsers_only_fill (ps : Panel.Parsers) : Prop :=
  (forall d p g,
      RegimeStabPanel.base (fst (Panel.parse_regime_data ps d p g))
      = RegimeStabPanel.base p
      /\ app_state (snd (Panel.parse_regime_data ps d p g)) = app_state g)
  /\ (forall d p g,
        LiveSystemPanel.base (fst (Panel.parse_system_data ps d p g))
        = LiveSystemPanel.base p
        /\ LiveSystemPanel.scroll_offset_
             (fst (Panel.parse_system_data ps d p g))
           = LiveSystemPanel.scroll_offset_ p
        /\ app_state (snd (Panel.parse_system_data ps d p g)) = app_state g).

(** The list a panel class scrolls with an offset of its own (the log
    lines, the orders, the universe members): the offset and the number of
    rows. *)
Definition scrolled_list (panel : Panel.t) : option (Z * Z) :=
  match panel with
  | Panel.LiveSystem p =>
      Some (LiveSystemPanel.scroll_offset_ p,
            Cxx.size (LiveSystemPanel.recent_logs_ p))
  | Panel.Execution p =>
      Some (ExecutionPanel.scroll_offset_ p,
            Cxx.size (ExecutionPanel.recent_orders_ p))
  | Panel.AssessmentUniverse p =>
      Some (AssessmentUniversePanel.scroll_offset_ p,
            Cxx.size (AssessmentUniversePanel.members_ p))
  | _ => None
  end.

(** The offset leaves at least ten rows to show, or is 0 when there are
    no more than ten. *)
Definition scroll_in_window (panel : Panel.t) : Prop :=
  match scrolled_list panel with
  | Some (offset, rows) => (0 <= offset <= Z.max 0 (rows - 10))%Z
  | None => True
  end.

(** The panel object that stands in for a panel id: the class of that id,
    or the overview panel for an id the factory does not know. *)
Definition shown_id (panel_id : string) : string :=
  if Application.implemented panel_id then panel_id else "overview"%string.

(** The navigation state is consistent: the panel list is the one of the
    active workspace, the cycle index points into it, the active panel id
    recorded in the application state is the entry at the index, and the
    active panel object stands in for that id. *)
Definition navigation_consistent (app : Application.t) (g : Globals)
  : Prop :=
  let ids := Application.current_panel_list_ app in
  let index := Application.current_panel_index_ app in
  ids = WorkspaceManager.get_panels (AppState.active_workspace_ (app_state g))
  /\ (0 <= index < Cxx.size ids)%Z
  /\ AppState.active_panel_ (app_state g) = Cxx.at_ ""%string ids index
  /\ exists panel,
       UIManager.active_panel_ (Application.ui_manager_ app) = Some panel
       /\ Panel.panel_id panel = shown_id (Cxx.at_ ""%string ids index).

End PanelContract.

(* ================================================================== *)
(** * Properties of the value model *)
(* ================================================================== *)

Module CxxFacts.
Import Cxx.
Local Open Scope Z_scope.

(** [int] arithmetic is exact as long as the result is representable. *)
Lemma int_wrap_small (z : Z) :
  -2147483648 <= z <= 2147483647 -> int_wrap z = z.
Proof.
  unfold int_wrap. intros H.
  rewrite Z.mod_small; lia.
Qed.

Lemma in_int_bounds (z : Z) :
  in_int z = true <-> -2147483648 <= z <= 2147483647.
Proof.
  unfold in_int, INT_MIN, INT_MAX.
  rewrite andb_true_iff, !Z.leb_le. lia.
Qed.

End CxxFacts.

(* ================================================================== *)
(** * Properties of the glyph renderer *)
(* ================================================================== *)

Module BrailleChartFacts.
Import Cxx BrailleChart.
Local Open Scope Z_scope.

(** ** Counting glyphs *)

Lemma glyph_count_append (s t : string) :
  glyph_count (s ++ t) = (glyph_count s + glyph_count t)%nat.
Proof.
  induction s as [|c s IH]; simpl; [reflexivity|].
  destruct (is_continuation c); simpl; rewrite IH; reflexivity.
Qed.

Lemma glyph_count_concat (gs : list string) :
  Forall (fun g => glyph_count g = 1%nat) gs ->
  glyph_count (String.concat "" gs) = List.length gs.
Proof.
  induction 1 as [|g gs Hg Hgs IH]; [reflexivity|].
  destruct gs as [|g' gs'].
  - simpl. exact Hg.
  - change (String.concat "" (g :: g' :: gs'))
      with (g ++ "" ++ String.concat "" (g' :: gs'))%string.
    rewrite !glyph_count_append, Hg, IH. reflexivity.
Qed.

Lemma blocks_single_glyph (idx : Z) :
  0 <= idx <= 8 -> glyph_count (at_ ""%string blocks idx) = 1%nat.
Proof.
  intros H.
  assert (E : idx = 0 \/ idx = 1 \/ idx = 2 \/ idx = 3 \/ idx = 4 \/
              idx = 5 \/ idx = 6 \/ idx = 7 \/ idx = 8) by lia.
  repeat (destruct E as [-> | E]; [reflexivity|]).
  subst idx. reflexivity.
Qed.

(** The clamp of [inline_sparkline] and [bars] lands inside the ramp. *)
Lemma clamp_0_8 (i : Z) :
  let i1 := if i <? 0 then 0 else i in
  0 <= (if i1 >? 8 then 8 else i1) <= 8.
Proof.
  simpl. destruct (Z.ltb_spec i 0).
  - simpl. lia.
  - rewrite Z.gtb_ltb. destruct (Z.ltb_spec 8 i); lia.
Qed.

Lemma length_iota (n : Z) : List.length (iota n) = Z.to_nat n.
Proof. unfold iota. rewrite length_map, length_seq. reflexivity. Qed.

(** ** [min_element] and [max_element] pick an element of the range *)

Lemma min_element_In {A} (lt : A -> A -> bool) (xs : list A) (x0 : A) :
  In (min_element lt x0 xs) (x0 :: xs).
Proof.
  unfold min_element. revert x0.
  induction xs as [|x xs IH]; intros x0; simpl; [now left|].
  destruct (lt x x0); specialize (IH (if true then x else x0)) as IH1;
    specialize (IH x0) as IH0; simpl in *; intuition.
Qed.

Lemma max_element_In {A} (lt : A -> A -> bool) (xs : list A) (x0 : A) :
  In (max_element lt x0 xs) (x0 :: xs).
Proof.
  unfold max_element. revert x0.
  induction xs as [|x xs IH]; intros x0; simpl; [now left|].
  destruct (lt x0 x); specialize (IH x) as IH1;
    specialize (IH x0) as IH0; simpl in *; intuition.
Qed.

(** Every glyph appended by [inline_sparkline] is one code point, and there
    is one per column. *)
Lemma inline_sparkline_glyphs_single indefinite data width :
  Forall (fun g => glyph_count g = 1%nat)
         (inline_sparkline_glyphs indefinite data width).
Proof.
  unfold inline_sparkline_glyphs.
  destruct data as [|d0 ds]; [constructor|].
  destruct (width =? 0); [constructor|].
  destruct (PrimFloat.eqb _ _).
  - apply Forall_forall. intros g Hg. apply in_map_iff in Hg.
    destruct Hg as [_ [<- _]]. reflexivity.
  - apply Forall_forall. intros g Hg. apply in_map_iff in Hg.
    destruct Hg as [val [<- _]]. apply blocks_single_glyph, clamp_0_8.
Qed.

Lemma inline_sparkline_glyphs_length indefinite data width :
  data <> [] -> width <> 0 ->
  List.length (inline_sparkline_glyphs indefinite data width) = Z.to_nat width.
Proof.
  intros Hd Hw. unfold inline_sparkline_glyphs.
  destruct data as [|d0 ds]; [congruence|].
  destruct (Z.eqb_spec width 0); [congruence|].
  destruct (PrimFloat.eqb _ _); rewrite ?length_map; apply length_iota.
Qed.

(** ** Vectors: reading after writing *)

Lemma nth_update_nat {A} (f : A -> A) (d : A) (v : list A) (i j : nat) :
  nth j (update_nat f v i) d
  = if Nat.eqb i j && Nat.ltb i (List.length v) then f (nth j v d)
    else nth j v d.
Proof.
  revert i j. induction v as [|x v IH]; intros i j.
  - simpl. rewrite andb_false_r. destruct i; reflexivity.
  - destruct i as [|i], j as [|j]; try reflexivity.
    simpl update_nat. cbn [nth]. rewrite IH. reflexivity.
Qed.

Lemma length_update_nat {A} (f : A -> A) (v : list A) (i : nat) :
  List.length (update_nat f v i) = List.length v.
Proof.
  revert i. induction v as [|x v IH]; intros [|i]; simpl; auto.
Qed.

Lemma Forall_update_nat {A} (P : A -> Prop) (f : A -> A) (v : list A) (i : nat) :
  (forall x, P x -> P (f x)) -> Forall P v -> Forall P (update_nat f v i).
Proof.
  intros Hf Hv. revert i.
  induction Hv as [|x v Hx Hv IH]; intros [|i]; simpl; auto.
Qed.

Lemma Forall_update {A} (P : A -> Prop) (f : A -> A) (v : list A) (i : Z) :
  (forall x, P x -> P (f x)) -> Forall P v -> Forall P (update f v i).
Proof.
  intros Hf Hv. unfold update. destruct (i <? 0); [assumption|].
  now apply Forall_update_nat.
Qed.

Lemma size_update {A} (f : A -> A) (v : list A) (i : Z) :
  size (update f v i) = size v.
Proof.
  unfold update, size. destruct (i <? 0); [reflexivity|].
  now rewrite length_update_nat.
Qed.

Lemma at_update {A} (f : A -> A) (d : A) (v : list A) (i j : Z) :
  at_ d (update f v i) j
  = if (i =? j) && (0 <=? i) && (i <? size v) then f (at_ d v j)
    else at_ d v j.
Proof.
  unfold at_, update, size.
  destruct (Z.ltb_spec i 0) as [Hi|Hi].
  - destruct (Z.leb_spec 0 i); [lia|]. now rewrite andb_false_r.
  - destruct (Z.ltb_spec j 0) as [Hj|Hj].
    + destruct (Z.eqb_spec i j); [lia|]. reflexivity.
    + rewrite nth_update_nat.
      destruct (Z.leb_spec 0 i); [|lia]. rewrite andb_true_r.
      destruct (Z.eqb_spec i j) as [->|Hne].
      * rewrite Nat.eqb_refl. simpl.
        destruct (Nat.ltb_spec (Z.to_nat j) (List.length v)),
                 (Z.ltb_spec j (Z.of_nat (List.length v)));
          try reflexivity; lia.
      * destruct (Nat.eqb_spec (Z.to_nat i) (Z.to_nat j)); [lia|].
        reflexivity.
Qed.

Lemma In_iota (n x : Z) : In x (iota n) <-> 0 <= x < n.
Proof.
  unfold iota. rewrite in_map_iff. split.
  - intros [k [<- Hk]]. apply in_seq in Hk. lia.
  - intros H. exists (Z.to_nat x). split; [lia|]. apply in_seq. lia.
Qed.

Lemma at_map_iota {A} (f : Z -> A) (d : A) (n i : Z) :
  0 <= i < n -> at_ d (map f (iota n)) i = f i.
Proof.
  intros H. unfold at_, iota.
  destruct (Z.ltb_spec i 0); [lia|].
  rewrite map_map.
  rewrite nth_indep with (d' := f (Z.of_nat 0))
    by (rewrite length_map, length_seq; lia).
  rewrite (map_nth (fun k => f (Z.of_nat k))).
  rewrite seq_nth by lia. f_equal. lia.
Qed.

Lemma at_Forall {A} (P : A -> Prop) (d : A) (v : list A) (i : Z) :
  Forall P v -> 0 <= i < size v -> P (at_ d v i).
Proof.
  intros Hv Hi. unfold at_, size in *.
  destruct (Z.ltb_spec i 0); [lia|].
  eapply Forall_forall; [exact Hv|]. apply nth_In. lia.
Qed.

Lemma at_repeat {A} (x d : A) (n : nat) (i : Z) :
  at_ d (repeat x n) i = x \/ at_ d (repeat x n) i = d.
Proof.
  unfold at_. destruct (i <? 0); [now right|].
  destruct (Nat.ltb_spec (Z.to_nat i) n).
  - left. now rewrite nth_repeat_lt.
  - right. apply nth_overflow. now rewrite repeat_length.
Qed.

(** ** The plot *)

Lemma marked_update (grid : list (list bool)) (row x r c : Z) :
  marked (update (fun line => update (fun _ => true) line x) grid row) r c
  = ((row =? r) && (0 <=? row) && (row <? size grid))
    && ((x =? c) && (0 <=? x) && (x <? size (at_ [] grid r)))
    || marked grid r c.
Proof.
  unfold marked. rewrite at_update.
  destruct ((row =? r) && (0 <=? row) && (row <? size grid)); [|reflexivity].
  rewrite at_update.
  destruct ((x =? c) && (0 <=? x) && (x <? size (at_ [] grid r)));
    reflexivity.
Qed.

Section Plot.
Variable indefinite : float -> Z.
Variables (resampled : list float) (pixel_height height : Z).

Local Abbreviation step_row :=
  (BrailleChart.step_row indefinite resampled pixel_height height).

Lemma step_row_range (x row : Z) :
  step_row x = Some row -> 0 <= row < height.
Proof.
  unfold step_row.
  destruct (Z.geb_spec (plot_y indefinite pixel_height (at_ nan resampled x)) 0)
    as [Hy|Hy]; [|discriminate].
  destruct (_ <? int_wrap _); [|discriminate].
  destruct (Z.ltb_spec (Z.quot (plot_y indefinite pixel_height
                                  (at_ nan resampled x)) 4) height);
    [|discriminate].
  simpl. intros [= <-]. split; [|assumption].
  apply Z.quot_pos; lia.
Qed.

Lemma plot_step_row (grid : list (list bool)) (x : Z) :
  plot_step indefinite resampled pixel_height height grid x
  = match step_row x with
    | Some row => update (fun line => update (fun _ => true) line x) grid row
    | None => grid
    end.
Proof.
  unfold plot_step, step_row.
  destruct ((_ >=? 0) && (_ <? int_wrap _)); [|reflexivity].
  simpl. destruct (_ <? height); reflexivity.
Qed.

Lemma plot_step_shape (w : Z) (grid : list (list bool)) (x : Z) :
  shape height w grid ->
  shape height w (plot_step indefinite resampled pixel_height height grid x).
Proof.
  intros [Hs Hl]. rewrite plot_step_row.
  destruct (step_row x) as [row|]; [|now split].
  split; [now rewrite size_update|].
  apply Forall_update; [|assumption].
  intros line Hline. now rewrite size_update.
Qed.

Lemma plot_fold_shape (w : Z) (xs : list Z) (grid : list (list bool)) :
  shape height w grid ->
  shape height w
    (fold_left (plot_step indefinite resampled pixel_height height) xs grid).
Proof.
  revert grid. induction xs as [|x xs IH]; intros grid Hg; [exact Hg|].
  simpl. apply IH, plot_step_shape, Hg.
Qed.

(** After the plotting loop over [xs], [grid[r][c]] is set exactly when it
    was set before or the iteration of sub-column [c] wrote row [r]. *)
Lemma plot_fold_marked (w : Z) (xs : list Z) (grid : list (list bool))
  (r c : Z) :
  shape height w grid ->
  (forall x, In x xs -> 0 <= x < w) ->
  marked (fold_left (plot_step indefinite resampled pixel_height height)
            xs grid) r c = true
  <-> marked grid r c = true \/ (In c xs /\ step_row c = Some r).
Proof.
  revert grid. induction xs as [|x xs IH]; intros grid Hg Hxs.
  - simpl. intuition.
  - simpl fold_left. rewrite IH;
      [|now apply plot_step_shape|intros; apply Hxs; now right].
    rewrite plot_step_row.
    assert (Hx : 0 <= x < w) by (apply Hxs; now left).
    destruct (step_row x) as [row|] eqn:Hrow.
    + rewrite marked_update.
      pose proof (step_row_range _ _ Hrow) as Hr.
      destruct Hg as [Hs Hl].
      split.
      * intros [H|[H1 H2]].
        -- apply orb_true_iff in H. destruct H as [H|H]; [|now left].
           right. apply andb_true_iff in H. destruct H as [Ha Hb].
           apply andb_true_iff in Ha. destruct Ha as [Ha _].
           apply andb_true_iff in Ha. destruct Ha as [Ha _].
           apply andb_true_iff in Hb. destruct Hb as [Hb _].
           apply andb_true_iff in Hb. destruct Hb as [Hb _].
           apply Z.eqb_eq in Ha, Hb. subst. split; [now left|assumption].
        -- right. split; [now right|assumption].
      * intros [H|[[->|H1] H2]].
        -- left. rewrite H. apply orb_true_r.
        -- left. rewrite Hrow in H2. injection H2 as ->.
           assert (Hsz : size (at_ [] grid r) = w)
             by (apply (at_Forall (fun line => size line = w));
                 [assumption|lia]).
           rewrite Hsz, Z.eqb_refl, Z.eqb_refl.
           destruct (Z.leb_spec 0 r); [|lia].
           destruct (Z.ltb_spec r (size grid)); [|lia].
           destruct (Z.leb_spec 0 c); [|lia].
           destruct (Z.ltb_spec c w); [|lia]. reflexivity.
        -- right. split; assumption.
    + split.
      * intros [H|[H1 H2]]; [now left|]. right. split; [now right|assumption].
      * intros [H|[[->|H1] H2]]; [now left|congruence|].
        right. split; assumption.
Qed.
End Plot.

(** The dot mask of a cell: eight bits, and a dot column is empty unless
    the grid has the cell's sub-column set in the cell's row. *)
Lemma cell_dots_bits (grid : list (list bool)) (row col : Z) :
  let dots := cell_dots grid row col in
  0 <= dots < 256
  /\ (Z.land dots 15 <> 0 -> marked grid row (size_mul col 2) = true)
  /\ (Z.land dots 240 <> 0 ->
      marked grid row (size_add (size_mul col 2) 1) = true).
Proof.
  unfold cell_dots, marked. cbn [fold_left].
  set (line := at_ [] grid row).
  destruct (at_ false line (size_mul col 2));
    destruct (at_ false line (size_add (size_mul col 2) 1));
    rewrite ?andb_true_r, ?andb_false_r;
    destruct (size_mul col 2 <? size line);
    destruct (size_add (size_mul col 2) 1 <? size line);
    destruct (size_add (size_mul row 4) 0 <? size grid);
    destruct (size_add (size_mul row 4) 1 <? size grid);
    destruct (size_add (size_mul row 4) 2 <? size grid);
    destruct (size_add (size_mul row 4) 3 <? size grid);
    vm_compute; repeat split; congruence.
Qed.

Lemma marked_blank (h w : nat) (r c : Z) :
  marked (repeat (repeat false w) h) r c = false.
Proof.
  unfold marked.
  destruct (at_repeat (repeat false w) [] h r) as [-> | ->].
  - destruct (at_repeat false false w c) as [-> | ->]; reflexivity.
  - unfold at_. destruct (c <? 0); [reflexivity|]. now destruct (Z.to_nat c).
Qed.

Lemma shape_blank (h w : Z) :
  0 <= h -> 0 <= w ->
  shape h w (repeat (repeat false (Z.to_nat w)) (Z.to_nat h)).
Proof.
  intros Hh Hw. split.
  - unfold size. rewrite repeat_length. lia.
  - apply Forall_forall. intros line Hl. apply repeat_spec in Hl. subst line.
    unfold size. rewrite repeat_length. lia.
Qed.

Lemma size_wrap_nonneg (z : Z) : 0 <= size_wrap z.
Proof. unfold size_wrap. apply Z.mod_pos_bound. reflexivity. Qed.

(** The grid after the plotting loop has sub-column [x] set in row [row]
    exactly when [plotted_row] says so. *)
Lemma sparkline_grid_marked indefinite data width height row x :
  0 <= height ->
  marked (sparkline_grid indefinite data width height) row x = true
  <-> plotted_row indefinite data width height x = Some row.
Proof.
  intros Hh. unfold sparkline_grid, plotted_row.
  set (pw := size_mul width 2). set (ph := size_mul height 4).
  set (res := sparkline_resampled data pw).
  rewrite (plot_fold_marked indefinite res ph height pw).
  - rewrite marked_blank, In_iota.
    destruct (Z.leb_spec 0 x), (Z.ltb_spec x (Z.min (size res) pw)); simpl;
      split; try (intros [H'|[H1 H2]]); try congruence; try lia;
      intros H'; try discriminate; right; split; [lia|assumption].
  - apply shape_blank; [assumption|apply size_wrap_nonneg].
  - intros x0 Hx0. apply In_iota in Hx0. lia.
Qed.

(** ** C2 *)

(** C2 (as stated, refuted): for the series [0, 0.5, 1] drawn 2 glyphs wide
    and 2 rows high, the sub-row of the second sample is 3 (3.5 truncated),
    not the rounded 4; no sub-cell is lit in sub-column 0 and two are lit
    in sub-column 1; the glyphs differ from those of the renderer the
    specification describes. *)
Lemma sparkline_not_one_dot_per_column :
  let data := [0; 0.5; 1]%float in
  let cells := sparkline_cells x86_indefinite data 2 2 in
  plot_y x86_indefinite 8 (at_ nan (sparkline_resampled data 4) 1) = 3
  /\ DenseTrendSpec.sub_row 2 (at_ nan (sparkline_resampled data 4) 1) = 4
  /\ lit_subcells cells 0 = 0
  /\ lit_subcells cells 1 = 2
  /\ cells = [[10288; 10243]; [10240; 10240]]
  /\ DenseTrendSpec.dense_trend_cells data 2 2
     = [[10240; 10241]; [10264; 10240]]
  /\ cells <> DenseTrendSpec.dense_trend_cells data 2 2.
Proof. vm_compute. repeat split; try reflexivity. discriminate. Qed.

(** C2 (amended): for every non-empty series and width > 0, height > 1,
    [sparkline] computes for each plotted sub-column the sub-row
    [y = static_cast<int>((1 - v) * (height*4 - 1))] (truncated toward zero,
    not rounded) and marks the sub-column in exactly one character row, the
    row [y / 4], when [y] is within the plot; it returns [height] rows of
    [width] glyphs, each with code point [BRAILLE_BASE] plus an 8-bit dot
    mask, in which a dot column is empty unless its sub-column is marked in
    that character row. *)
Theorem sparkline_cells_plot (indefinite : float -> Z) (data : list float)
  (width height : Z) :
  data <> [] -> 0 < width -> 1 < height ->
  let grid := sparkline_grid indefinite data width height in
  let cells := sparkline_cells indefinite data width height in
  sparkline indefinite data width height = cells_text cells height
  /\ (forall row x,
        marked grid row x = true
        <-> plotted_row indefinite data width height x = Some row)
  /\ List.length cells = Z.to_nat height
  /\ Forall (fun line => List.length line = Z.to_nat width) cells
  /\ (forall row col, 0 <= row < height -> 0 <= col < width ->
      exists dots,
        at_ 0 (at_ [] cells row) col = BRAILLE_BASE + dots
        /\ 0 <= dots < 256
        /\ (Z.land dots 15 <> 0 -> marked grid row (size_mul col 2) = true)
        /\ (Z.land dots 240 <> 0 ->
            marked grid row (size_add (size_mul col 2) 1) = true)).
Proof.
  intros Hd Hw Hh grid cells.
  split; [|split; [|split; [|split]]].
  - unfold sparkline. destruct data as [|d0 ds]; [congruence|].
    destruct (Z.eqb_spec width 0); [lia|].
    destruct (Z.eqb_spec height 0); [lia|]. reflexivity.
  - intros row x. apply sparkline_grid_marked. lia.
  - unfold cells, sparkline_cells, grid_cells.
    rewrite length_map. apply length_iota.
  - unfold cells, sparkline_cells, grid_cells.
    apply Forall_forall. intros line Hl. apply in_map_iff in Hl.
    destruct Hl as [row [<- _]]. rewrite length_map. apply length_iota.
  - intros row col Hrow Hcol.
    exists (cell_dots grid row col).
    split; [|apply cell_dots_bits].
    unfold cells, sparkline_cells, grid_cells.
    rewrite (at_map_iota _ [] height row Hrow).
    rewrite (at_map_iota _ 0 width col Hcol). reflexivity.
Qed.

Lemma sparkline_cells_plot_witness :
  let data := [0; 0.5; 1]%float in
  let grid := sparkline_grid x86_indefinite data 2 2 in
  let cells := sparkline_cells x86_indefinite data 2 2 in
  sparkline x86_indefinite data 2 2 = cells_text cells 2
  /\ (forall row x,
        marked grid row x = true
        <-> plotted_row x86_indefinite data 2 2 x = Some row)
  /\ List.length cells = Z.to_nat 2
  /\ Forall (fun line => List.length line = Z.to_nat 2) cells
  /\ (forall row col, 0 <= row < 2 -> 0 <= col < 2 ->
      exists dots,
        at_ 0 (at_ [] cells row) col = BRAILLE_BASE + dots
        /\ 0 <= dots < 256
        /\ (Z.land dots 15 <> 0 -> marked grid row (size_mul col 2) = true)
        /\ (Z.land dots 240 <> 0 ->
            marked grid row (size_add (size_mul col 2) 1) = true)).
Proof.
  apply (sparkline_cells_plot x86_indefinite [0; 0.5; 1]%float 2 2);
    [discriminate | lia | lia].
Defined.

(** ** C1 *)

(** C1 (as stated, refuted): on [1,2,2,3,3,3] with three bins and width 3
    the returned string is not made of the ramp symbols at indices 2, 5
    and 8. *)
Lemma histogram_scenario_not_2_5_8 :
  histogram x86_indefinite [1; 2; 2; 3; 3; 3]%float 3 3 1
  <> String.concat "" (map (at_ ""%string blocks) [2; 5; 8]).
Proof. vm_compute. discriminate. Qed.

(** C1 (amended): on [1,2,2,3,3,3] with three bins, width 3 and height 1,
    [histogram] counts [1,2,3] per bucket, divides the counts by the peak
    count 3 and hands them to the single-line renderer, which rescales them
    between their minimum and maximum: the returned string has three glyphs,
    the ramp symbols at indices 0, 3 and 8, the last being the full block. *)
Theorem histogram_scenario (indefinite : float -> Z) :
  let data := [1; 2; 2; 3; 3; 3]%float in
  histogram_bin_counts indefinite data 3 1 ((3 - 1) / 3)%float = [1; 2; 3]
  /\ histogram_normalized_bins [1; 2; 3]
     = [(1 / 3)%float; (2 / 3)%float; (3 / 3)%float]
  /\ histogram indefinite data 3 3 1
     = String.concat "" (map (at_ ""%string blocks) [0; 3; 8])
  /\ glyph_count (histogram indefinite data 3 3 1) = 3%nat
  /\ at_ ""%string blocks 8 = "█"%string.
Proof. vm_compute. repeat split; reflexivity. Qed.

(** ** C7 *)

(** C7 (the code at the failing input): for the flat series [5,5] and three
    bins the bin width is zero, the quotient handed to [static_cast<int>] is
    0/0 = NaN, for which the conversion is undefined; whatever [int] the
    conversion delivers, both values land in one bin and the output is a
    full block in that column and blanks elsewhere, never the midpoint
    glyphs that [inline_sparkline] gives for a flat series. *)
Theorem histogram_flat_divides_by_zero (indefinite : float -> Z) :
  let data := [5; 5]%float in
  let bin_width := ((5 - 5) / double_of_Z 3)%float in
  PrimFloat.eqb bin_width 0 = true
  /\ PrimFloat.is_nan ((5 - 5) / bin_width)%float = true
  /\ convertible ((5 - 5) / bin_width)%float = false
  /\ In (histogram indefinite data 3 3 1)
        ["█  "; " █ "; "  █"]%string
  /\ histogram x86_indefinite data 3 3 1 = "█  "%string
  /\ inline_sparkline indefinite data 3 = "▄▄▄"%string.
Proof.
  cbv zeta.
  split; [vm_compute; reflexivity|].
  split; [vm_compute; reflexivity|].
  split; [vm_compute; reflexivity|].
  split; [|split; vm_compute; reflexivity].
  unfold histogram. cbn [Z.eqb].
  unfold histogram_bin_counts.
  change (min_element PrimFloat.ltb 5%float [5%float]) with 5%float.
  change (max_element PrimFloat.ltb 5%float [5%float]) with 5%float.
  cbn [fold_left].
  set (b := static_cast_int indefinite _).
  change (int_wrap 3) with 3. change (int_wrap (size_sub 3 1)) with 2.
  destruct (Z.geb_spec b 3) as [Hb|Hb].
  - vm_compute. right; right; left; reflexivity.
  - destruct (Z.ltb_spec b 0) as [Hn|Hn].
    + vm_compute. left; reflexivity.
    + assert (E : b = 0 \/ b = 1 \/ b = 2) by lia.
      destruct E as [-> | [-> | ->]]; vm_compute; intuition.
Qed.

(** ** C9 *)

(** C9 (as stated, refuted): for the empty series and width 1 the output
    has no glyph at all. *)
Lemma inline_sparkline_empty_series :
  Z.of_nat (glyph_count (inline_sparkline x86_indefinite [] 1)) <> 1.
Proof. vm_compute. discriminate. Qed.

(** C9 (amended): for every non-empty series and every width w > 0,
    [inline_sparkline] returns a string of exactly w glyphs; if all the
    values of the series are equal, every one of them is the midpoint symbol
    of the ramp (index 4 of 9). *)
Theorem inline_sparkline_width (indefinite : float -> Z)
  (data : list float) (width : Z) :
  data <> [] -> 0 < width ->
  Z.of_nat (glyph_count (inline_sparkline indefinite data width)) = width
  /\ ((forall a b, In a data -> In b data -> PrimFloat.eqb a b = true) ->
      inline_sparkline_glyphs indefinite data width
      = repeat (at_ ""%string blocks 4) (Z.to_nat width)).
Proof.
  intros Hd Hw. split.
  - unfold inline_sparkline.
    rewrite glyph_count_concat by apply inline_sparkline_glyphs_single.
    rewrite inline_sparkline_glyphs_length by (trivial; lia). lia.
  - intros Heq. unfold inline_sparkline_glyphs.
    destruct data as [|d0 ds]; [congruence|].
    destruct (Z.eqb_spec width 0); [lia|].
    rewrite (Heq _ _ (min_element_In _ ds d0) (max_element_In _ ds d0)).
    unfold iota. rewrite map_map.
    generalize (Z.to_nat width), 0%nat.
    intros len. induction len as [|len IH]; intros k; simpl; [reflexivity|].
    f_equal. apply IH.
Qed.

Lemma inline_sparkline_width_witness :
  Z.of_nat (glyph_count (inline_sparkline x86_indefinite [7; 7; 7]%float 5)) = 5
  /\ inline_sparkline_glyphs x86_indefinite [7; 7; 7]%float 5
     = repeat (at_ ""%string blocks 4) (Z.to_nat 5).
Proof.
  assert (Hd : [7; 7; 7]%float <> []) by discriminate.
  assert (Hw : 0 < 5) by lia.
  destruct (inline_sparkline_width x86_indefinite [7; 7; 7]%float 5 Hd Hw)
    as [H1 H2].
  split; [exact H1|]. apply H2.
  intros a b [<-|[<-|[<-|[]]]] [<-|[<-|[<-|[]]]]; reflexivity.
Defined.

End BrailleChartFacts.

(* ================================================================== *)
(** * Properties of the layout *)
(* ================================================================== *)

Module LayoutFacts.
Import Cxx CxxFacts Layout.
Local Open Scope Z_scope.

(** The thicknesses a reachable layout can hold. *)
Lemma reachable_thickness (l : LayoutDimensions) :
  reachable l ->
  top_bar_height l = 3 /\ status_bar_height l = 1
  /\ ((left_width l = 20 /\ right_width l = 30)
      \/ (left_width l = 35 /\ right_width l = 35)).
Proof.
  induction 1 as [|l tw th Hl IH].
  - simpl. auto.
  - destruct IH as [Ht [Hs Hw]]. simpl.
    destruct (tw >? 180); auto.
Qed.

(** ** C3 *)

(** C3 (the code at the failing input): a layout object that computed the
    200x40 layout and then the 100x40 one keeps both sidebars at 35 columns
    and leaves 30 for the main region, where a fresh object computes 20, 30
    and 50 for the same 100x40 terminal: the result depends on the layouts
    computed before.  [UIManager::update_layout] reuses its object in this
    way: a screen manager started at 100x40 holds that layout after the
    terminal is resized to 200x40 and back. *)
Theorem calculate_depends_on_history :
  let wide := calculate initial 200 40 in
  let again := calculate wide 100 40 in
  let fresh := calculate initial 100 40 in
  (left_width wide, right_width wide, main_width wide) = (35, 35, 130)
  /\ (left_width again, right_width again, main_width again) = (35, 35, 30)
  /\ (left_width fresh, right_width fresh, main_width fresh) = (20, 30, 50)
  /\ UIManager.layout_ (Session.after_resizes [(200, 40); (100, 40)]) = again
  /\ again <> fresh.
Proof. vm_compute. repeat split; try reflexivity. discriminate. Qed.

(** ** C8 *)

(** C8: for every terminal size (tw, th) with tw >= left_width +
    right_width and th >= top_bar_height + status_bar_height, the five
    regions created from the computed layout (top bar, left navigation, main
    content, right sidebar, status bar) lie inside the tw x th rectangle,
    cover every cell of it and are pairwise disjoint.  It holds for the
    layout computed by any reachable layout object. *)
Theorem create_windows_tiles (l : LayoutDimensions) (tw th : Z) :
  reachable l ->
  in_int tw = true -> in_int th = true ->
  let l' := calculate l tw th in
  tw >= left_width l' + right_width l' ->
  th >= top_bar_height l' + status_bar_height l' ->
  map fst (create_windows l')
  = [TopBar; LeftNav; MainContent; RightSidebar; StatusBar]
  /\ tiles (create_windows l') tw th.
Proof.
  intros Hl Htw Hth l' Hw Hh.
  split; [reflexivity|].
  destruct (reachable_thickness _ Hl) as [Ht [Hs Hlr]].
  apply in_int_bounds in Htw, Hth.
  subst l'. unfold create_windows, calculate in *. cbn [term_width term_height
    top_bar_height left_width right_width status_bar_height main_x main_y
    main_width main_height] in *.
  rewrite Ht, Hs in *.
  set (left := if tw >? 180 then 35 else left_width l) in *.
  set (right := if tw >? 180 then 35 else right_width l) in *.
  assert (Hleft : left = 20 \/ left = 35)
    by (unfold left; destruct (tw >? 180); lia).
  assert (Hright : right = 30 \/ right = 35)
    by (unfold right; destruct (tw >? 180); lia).
  unfold int_sub, int_add.
  rewrite (int_wrap_small (tw - left)) by lia.
  rewrite (int_wrap_small (tw - left - right))
    by lia.
  rewrite (int_wrap_small (th - 3)) by lia.
  rewrite (int_wrap_small (th - 3 - 1)) by lia.
  rewrite (int_wrap_small (th - 1)) by lia.
  rewrite (int_wrap_small (left + (tw - left - right)))
    by lia.
  clearbody left right.
  unfold tiles, covers. cbn [In nlines ncols begin_x begin_y].
  split; [|split].
  - intros n r x y Hin Hc.
    destruct Hin as [E|[E|[E|[E|[E|[]]]]]]; injection E as <- <-;
      cbn [nlines ncols begin_x begin_y] in Hc;
      rewrite !andb_true_iff, !Z.leb_le, !Z.ltb_lt in Hc; lia.
  - intros x y Hx Hy.
    destruct (Z.lt_ge_cases y 3) as [Hy1|Hy1].
    + exists TopBar. eexists. split; [left; reflexivity|].
      cbn [nlines ncols begin_x begin_y].
      rewrite !andb_true_iff, !Z.leb_le, !Z.ltb_lt. lia.
    + destruct (Z.lt_ge_cases y (th - 1)) as [Hy2|Hy2].
      * destruct (Z.lt_ge_cases x left) as [Hx1|Hx1].
        -- exists LeftNav. eexists. split; [right; left; reflexivity|].
           cbn [nlines ncols begin_x begin_y].
           rewrite !andb_true_iff, !Z.leb_le, !Z.ltb_lt. lia.
        -- destruct (Z.lt_ge_cases x (tw - right)) as [Hx2|Hx2].
           ++ exists MainContent. eexists.
              split; [right; right; left; reflexivity|].
              cbn [nlines ncols begin_x begin_y].
              rewrite !andb_true_iff, !Z.leb_le, !Z.ltb_lt. lia.
           ++ exists RightSidebar. eexists.
              split; [right; right; right; left; reflexivity|].
              cbn [nlines ncols begin_x begin_y].
              rewrite !andb_true_iff, !Z.leb_le, !Z.ltb_lt. lia.
      * exists StatusBar. eexists.
        split; [right; right; right; right; left; reflexivity|].
        cbn [nlines ncols begin_x begin_y].
        rewrite !andb_true_iff, !Z.leb_le, !Z.ltb_lt. lia.
  - intros n1 r1 n2 r2 x y H1 H2 Hne Hc1 Hc2.
    destruct H1 as [E1|[E1|[E1|[E1|[E1|[]]]]]]; injection E1 as <- <-;
      destruct H2 as [E2|[E2|[E2|[E2|[E2|[]]]]]]; injection E2 as <- <-;
      try congruence;
      cbn [nlines ncols begin_x begin_y] in Hc1, Hc2;
      rewrite !andb_true_iff, !Z.leb_le, !Z.ltb_lt in Hc1, Hc2; lia.
Qed.

Lemma create_windows_tiles_witness :
  map fst (create_windows (calculate initial 100 40))
  = [TopBar; LeftNav; MainContent; RightSidebar; StatusBar]
  /\ tiles (create_windows (calculate initial 100 40)) 100 40.
Proof.
  apply (create_windows_tiles initial 100 40).
  - constructor.
  - reflexivity.
  - reflexivity.
  - vm_compute. discriminate.
  - vm_compute. discriminate.
Defined.

End LayoutFacts.

(* ================================================================== *)
(** * Properties of the default input handler *)
(* ================================================================== *)

Module BasePanelFacts.
Import Cxx Keys BasePanel.
Local Open Scope Z_scope.

(** ** C10 *)

(** C10 (as stated, refuted): with max_scroll = INT_MAX and the offset at
    INT_MAX, which is within [0, max_scroll], page-down computes
    [scroll_offset_ + 10] beyond the range of [int] and leaves a negative
    offset. *)
Lemma page_down_overflows :
  let p := set_scroll_offset INT_MAX
             {| panel_id_ := "overview"; display_name_ := "Overview";
                needs_refresh_ := false; scroll_offset_ := 0;
                max_scroll_ := INT_MAX |} in
  scroll_in_bounds p
  /\ scroll_offset_ (fst (handle_input p KEY_NPAGE)) = -2147483639
  /\ ~ scroll_in_bounds (fst (handle_input p KEY_NPAGE)).
Proof.
  cbv zeta. split; [|split].
  - unfold scroll_in_bounds. simpl. unfold INT_MAX. lia.
  - vm_compute. reflexivity.
  - unfold scroll_in_bounds. vm_compute. intros [H _]. apply H. reflexivity.
Qed.

Lemma handle_input_max_scroll (p : t) (ch : Z) :
  max_scroll_ (fst (handle_input p ch)) = max_scroll_ p.
Proof.
  unfold handle_input.
  repeat match goal with
         | |- context [if ?b then _ else _] => destruct b
         end; reflexivity.
Qed.

Lemma handle_input_in_bounds (p : t) (ch : Z) :
  max_scroll_ p <= INT_MAX - 10 ->
  scroll_in_bounds p -> scroll_in_bounds (fst (handle_input p ch)).
Proof.
  unfold scroll_in_bounds, handle_input, int_add, int_sub.
  intros Hm [H0 H1].
  assert (Hb : INT_MAX = 2147483647) by reflexivity.
  repeat match goal with
         | |- context [if ?b then _ else _] => destruct b eqn:?
         end; cbn [fst scroll_offset_ max_scroll_ set_scroll_offset];
    try lia.
  - rewrite CxxFacts.int_wrap_small by lia. apply Z.gtb_lt in Heqb0. lia.
  - rewrite CxxFacts.int_wrap_small by lia. apply Z.ltb_lt in Heqb1. lia.
  - rewrite CxxFacts.int_wrap_small by lia. lia.
  - rewrite CxxFacts.int_wrap_small by lia. lia.
Qed.

(** C10 (amended): starting from any scroll offset in [0, max_scroll] with
    0 <= max_scroll <= INT_MAX - 10, after any sequence of keys handled by
    the default panel input handler (line-up, line-down, page-up, page-down,
    home, end, or any other key), the scroll offset is within
    [0, max_scroll] at every step. *)
Theorem scroll_stays_in_bounds (p : t) (keys : list Z) :
  0 <= max_scroll_ p <= INT_MAX - 10 ->
  scroll_in_bounds p ->
  Forall (fun q => 0 <= scroll_offset_ q <= max_scroll_ p)
         (input_trace p keys).
Proof.
  intros Hm Hp. revert p Hm Hp.
  induction keys as [|ch keys IH]; intros p Hm Hp; simpl; constructor.
  - pose proof (handle_input_in_bounds p ch (proj2 Hm) Hp) as H.
    unfold scroll_in_bounds in H. now rewrite handle_input_max_scroll in H.
  - rewrite <- (handle_input_max_scroll p ch). apply IH.
    + now rewrite handle_input_max_scroll.
    + apply handle_input_in_bounds; [lia|assumption].
Qed.

Lemma scroll_stays_in_bounds_witness :
  let p := {| panel_id_ := "overview"; display_name_ := "Overview";
              needs_refresh_ := false; scroll_offset_ := 3;
              max_scroll_ := 25 |} in
  Forall (fun q => 0 <= scroll_offset_ q <= 25)
         (input_trace p [KEY_NPAGE; KEY_NPAGE; KEY_NPAGE; KEY_DOWN; KEY_UP;
                         KEY_PPAGE; KEY_HOME; KEY_UP; KEY_END; KEY_DOWN]).
Proof.
  apply (scroll_stays_in_bounds
           {| panel_id_ := "overview"; display_name_ := "Overview";
              needs_refresh_ := false; scroll_offset_ := 3;
              max_scroll_ := 25 |}).
  - simpl. unfold INT_MAX. lia.
  - unfold scroll_in_bounds. simpl. lia.
Defined.

End BasePanelFacts.

(* ================================================================== *)
(** * Properties of the panels' refresh *)
(* ================================================================== *)

Module PanelFacts.
Import Eff Api.
Local Open Scope string_scope.

(** Unfolding the effects of a computation. *)
Ltac run_effects :=
  unfold bind, ret, LOG_INFO, LOG_WARN, LOG_ERROR, log, request,
    modify_app_state, get_app_state in *;
  cbn [fst snd] in *.

Lemma down_unavailable : unavailable down.
Proof. repeat split. Qed.

(** After a refresh against an unavailable data source every panel shows
    its hard-coded dataset; the dirty flag is cleared by the overview panel
    and left as it was by the seven other classes. *)
Lemma refresh_unavailable (ps : Panel.Parsers) (api : ApiClient)
  (panel : Panel.t) (g : Globals) :
  unavailable api ->
  let panel' := fst (Panel.refresh ps api panel g) in
  Panel.shows_placeholder panel'
  /\ Panel.needs_refresh panel'
     = match panel with
       | Panel.Overview _ => false
       | _ => Panel.needs_refresh panel
       end.
Proof.
  intros (Ho & Hr & Hs & Hu & He).
  destruct panel as [p|p|p|p|p|p|p|p]; cbv zeta;
    unfold Panel.refresh, OverviewPanel.refresh, RegimeStabPanel.refresh,
      LiveSystemPanel.refresh, PortfolioRiskPanel.refresh,
      ExecutionPanel.refresh, AssessmentUniversePanel.refresh,
      MetaExperimentsPanel.refresh, AntHillPanel.refresh;
    run_effects;
    rewrite ?Ho, ?Hr, ?Hu, ?He; cbn; repeat split.
Qed.

(** ** C4 *)

(** C4 (the code at the failing input): with the data source down, a
    freshly created panel of each of the eight classes shows its placeholder
    dataset after [refresh], but only the overview panel has its dirty flag
    cleared; the regime-stability panel and the six others still report
    [needs_refresh]. *)
Theorem refresh_unavailable_dirty_flag (ps : Panel.Parsers) :
  Forall
    (fun id =>
       let panel := fst (Application.create_panel id Session.globals) in
       let panel' := fst (Panel.refresh ps down panel Session.globals) in
       Panel.panel_id panel = id
       /\ Panel.needs_refresh panel = true
       /\ Panel.shows_placeholder panel'
       /\ Panel.needs_refresh panel' = negb (String.eqb id "overview"))
    ["overview"; "regime_stab"; "live_system"; "portfolio_risk"; "execution";
     "assessment_universe"; "meta_experiments"; "ant_hill"].
Proof.
  repeat (constructor;
          [cbv zeta; split; [reflexivity|]; split; [reflexivity|];
           split; [apply refresh_unavailable, down_unavailable|reflexivity]|]).
  constructor.
Qed.

End PanelFacts.

(* ================================================================== *)
(** * Properties of the navigation controller *)
(* ================================================================== *)

Module ApplicationFacts.
Import Cxx Keys Eff Api Application Session.
Import PanelFacts.
Local Open Scope string_scope.
Local Open Scope Z_scope.

(** Naming the result of each effectful call in the goal. *)
Ltac name_results :=
  repeat match goal with
         | |- context [match ?c with (_, _) => _ end] => destruct c eqn:?
         end.

(** ** What navigation leaves alone *)

Section Frame.
Variable ps : Panel.Parsers.

Lemma switch_to_panel_frame env id app g :
  let app' := fst (switch_to_panel ps env id app g) in
  current_panel_list_ app' = current_panel_list_ app
  /\ current_panel_index_ app' = current_panel_index_ app
  /\ last_refresh_ app' = last_refresh_ app.
Proof.
  unfold switch_to_panel. run_effects. name_results. cbn. auto.
Qed.

Lemma cycle_next_panel_last_refresh env app g :
  last_refresh_ (fst (cycle_next_panel ps env app g)) = last_refresh_ app.
Proof.
  unfold cycle_next_panel. destruct (current_panel_list_ app) eqn:E;
    [reflexivity|].
  run_effects.
  match goal with
  | |- context [switch_to_panel ps env ?id ?a ?g0] =>
      pose proof (switch_to_panel_frame env id a g0) as H;
      destruct (switch_to_panel ps env id a g0)
  end.
  cbn in *. destruct H as (_ & _ & H). exact H.
Qed.

Lemma switch_workspace_last_refresh env id app g :
  last_refresh_ (fst (switch_workspace ps env id app g)) = last_refresh_ app.
Proof.
  unfold switch_workspace. run_effects.
  destruct (WorkspaceManager.get_workspace id) as [w|]; [|reflexivity].
  cbn [current_panel_list_ set_panels].
  destruct (WorkspaceManager.panel_ids w) as [|first rest]; [reflexivity|].
  match goal with
  | |- context [switch_to_panel ps env ?id ?a ?g0] =>
      pose proof (switch_to_panel_frame env id a g0) as H
  end.
  cbn in *. destruct H as (_ & _ & H). exact H.
Qed.

Lemma cycle_next_workspace_last_refresh env app g :
  last_refresh_ (fst (cycle_next_workspace ps env app g)) = last_refresh_ app.
Proof.
  unfold cycle_next_workspace.
  destruct WorkspaceManager.get_workspace_ids; [reflexivity|].
  run_effects. apply switch_workspace_last_refresh.
Qed.

(** No key restarts the timer, and only [q] and [Q] end the loop. *)
Lemma handle_input_last_refresh env ch app g :
  last_refresh_ (fst (fst (handle_input ps env ch app g))) = last_refresh_ app
  /\ snd (fst (handle_input ps env ch app g)) = keeps_running ch.
Proof.
  unfold handle_input, keeps_running. run_effects.
  destruct ((ch =? 113) || (ch =? 81)); [split; reflexivity|].
  destruct ((ch =? 114) || (ch =? 82)).
  { destruct (UIManager.active_panel_ (ui_manager_ app));
      [|split; reflexivity].
    name_results. split; reflexivity. }
  destruct (ch =? 9).
  { match goal with
    | |- context [cycle_next_panel ps env ?a ?g0] =>
        pose proof (cycle_next_panel_last_refresh env a g0) as H;
        destruct (cycle_next_panel ps env a g0)
    end. split; [exact H|reflexivity]. }
  destruct ((ch =? 119) || (ch =? 87)).
  { match goal with
    | |- context [cycle_next_workspace ps env ?a ?g0] =>
        pose proof (cycle_next_workspace_last_refresh env a g0) as H;
        destruct (cycle_next_workspace ps env a g0)
    end. split; [exact H|reflexivity]. }
  destruct (ch =? KEY_RESIZE).
  { name_results. split; reflexivity. }
  destruct (UIManager.active_panel_ (ui_manager_ app)); [|split; reflexivity].
  name_results. split; reflexivity.
Qed.

(** The auto-refresh check, case by case. *)
Lemma handle_auto_refresh_cases env app g :
  handle_auto_refresh ps env app g
  = if now env - last_refresh_ app >=? refresh_interval then
      match UIManager.active_panel_ (ui_manager_ app) with
      | Some panel =>
          let (panel', g1) := Panel.refresh ps (api_client env) panel g in
          (set_last_refresh (now env)
             (set_ui_manager
                (UIManager.set_panel (Some panel') (ui_manager_ app)) app),
           snd (LOG_INFO "Application" "Auto-refresh triggered" g1))
      | None => (set_last_refresh (now env) app, g)
      end
    else (app, g).
Proof.
  unfold handle_auto_refresh.
  destruct (now env - last_refresh_ app >=? refresh_interval);
    [|reflexivity].
  run_effects.
  destruct (UIManager.active_panel_ (ui_manager_ app)); [|reflexivity].
  destruct (Panel.refresh _ _ _ _). reflexivity.
Qed.

Lemma handle_auto_refresh_timer env app g :
  last_refresh_ (fst (handle_auto_refresh ps env app g))
  = if now env - last_refresh_ app >=? refresh_interval then now env
    else last_refresh_ app.
Proof.
  rewrite handle_auto_refresh_cases.
  destruct (now env - last_refresh_ app >=? refresh_interval);
    [|reflexivity].
  destruct (UIManager.active_panel_ (ui_manager_ app)); [|reflexivity].
  destruct (Panel.refresh _ _ _ _). reflexivity.
Qed.

Lemma loop_iteration_timer env ch app g :
  keeps_running ch = true ->
  last_refresh_ (fst (fst (loop_iteration ps env ch app g)))
  = (if now env - last_refresh_ app >=? refresh_interval then now env
     else last_refresh_ app)
  /\ snd (fst (loop_iteration ps env ch app g)) = true.
Proof.
  intros Hk. unfold loop_iteration. run_effects.
  destruct (ch =? ERR).
  - pose proof (handle_auto_refresh_timer env app g) as H.
    destruct (handle_auto_refresh ps env app g). split; [exact H|reflexivity].
  - pose proof (handle_input_last_refresh env ch app g) as [H1 H2].
    destruct (handle_input ps env ch app g) as [[app1 flag] g1].
    cbn [fst snd] in *. rewrite H2, Hk.
    pose proof (handle_auto_refresh_timer env app1 g1) as H.
    destruct (handle_auto_refresh ps env app1 g1).
    cbn [fst snd] in *. rewrite H, H1. split; reflexivity.
Qed.

End Frame.

(** ** C5 *)

Lemma create_panel_unknown id g :
  implemented id = false ->
  create_panel id g
  = (Panel.Overview OverviewPanel.make,
     snd (LOG_WARN "Application"
            ("Panel '" ++ id ++ "' not implemented yet, using Overview") g)).
Proof.
  unfold implemented. cbn [existsb]. intros H.
  repeat (apply orb_false_iff in H; destruct H as [?E H]).
  unfold create_panel. rewrite E, E0, E1, E2, E3, E4, E5, E6. reflexivity.
Qed.

(** C5 (as stated, refuted): two presses of [w] lead from the "overview"
    workspace to "trading", a Tab to its execution panel; the next Tab
    requests the panel id "fragility", which the factory does not know.  The
    state is not left unchanged: the cycle index goes from 1 to 2, the
    execution panel is replaced by an overview panel and "fragility" is
    recorded as the active panel id. *)
Lemma unknown_panel_changes_state :
  let s1 := after_keys [(0, 119); (0, 119); (0, 9)] in
  let s2 := after_keys [(0, 119); (0, 119); (0, 9); (0, 9)] in
  AppState.active_workspace_ (app_state (snd s1)) = "trading"
  /\ at_ "" (current_panel_list_ (fst s1)) 2 = "fragility"
  /\ implemented "fragility" = false
  /\ (active_panel_id (fst s1), current_panel_index_ (fst s1),
      AppState.active_panel_ (app_state (snd s1)))
     = (Some "execution", 1, "execution")
  /\ (active_panel_id (fst s2), current_panel_index_ (fst s2),
      AppState.active_panel_ (app_state (snd s2)))
     = (Some "overview", 2, "fragility").
Proof. vm_compute. repeat split. Qed.

(** C5 (amended): a request for an unknown workspace id is logged and
    ignored, the application and the application state are left as they
    were; a request for an unknown panel id is logged and answered with a
    freshly refreshed overview panel, which becomes the active panel, while
    the requested id is recorded as the active panel id; the active
    workspace, the panel list, the cycle index and the refresh timer are
    left as they were. *)
Theorem unknown_ids (ps : Panel.Parsers) (env : Env) (app : Application.t)
  (g : Globals) (workspace_id panel_id : string) :
  WorkspaceManager.get_workspace workspace_id = None ->
  implemented panel_id = false ->
  (let r := switch_workspace ps env workspace_id app g in
   fst r = app
   /\ app_state (snd r) = app_state g
   /\ logger (snd r)
      = Logger.log Logger.ERROR "Application"
          ("Workspace not found: " ++ workspace_id)
          (Logger.log Logger.INFO "Application"
             ("Switching to workspace: " ++ workspace_id) (logger g)))
  /\ (forall g0,
        create_panel panel_id g0
        = (Panel.Overview OverviewPanel.make,
           snd (LOG_WARN "Application"
                  ("Panel '" ++ panel_id
                   ++ "' not implemented yet, using Overview") g0)))
  /\ let r := switch_to_panel ps env panel_id app g in
     (exists p,
         UIManager.active_panel_ (ui_manager_ (fst r))
         = Some (Panel.Overview p)
         /\ BasePanel.panel_id_ (OverviewPanel.base p) = "overview"
         /\ OverviewPanel.overview_data_ p <> None)
     /\ AppState.active_panel_ (app_state (snd r)) = panel_id
     /\ AppState.active_workspace_ (app_state (snd r))
        = AppState.active_workspace_ (app_state g)
     /\ current_panel_list_ (fst r) = current_panel_list_ app
     /\ current_panel_index_ (fst r) = current_panel_index_ app
     /\ last_refresh_ (fst r) = last_refresh_ app.
Proof.
  intros Hw Hp. split; [|split].
  - unfold switch_workspace. run_effects. rewrite Hw. repeat split.
  - intros g0. now apply create_panel_unknown.
  - cbv zeta. unfold switch_to_panel. run_effects.
    rewrite create_panel_unknown by assumption.
    unfold Panel.refresh, OverviewPanel.refresh. run_effects.
    unfold UIManager.set_active_panel, Panel.on_deactivated,
      Panel.on_activated. run_effects.
    destruct (document (get_status_overview (api_client env)));
      destruct (UIManager.active_panel_ (ui_manager_ app));
      cbn; (split; [eexists; split; [reflexivity|split; [reflexivity|discriminate]]|]);
      repeat split.
Qed.

Lemma unknown_ids_witness :
  fst (switch_workspace parsers (env_at 0) "nowhere" (fst started)
         (snd started))
  = fst started
  /\ AppState.active_panel_
       (app_state (snd (switch_to_panel parsers (env_at 0) "fragility"
                          (fst started) (snd started))))
     = "fragility".
Proof.
  assert (Hw : WorkspaceManager.get_workspace "nowhere" = None)
    by reflexivity.
  assert (Hp : implemented "fragility" = false) by reflexivity.
  destruct (unknown_ids parsers (env_at 0) (fst started) (snd started)
              "nowhere" "fragility" Hw Hp)
    as ((H1 & _) & _ & _ & H2 & _).
  split; [exact H1|exact H2].
Defined.

(** ** C6 *)

(** C6 (as stated, refuted): with the timer started at 0, a loop iteration
    at exactly 10 s runs the auto-refresh although no more than 10 s have
    elapsed; and after a manual refresh ([r]) at 9 s the iteration at 10.5 s
    runs the auto-refresh again, 1.5 s after the last refresh. *)
Lemma auto_refresh_counts_from_last_auto_refresh :
  let tick := after_keys [(10000000000, ERR)] in
  let r := after_keys [(9000000000, 114); (10500000000, ERR)] in
  last_refresh_ (fst started) = 0
  /\ last_refresh_ (fst tick) = 10000000000
  /\ application_log (snd tick)
     = ["Switching to panel: overview"; "Auto-refresh triggered"]
  /\ last_refresh_ (fst r) = 10500000000
  /\ application_log (snd r)
     = ["Switching to panel: overview"; "Manual refresh triggered";
        "Auto-refresh triggered"].
Proof. vm_compute. repeat split. Qed.

(** C6 (amended): on each loop iteration the auto-refresh check runs
    exactly when at least 10 s have elapsed since the timer was last
    restarted; it then refreshes the active panel, if there is one, and
    restarts the timer at the current clock reading.  Only the auto-refresh
    restarts the timer: whatever keys are handled in between (manual
    refresh, panel or workspace switch, resize, keys passed to the panel),
    the timer after a run of iterations is the one determined by the clock
    readings alone. *)
Theorem auto_refresh_policy (ps : Panel.Parsers) (events : list (Env * Z))
  (app : Application.t) (g : Globals) :
  Forall (fun e => keeps_running (snd e) = true) events ->
  last_refresh_ (fst (run_loop ps events app g))
  = timer_after (last_refresh_ app) (map (fun e => now (fst e)) events)
  /\ (forall env ch,
        last_refresh_ (fst (fst (handle_input ps env ch app g)))
        = last_refresh_ app)
  /\ (forall env,
        handle_auto_refresh ps env app g
        = if now env - last_refresh_ app >=? refresh_interval then
            match UIManager.active_panel_ (ui_manager_ app) with
            | Some panel =>
                let (panel', g1) :=
                  Panel.refresh ps (api_client env) panel g in
                (set_last_refresh (now env)
                   (set_ui_manager
                      (UIManager.set_panel (Some panel') (ui_manager_ app))
                      app),
                 snd (LOG_INFO "Application" "Auto-refresh triggered" g1))
            | None => (set_last_refresh (now env) app, g)
            end
          else (app, g)).
Proof.
  intros Hev. split; [|split].
  - revert app g. induction Hev as [|[env ch] events Hk Hev IH]; intros app g.
    + reflexivity.
    + cbn [run_loop map timer_after fst snd]. run_effects.
      pose proof (loop_iteration_timer ps env ch app g Hk) as [H1 H2].
      destruct (loop_iteration ps env ch app g) as [[app1 flag] g1].
      cbn [fst snd] in *. subst flag. rewrite IH, H1. reflexivity.
  - intros env ch. apply handle_input_last_refresh.
  - intros env. apply handle_auto_refresh_cases.
Qed.

Lemma auto_refresh_policy_witness :
  let events := [(env_at 9000000000, 114); (env_at 10500000000, ERR);
                 (env_at 12000000000, 9); (env_at 20500000000, ERR)] in
  last_refresh_ (fst (run_loop parsers events (fst started) (snd started)))
  = timer_after (last_refresh_ (fst started))
      (map (fun e => now (fst e)) events).
Proof.
  cbv zeta.
  apply (auto_refresh_policy parsers
           [(env_at 9000000000, 114); (env_at 10500000000, ERR);
            (env_at 12000000000, 9); (env_at 20500000000, ERR)]).
  repeat constructor.
Defined.

End ApplicationFacts.

(* ================================================================== *)
(** * Further properties of the glyph renderer *)
(* ================================================================== *)

Module RendererMore.
Import Cxx CxxFacts BrailleChart BrailleChartFacts.
Local Open Scope Z_scope.

(** ** [normalize] *)

(** X1: [normalize] returns one value per input value, whatever the range
    it is given; in particular nothing for the empty series. *)
Theorem normalize_length (data : list float) (min_val max_val : float) :
  List.length (normalize data min_val max_val) = List.length data.
Proof.
  unfold normalize. destruct data as [|d0 ds]; [reflexivity|].
  destruct (PrimFloat.eqb min_val max_val).
  - destruct (PrimFloat.eqb _ _);
      [apply repeat_length | apply length_map].
  - destruct (PrimFloat.eqb min_val max_val);
      [apply repeat_length | apply length_map].
Qed.

(** X2: when the range is to be detected ([min_val == max_val]) and all
    the values of a non-empty series compare equal, [normalize] returns 0.5
    for every value and divides nothing. *)
Theorem normalize_flat (data : list float) (min_val max_val : float) :
  data <> [] ->
  PrimFloat.eqb min_val max_val = true ->
  (forall a b, In a data -> In b data -> PrimFloat.eqb a b = true) ->
  normalize data min_val max_val = repeat 0.5%float (List.length data).
Proof.
  intros Hd Hr Heq. unfold normalize.
  destruct data as [|d0 ds]; [congruence|].
  rewrite Hr.
  now rewrite (Heq _ _ (min_element_In _ ds d0) (max_element_In _ ds d0)).
Qed.

Lemma normalize_flat_witness :
  normalize [3; 3; 3]%float 0 0 = repeat 0.5%float 3.
Proof.
  apply (normalize_flat [3; 3; 3]%float 0 0).
  - discriminate.
  - reflexivity.
  - intros a b [<-|[<-|[<-|[]]]] [<-|[<-|[<-|[]]]]; reflexivity.
Defined.

(** ** [bars] *)

Lemma blocks_In (idx : Z) :
  0 <= idx <= 8 -> In (at_ ""%string blocks idx) blocks.
Proof.
  intros H.
  assert (E : idx = 0 \/ idx = 1 \/ idx = 2 \/ idx = 3 \/ idx = 4 \/
              idx = 5 \/ idx = 6 \/ idx = 7 \/ idx = 8) by lia.
  repeat (destruct E as [-> | E]; [cbn; tauto|]).
  subst idx. cbn. tauto.
Qed.

(** X3: for a non-empty list of values and a non-zero height, [bars]
    returns one string per value, each of them one of the nine ramp symbols
    and a single glyph, whatever the values are. *)
Theorem bars_one_symbol_per_value (indefinite : float -> Z)
  (values : list float) (max_height : Z) :
  values <> [] -> max_height <> 0 ->
  List.length (bars indefinite values max_height) = List.length values
  /\ Forall (fun g => In g blocks /\ glyph_count g = 1%nat)
            (bars indefinite values max_height).
Proof.
  intros Hv Hm. unfold bars.
  destruct values as [|v0 vs]; [congruence|].
  destruct (Z.eqb_spec max_height 0); [congruence|].
  split; [apply length_map|].
  apply Forall_forall. intros g Hg. apply in_map_iff in Hg.
  destruct Hg as [val [<- _]].
  split; [apply blocks_In | apply blocks_single_glyph]; apply clamp_0_8.
Qed.

Lemma bars_one_symbol_per_value_witness :
  List.length (bars x86_indefinite [1; 2; 4]%float 1) = 3%nat
  /\ Forall (fun g => In g blocks /\ glyph_count g = 1%nat)
            (bars x86_indefinite [1; 2; 4]%float 1).
Proof.
  apply (bars_one_symbol_per_value x86_indefinite [1; 2; 4]%float 1);
    [discriminate | lia].
Defined.

(** ** [histogram] *)

Lemma sum_update_nat (f : Z -> Z) (v : list Z) (n : nat) :
  (n < List.length v)%nat ->
  total (update_nat f v n) = total v - nth n v 0 + f (nth n v 0).
Proof.
  revert n. induction v as [|x v IH]; intros [|n] H; simpl in *; try lia.
  rewrite IH by lia. lia.
Qed.

Lemma nth_le_sum (v : list Z) (n : nat) :
  Forall (fun c => 0 <= c) v -> 0 <= nth n v 0 <= total v.
Proof.
  intros Hv. revert n. induction Hv as [|x v Hx Hv IH]; intros [|n]; simpl;
    try lia.
  - assert (0 <= total v) by (specialize (IH 0%nat); lia). lia.
  - specialize (IH n). lia.
Qed.

Lemma Forall_nonneg_update_nat (v : list Z) (n : nat) :
  Forall (fun c => 0 <= c) v ->
  total v < 2147483647 ->
  Forall (fun c => 0 <= c) (update_nat (fun c => int_add c 1) v n)
  /\ total (update_nat (fun c => int_add c 1) v n)
     = if (n <? List.length v)%nat then total v + 1 else total v.
Proof.
  intros Hv Hs. destruct (Nat.ltb_spec n (List.length v)) as [Hn|Hn].
  - pose proof (nth_le_sum v n Hv) as Hb.
    assert (Hadd : int_add (nth n v 0) 1 = nth n v 0 + 1)
      by (unfold int_add; apply int_wrap_small; lia).
    split.
    + clear Hs Hb Hn. revert n Hadd.
      induction Hv as [|x v Hx Hv IH]; intros [|n] Hadd; simpl in *;
        constructor; auto.
      rewrite Hadd. lia.
    + rewrite sum_update_nat by assumption. rewrite Hadd. lia.
  - assert (E : update_nat (fun c => int_add c 1) v n = v).
    { clear Hv Hs. revert n Hn. induction v as [|x v IH]; intros [|n] Hn;
        simpl in *; try reflexivity; try lia.
      f_equal. apply IH. lia. }
    rewrite E. split; [assumption|reflexivity].
Qed.

(** The bin a value is counted in lies inside the vector. *)
Lemma clamped_bin_in_range (bins b : Z) :
  0 < bins <= 2147483647 ->
  let bin := if b >=? int_wrap bins then int_wrap (size_sub bins 1) else b in
  let bin := if bin <? 0 then 0 else bin in
  0 <= bin < bins.
Proof.
  intros Hb. cbv zeta.
  rewrite (int_wrap_small bins) by lia.
  assert (E : size_sub bins 1 = bins - 1)
    by (unfold size_sub, size_wrap; apply Z.mod_small; lia).
  rewrite E, (int_wrap_small (bins - 1)) by lia.
  destruct (Z.geb_spec b bins).
  - destruct (Z.ltb_spec (bins - 1) 0); lia.
  - destruct (Z.ltb_spec b 0); lia.
Qed.

Lemma fold_counts (step : list Z -> float -> list Z) (bins : Z)
  (data : list float) (counts : list Z) :
  (forall counts val, exists bin,
      0 <= bin < bins
      /\ step counts val = update (fun c => int_add c 1) counts bin) ->
  List.length counts = Z.to_nat bins ->
  Forall (fun c => 0 <= c) counts ->
  total counts + size data <= 2147483647 ->
  List.length (fold_left step data counts) = Z.to_nat bins
  /\ Forall (fun c => 0 <= c) (fold_left step data counts)
  /\ total (fold_left step data counts) = total counts + size data.
Proof.
  intros Hstep. revert counts.
  induction data as [|val data IH]; intros counts Hl Hc Hs.
  - simpl. unfold size. simpl. repeat split; auto. lia.
  - cbn [fold_left].
    destruct (Hstep counts val) as [bin [Hr ->]].
    unfold size in Hs. cbn [List.length] in Hs.
    unfold update. destruct (Z.ltb_spec bin 0); [lia|].
    destruct (Forall_nonneg_update_nat counts (Z.to_nat bin) Hc) as [Hc' Hs'];
      [lia|].
    destruct (Nat.ltb_spec (Z.to_nat bin) (List.length counts)); [|lia].
    destruct (IH (update_nat (fun c => int_add c 1) counts (Z.to_nat bin)))
      as (H1 & H2 & H3);
      [now rewrite length_update_nat | assumption | unfold size; lia |].
    repeat split; [assumption | assumption |].
    rewrite H3, Hs'. unfold size. cbn [List.length]. lia.
Qed.

Lemma histogram_fold_counts (indefinite : float -> Z) (bins : Z)
  (min_val bin_width : float) (data : list float) :
  0 < bins <= 2147483647 ->
  size data <= 2147483647 ->
  let result := histogram_bin_counts indefinite data bins min_val bin_width in
  List.length result = Z.to_nat bins
  /\ Forall (fun c => 0 <= c) result
  /\ total result = size data.
Proof.
  intros Hb Hn. cbv zeta. unfold histogram_bin_counts.
  assert (Hz : total (repeat 0 (Z.to_nat bins)) = 0)
    by (induction (Z.to_nat bins); simpl; lia).
  match goal with
  | |- context [fold_left ?f data ?c] =>
      destruct (fold_counts f bins data c) as (H1 & H2 & H3)
  end.
  - intros counts val. eexists. split; [|reflexivity].
    apply (clamped_bin_in_range bins _ Hb).
  - apply repeat_length.
  - induction (Z.to_nat bins); simpl; constructor; auto; lia.
  - lia.
  - repeat split; try assumption. lia.
Qed.

(** [max_element] on integers is an upper bound of the range. *)
Lemma max_element_upper (xs : list Z) (x0 : Z) :
  Forall (fun x => x <= max_element Z.ltb x0 xs) (x0 :: xs).
Proof.
  unfold max_element.
  assert (G : forall xs a, a <= fold_left
                (fun largest x => if largest <? x then x else largest) xs a).
  { induction xs0 as [|x xs0 IH]; intros a; simpl; [lia|].
    destruct (Z.ltb_spec a x).
    - specialize (IH x). lia.
    - apply IH. }
  revert x0. induction xs as [|x xs IH]; intros x0.
  - simpl. constructor; [lia|constructor].
  - simpl. constructor.
    + destruct (Z.ltb_spec x0 x).
      * specialize (G xs x). lia.
      * apply G.
    + destruct (Z.ltb_spec x0 x).
      * apply IH.
      * specialize (IH x0). inversion IH as [|? ? Hx0 Hrest]; subst.
        constructor; [|assumption].
        specialize (G xs x0). lia.
Qed.

(** X4: [histogram] counts every value of the series in exactly one of the
    [bins] bins: the counts are [bins] non-negative numbers whose total is the
    length of the series, and the peak count, by which the counts are
    divided, is at least 1.  The bound on [bins] and on the length is the
    range of [int], in which the bins are indexed and counted. *)
Theorem histogram_counts_partition (indefinite : float -> Z)
  (data : list float) (bins : Z) (min_val bin_width : float) :
  data <> [] ->
  0 < bins <= INT_MAX ->
  size data <= INT_MAX ->
  let counts := histogram_bin_counts indefinite data bins min_val bin_width in
  List.length counts = Z.to_nat bins
  /\ Forall (fun c => 0 <= c) counts
  /\ total counts = size data
  /\ exists c0 cs, counts = c0 :: cs /\ 1 <= max_element Z.ltb c0 cs.
Proof.
  intros Hd Hb Hn counts.
  assert (Hmax : INT_MAX = 2147483647) by reflexivity.
  rewrite Hmax in *.
  destruct (histogram_fold_counts indefinite bins min_val bin_width data Hb Hn)
    as (H1 & H2 & H3).
  fold counts in H1, H2, H3.
  repeat split; try assumption.
  destruct counts as [|c0 cs] eqn:E.
  - simpl in H1. lia.
  - exists c0, cs. split; [reflexivity|].
    pose proof (max_element_upper cs c0) as Hup.
    assert (Hpos : 0 < size data).
    { unfold size. destruct data; [congruence|]. simpl. lia. }
    destruct (Z.lt_ge_cases (max_element Z.ltb c0 cs) 1) as [Hlt|]; [|lia].
    exfalso.
    assert (Hz : total (c0 :: cs) <= 0).
    { clear - Hup H2 Hlt.
      generalize dependent (max_element Z.ltb c0 cs). intros m Hup Hlt.
      induction Hup as [|x l Hx Hl IH]; simpl; [lia|].
      inversion H2 as [|? ? Hx0 Hrest]; subst. specialize (IH Hrest). lia. }
    lia.
Qed.

Lemma histogram_counts_partition_witness :
  let counts :=
    histogram_bin_counts x86_indefinite [1; 2; 2; 3; 3; 3]%float 3 1
      (2 / 3)%float in
  List.length counts = Z.to_nat 3
  /\ Forall (fun c => 0 <= c) counts
  /\ total counts = size [1; 2; 2; 3; 3; 3]%float
  /\ exists c0 cs, counts = c0 :: cs /\ 1 <= max_element Z.ltb c0 cs.
Proof.
  apply (histogram_counts_partition x86_indefinite [1; 2; 2; 3; 3; 3]%float 3 1
           (2 / 3)%float).
  - discriminate.
  - unfold INT_MAX. lia.
  - vm_compute. discriminate.
Defined.

Lemma histogram_bin_counts_length (indefinite : float -> Z)
  (data : list float) (bins : Z) (min_val bin_width : float) :
  List.length (histogram_bin_counts indefinite data bins min_val bin_width)
  = Z.to_nat bins.
Proof.
  unfold histogram_bin_counts.
  rewrite <- (repeat_length 0 (Z.to_nat bins)) at 2.
  generalize (repeat 0 (Z.to_nat bins)).
  induction data as [|val data IH]; intros counts; [reflexivity|].
  cbn [fold_left]. rewrite IH.
  pose proof (size_update (fun c => int_add c 1) counts) as Hs.
  unfold size in Hs. match goal with |- context [update _ counts ?b] =>
    specialize (Hs b) end. lia.
Qed.

(** X5: for a non-empty series, at least one bin and a width w > 0,
    [histogram] returns a string of exactly w glyphs, whatever the number of
    bins is. *)
Theorem histogram_width (indefinite : float -> Z) (data : list float)
  (bins width height : Z) :
  data <> [] -> 0 < bins -> 0 < width ->
  Z.of_nat (glyph_count (histogram indefinite data bins width height)) = width.
Proof.
  intros Hd Hb Hw. unfold histogram.
  destruct data as [|d0 ds]; [congruence|].
  destruct (Z.eqb_spec bins 0); [lia|].
  unfold inline_sparkline.
  rewrite glyph_count_concat by apply inline_sparkline_glyphs_single.
  rewrite inline_sparkline_glyphs_length; [lia| |lia].
  pose proof (histogram_bin_counts_length indefinite (d0 :: ds) bins
                (min_element PrimFloat.ltb d0 ds)
                ((max_element PrimFloat.ltb d0 ds
                  - min_element PrimFloat.ltb d0 ds) / double_of_Z bins)%float)
    as Hl.
  destruct (histogram_bin_counts _ _ _ _ _) as [|c0 cs].
  - simpl in Hl. lia.
  - discriminate.
Qed.

Lemma histogram_width_witness :
  Z.of_nat (glyph_count
              (histogram x86_indefinite [1; 2; 2; 3; 3; 3]%float 5 12 1)) = 12.
Proof.
  apply (histogram_width x86_indefinite [1; 2; 2; 3; 3; 3]%float 5 12 1);
    [discriminate | lia | lia].
Defined.

(** ** The text returned by [sparkline] *)

(** Every braille code point is one glyph of three bytes in UTF-8. *)
Lemma braille_bytes (dots : Z) :
  0 <= dots < 256 ->
  glyph_count (to_bytes (BRAILLE_BASE + dots)) = 1%nat
  /\ String.length (to_bytes (BRAILLE_BASE + dots)) = 3%nat.
Proof.
  intros H.
  assert (Hall : forallb
                   (fun d =>
                      Nat.eqb (glyph_count (to_bytes (BRAILLE_BASE + d))) 1
                      && Nat.eqb (String.length (to_bytes (BRAILLE_BASE + d))) 3)
                   (iota 256) = true)
    by (vm_compute; reflexivity).
  rewrite forallb_forall in Hall.
  specialize (Hall dots (proj2 (In_iota 256 dots) H)).
  apply andb_true_iff in Hall. destruct Hall as [H1 H2].
  apply Nat.eqb_eq in H1, H2. auto.
Qed.

Lemma combine_map_self {A B} (g : A -> B) (l : list A) :
  combine l (map g l) = map (fun x => (x, g x)) l.
Proof. induction l as [|x l IH]; simpl; [reflexivity|now rewrite IH]. Qed.

Section Measure.
(** A measure of strings that adds up over concatenation: the number of
    glyphs, the number of bytes. *)
Variable m : string -> nat.
Hypothesis m_append : forall s t, m (s ++ t)%string = (m s + m t)%nat.
Hypothesis m_empty : m ""%string = 0%nat.

Lemma m_concat (l : list string) :
  m (String.concat "" l) = list_sum (map m l).
Proof.
  induction l as [|x l IH]; [exact m_empty|].
  destruct l as [|y l].
  - simpl. lia.
  - change (String.concat "" (x :: y :: l))
      with (x ++ "" ++ String.concat "" (y :: l))%string.
    rewrite !m_append, m_empty, IH. simpl. lia.
Qed.

Lemma list_sum_const {A} (f : A -> nat) (k : nat) (l : list A) :
  (forall x, In x l -> f x = k) ->
  list_sum (map f l) = (List.length l * k)%nat.
Proof.
  induction l as [|x l IH]; intros H; simpl; [reflexivity|].
  rewrite H by now left. rewrite IH by (intros; apply H; now right). lia.
Qed.

(** The measure of the text of [h] rows of [w] code points each, when a
    code point measures [k] and the line feed 1. *)
Lemma m_cells_text (g : Z -> list Z) (h : Z) (w k : nat) :
  0 < h < 2 ^ 64 ->
  m (String "010" EmptyString) = 1%nat ->
  (forall r, 0 <= r < h ->
             List.length (g r) = w
             /\ forall cp, In cp (g r) -> m (to_bytes cp) = k) ->
  m (cells_text (map g (iota h)) h)
  = (Z.to_nat h * (w * k) + (Z.to_nat h - 1))%nat.
Proof.
  intros Hh Hnl Hg. unfold cells_text.
  rewrite combine_map_self, m_concat, !map_map.
  assert (Hsub : size_sub h 1 = h - 1)
    by (unfold size_sub, size_wrap; apply Z.mod_small; lia).
  rewrite Hsub.
  assert (Hterm : forall r, 0 <= r < h ->
            m (String.append (String.concat "" (map to_bytes (g r)))
                 (if r <? h - 1 then String "010" EmptyString
                  else EmptyString))
            = (w * k + (if (r <? h - 1)%Z then 1 else 0))%nat).
  { intros r Hr. destruct (Hg r Hr) as [Hl Hk].
    rewrite m_append, m_concat, map_map.
    rewrite (list_sum_const (fun cp => m (to_bytes cp)) k) by assumption.
    rewrite Hl. destruct (r <? h - 1); rewrite ?Hnl, ?m_empty; reflexivity. }
  rewrite (map_ext_in _
             (fun r => (w * k + (if (r <? h - 1)%Z then 1 else 0))%nat))
    by (intros r Hr; apply Hterm, In_iota, Hr).
  clear Hterm Hg Hsub.
  unfold iota. rewrite map_map.
  assert (Hn : Z.to_nat h = S (Z.to_nat h - 1)) by lia.
  rewrite Hn at 1. rewrite seq_S, map_app, list_sum_app. cbn [map list_sum].
  rewrite (list_sum_const _ (w * k + 1)%nat).
  - rewrite length_seq.
    destruct (Z.ltb_spec (Z.of_nat (0 + (Z.to_nat h - 1))) (h - 1)); [lia|].
    rewrite Hn at 2. unfold list_sum; cbn [fold_right].
    generalize (Z.to_nat h - 1)%nat (w * k)%nat. intros; nia.
  - intros i Hi. apply in_seq in Hi.
    destruct (Z.ltb_spec (Z.of_nat i) (h - 1)); lia.
Qed.
End Measure.

Lemma append_empty (s : string) : (s ++ "")%string = s.
Proof. induction s as [|c s IH]; simpl; [reflexivity|now rewrite IH]. Qed.

Lemma length_append (s t : string) :
  String.length (s ++ t) = (String.length s + String.length t)%nat.
Proof. induction s as [|c s IH]; simpl; [reflexivity|now rewrite IH]. Qed.

(** X6: for a non-empty series, a width > 0 and a height > 0 the text
    returned by [sparkline] consists of [height] rows of [width] braille
    glyphs, three bytes each, with a line feed between consecutive rows and
    none at the end: [height * width + (height - 1)] glyphs in
    [3 * height * width + (height - 1)] bytes. *)
Theorem sparkline_text_size (indefinite : float -> Z) (data : list float)
  (width height : Z) :
  data <> [] -> 0 < width -> 0 < height < 2 ^ 64 ->
  Z.of_nat (glyph_count (sparkline indefinite data width height))
  = height * width + (height - 1)
  /\ Z.of_nat (String.length (sparkline indefinite data width height))
     = 3 * height * width + (height - 1).
Proof.
  intros Hd Hw Hh. unfold sparkline.
  destruct data as [|d0 ds]; [congruence|].
  destruct (Z.eqb_spec width 0); [lia|].
  destruct (Z.eqb_spec height 0); [lia|]. cbn [orb].
  unfold sparkline_cells, grid_cells.
  set (grid := sparkline_grid indefinite (d0 :: ds) width height).
  split.
  - rewrite (m_cells_text glyph_count glyph_count_append eq_refl _ height
               (Z.to_nat width) 1); [nia|lia|reflexivity|].
    intros r Hr. split; [rewrite length_map; apply length_iota|].
    intros cp Hcp. apply in_map_iff in Hcp. destruct Hcp as [col [<- _]].
    apply braille_bytes, cell_dots_bits.
  - rewrite (m_cells_text String.length length_append eq_refl _ height
               (Z.to_nat width) 3); [nia|lia|reflexivity|].
    intros r Hr. split; [rewrite length_map; apply length_iota|].
    intros cp Hcp. apply in_map_iff in Hcp. destruct Hcp as [col [<- _]].
    apply braille_bytes, cell_dots_bits.
Qed.

Lemma sparkline_text_size_witness :
  Z.of_nat (glyph_count (sparkline x86_indefinite [0; 0.5; 1]%float 2 2))
  = 2 * 2 + (2 - 1)
  /\ Z.of_nat (String.length (sparkline x86_indefinite [0; 0.5; 1]%float 2 2))
     = 3 * 2 * 2 + (2 - 1).
Proof.
  apply (sparkline_text_size x86_indefinite [0; 0.5; 1]%float 2 2);
    [discriminate | lia | lia].
Defined.

(** ** The cells of [sparkline] *)

Lemma sparkline_grid_shape (indefinite : float -> Z) (data : list float)
  (width height : Z) :
  0 <= height ->
  shape height (size_mul width 2)
    (sparkline_grid indefinite data width height).
Proof.
  intros Hh. unfold sparkline_grid. apply plot_fold_shape.
  apply shape_blank; [assumption|apply size_wrap_nonneg].
Qed.

Lemma size_small (z : Z) : 0 <= z < 2 ^ 64 -> size_wrap z = z.
Proof. intros H. unfold size_wrap. now apply Z.mod_small. Qed.

(** The plotting loop runs over no more sub-columns than the series has
    values. *)
Lemma size_normalize (data : list float) (min_val max_val : float) :
  size (normalize data min_val max_val) = size data.
Proof.
  unfold size, normalize. destruct data as [|d0 ds]; [reflexivity|].
  f_equal.
  destruct (PrimFloat.eqb min_val max_val);
    destruct (PrimFloat.eqb _ _);
    first [apply repeat_length | apply length_map].
Qed.

Lemma plotted_samples_le (data : list float) (pixel_width : Z) :
  0 <= pixel_width ->
  Z.min (size (sparkline_resampled data pixel_width)) pixel_width
  <= size data.
Proof.
  intros Hp. unfold sparkline_resampled.
  destruct (Z.leb_spec (size data) pixel_width) as [H|H].
  - rewrite size_normalize. lia.
  - lia.
Qed.

Lemma plotted_row_outside (indefinite : float -> Z) (data : list float)
  (width height x : Z) :
  size data <= x -> plotted_row indefinite data width height x = None.
Proof.
  intros Hx. unfold plotted_row.
  pose proof (plotted_samples_le data (size_mul width 2)
                (size_wrap_nonneg _)) as Hle.
  destruct (Z.leb_spec 0 x); [|reflexivity].
  destruct (Z.ltb_spec x
              (Z.min (size (sparkline_resampled data (size_mul width 2)))
                 (size_mul width 2))); [lia|reflexivity].
Qed.

Lemma mask_zero (dots : Z) :
  0 <= dots < 256 -> Z.land dots 15 = 0 -> Z.land dots 240 = 0 -> dots = 0.
Proof.
  intros Hd H1 H2.
  assert (Hall : forallb
                   (fun d => negb (Z.land d 15 =? 0) || negb (Z.land d 240 =? 0)
                             || (d =? 0))
                   (iota 256) = true)
    by (vm_compute; reflexivity).
  rewrite forallb_forall in Hall.
  specialize (Hall dots (proj2 (In_iota 256 dots) Hd)).
  rewrite H1, H2 in Hall. simpl in Hall. now apply Z.eqb_eq in Hall.
Qed.

(** X7: in a row of full height (all of its four sub-rows exist:
    [4 * row + 3 < height]), each of the two dot columns of a cell is lit
    entirely or not at all: the left one (the first four entries of
    [BRAILLE_DOTS], mask 15) when the plotting loop marked sub-column
    [2 * col] in this row, the right one (the last four, mask 240) when it
    marked sub-column [2 * col + 1].
    The cell is one of four glyphs; the position of the value inside the
    row is not drawn. *)
Theorem sparkline_cell_columns (indefinite : float -> Z) (data : list float)
  (width height row col : Z) :
  0 <= row -> 4 * row + 3 < height -> height < 2 ^ 62 ->
  0 <= col < width -> width < 2 ^ 62 ->
  let lit x :=
    match plotted_row indefinite data width height x with
    | Some r => r =? row
    | None => false
    end in
  cell_dots (sparkline_grid indefinite data width height) row col
  = (if lit (2 * col) then 15 else 0) + (if lit (2 * col + 1) then 240 else 0).
Proof.
  intros Hr Hrh Hh Hc Hw lit.
  pose proof (sparkline_grid_shape indefinite data width height
                ltac:(lia)) as [Hs Hl].
  pose proof (sparkline_grid_marked indefinite data width height row
                (2 * col) ltac:(lia)) as M1.
  pose proof (sparkline_grid_marked indefinite data width height row
                (2 * col + 1) ltac:(lia)) as M2.
  assert (Hline : size (at_ [] (sparkline_grid indefinite data width height)
                          row) = 2 * width).
  { rewrite (at_Forall (fun line => size line = size_mul width 2) []
               _ row Hl) by lia.
    unfold size_mul. rewrite size_small by lia. lia. }
  unfold cell_dots, size_add, size_mul. cbn [fold_left].
  rewrite (size_small (row * 4)), (size_small (col * 2)) by lia.
  rewrite !(size_small (row * 4 + _)), (size_small (col * 2 + 1)) by lia.
  replace (col * 2) with (2 * col) by lia.
  rewrite Hs, Hline.
  destruct (Z.ltb_spec (row * 4 + 0) height); [|lia].
  destruct (Z.ltb_spec (row * 4 + 1) height); [|lia].
  destruct (Z.ltb_spec (row * 4 + 2) height); [|lia].
  destruct (Z.ltb_spec (row * 4 + 3) height); [|lia].
  destruct (Z.ltb_spec (2 * col) (2 * width)); [|lia].
  destruct (Z.ltb_spec (2 * col + 1) (2 * width)); [|lia].
  cbn [andb]. unfold marked in M1, M2.
  assert (L1 : at_ false (at_ [] (sparkline_grid indefinite data width height)
                            row) (2 * col) = lit (2 * col)).
  { subst lit. cbv beta.
    destruct (at_ false _ (2 * col)).
    - rewrite (proj1 M1 eq_refl). symmetry. apply Z.eqb_refl.
    - destruct (plotted_row indefinite data width height (2 * col))
        as [r|]; [|reflexivity].
      destruct (Z.eqb_spec r row); [|reflexivity].
      subst r. discriminate (proj2 M1 eq_refl). }
  assert (L2 : at_ false (at_ [] (sparkline_grid indefinite data width height)
                            row) (2 * col + 1) = lit (2 * col + 1)).
  { subst lit. cbv beta.
    destruct (at_ false _ (2 * col + 1)).
    - rewrite (proj1 M2 eq_refl). symmetry. apply Z.eqb_refl.
    - destruct (plotted_row indefinite data width height (2 * col + 1))
        as [r|]; [|reflexivity].
      destruct (Z.eqb_spec r row); [|reflexivity].
      subst r. discriminate (proj2 M2 eq_refl). }
  rewrite L1, L2.
  destruct (lit (2 * col)), (lit (2 * col + 1)); vm_compute; reflexivity.
Qed.

Lemma sparkline_cell_columns_witness :
  cell_dots (sparkline_grid x86_indefinite [0; 0.5; 1]%float 2 4) 0 1 = 15.
Proof.
  exact (sparkline_cell_columns x86_indefinite [0; 0.5; 1]%float 2 4 0 1
           ltac:(lia) ltac:(lia) ltac:(lia) ltac:(lia) ltac:(lia)).
Defined.

(** X8: the packing loop compares [row * 4 + dy] with the number of rows
    of the grid, which is [height] and not [height * 4].  A row with
    [height <= 4 * row] never carries a dot, whatever the data: with a
    height of at most 4 everything below the first row is blank. *)
Theorem sparkline_lower_rows_blank (indefinite : float -> Z)
  (data : list float) (width height row col : Z) :
  0 <= height -> height <= 4 * row -> row < 2 ^ 61 ->
  cell_dots (sparkline_grid indefinite data width height) row col = 0.
Proof.
  intros Hh Hr Hrow.
  pose proof (sparkline_grid_shape indefinite data width height Hh)
    as [Hs _].
  unfold cell_dots, size_add, size_mul. cbn [fold_left].
  rewrite Hs.
  rewrite (size_small (row * 4)) by lia.
  rewrite !(size_small (row * 4 + _)) by lia.
  destruct (Z.ltb_spec (row * 4 + 0) height); [lia|].
  destruct (Z.ltb_spec (row * 4 + 1) height); [lia|].
  destruct (Z.ltb_spec (row * 4 + 2) height); [lia|].
  destruct (Z.ltb_spec (row * 4 + 3) height); [lia|].
  reflexivity.
Qed.

Lemma sparkline_lower_rows_blank_witness :
  cell_dots (sparkline_grid x86_indefinite [0; 0.5; 1]%float 2 3) 2 0 = 0.
Proof.
  apply (sparkline_lower_rows_blank x86_indefinite [0; 0.5; 1]%float 2 3 2 0);
    lia.
Defined.

(** X9: a series shorter than the pixel width is not stretched: the
    sub-columns from [size data] on are never marked, so every cell whose
    left sub-column [2 * col] lies at or beyond the end of the series is
    blank. *)
Theorem sparkline_right_of_data_blank (indefinite : float -> Z)
  (data : list float) (width height row col : Z) :
  0 <= height -> 0 <= col < 2 ^ 62 -> size data <= 2 * col ->
  cell_dots (sparkline_grid indefinite data width height) row col = 0.
Proof.
  intros Hh Hc Hd.
  destruct (cell_dots_bits (sparkline_grid indefinite data width height)
              row col) as [Hb [H1 H2]].
  assert (Hx1 : size_mul col 2 = 2 * col)
    by (unfold size_mul; rewrite size_small; lia).
  assert (Hx2 : size_add (size_mul col 2) 1 = 2 * col + 1)
    by (unfold size_add; rewrite Hx1, size_small; lia).
  rewrite Hx1 in H1. rewrite Hx2 in H2.
  rewrite sparkline_grid_marked in H1, H2 by assumption.
  rewrite plotted_row_outside in H1, H2 by lia.
  apply mask_zero; [assumption| |].
  - destruct (Z.eq_dec
                (Z.land (cell_dots (sparkline_grid indefinite data width
                                      height) row col) 15) 0) as [E|E];
      [exact E|]. specialize (H1 E). discriminate.
  - destruct (Z.eq_dec
                (Z.land (cell_dots (sparkline_grid indefinite data width
                                      height) row col) 240) 0) as [E|E];
      [exact E|]. specialize (H2 E). discriminate.
Qed.

Lemma sparkline_right_of_data_blank_witness :
  cell_dots (sparkline_grid x86_indefinite [0; 0.5; 1]%float 4 4) 0 2 = 0.
Proof.
  apply (sparkline_right_of_data_blank x86_indefinite [0; 0.5; 1]%float
           4 4 0 2); [lia | lia | vm_compute; discriminate].
Defined.

(** ** [trend_indicator] *)

(** X26: whichever renderer [trend_indicator] picks, the single-line one
    for a height of 1 and the dense one otherwise, a non-empty series drawn
    [width] wide and [height] high comes back as [height] rows of [width]
    glyphs with a line feed between consecutive rows:
    [height * width + (height - 1)] glyphs in all. *)
Theorem trend_indicator_size (indefinite : float -> Z) (data : list float)
  (width height : Z) :
  data <> [] -> 0 < width -> 0 < height < 2 ^ 64 ->
  Z.of_nat (glyph_count (trend_indicator indefinite data width height))
  = height * width + (height - 1).
Proof.
  intros Hd Hw Hh. unfold trend_indicator.
  destruct (Z.eqb_spec height 1) as [->|Hne].
  - unfold inline_sparkline.
    rewrite glyph_count_concat by apply inline_sparkline_glyphs_single.
    rewrite inline_sparkline_glyphs_length by (trivial; lia). lia.
  - unfold sparkline.
    destruct data as [|d0 ds]; [congruence|].
    destruct (Z.eqb_spec width 0); [lia|].
    destruct (Z.eqb_spec height 0); [lia|]. cbn [orb].
    unfold sparkline_cells, grid_cells.
    rewrite (m_cells_text glyph_count glyph_count_append eq_refl _ height
               (Z.to_nat width) 1); [nia|lia|reflexivity|].
    intros r Hr. split; [rewrite length_map; apply length_iota|].
    intros cp Hcp. apply in_map_iff in Hcp. destruct Hcp as [col [<- _]].
    apply braille_bytes, cell_dots_bits.
Qed.

Lemma trend_indicator_size_witness :
  Z.of_nat (glyph_count
              (trend_indicator x86_indefinite [0; 0.5; 1]%float 4 1))
  = 1 * 4 + (1 - 1).
Proof.
  apply (trend_indicator_size x86_indefinite [0; 0.5; 1]%float 4 1);
    [discriminate | lia | lia].
Defined.

End RendererMore.

(* ================================================================== *)
(** * Properties of the logger, the mode names and the HTTP client *)
(* ================================================================== *)

Module ServicesMore.
Import Cxx CxxFacts Eff Api PanelFacts.
Local Open Scope string_scope.
Local Open Scope Z_scope.

Lemma size_app {A} (l1 l2 : list A) :
  size (l1 ++ l2)%list = size l1 + size l2.
Proof. unfold size. rewrite length_app. lia. Qed.

Lemma size_skipn {A} (k : nat) (l : list A) :
  size (skipn k l) = Z.max 0 (size l - Z.of_nat k).
Proof. unfold size. rewrite length_skipn. lia. Qed.

Lemma last_skipn {A} (k : nat) (l : list A) (d : A) :
  (k < List.length l)%nat -> last (skipn k l) d = last l d.
Proof.
  revert l. induction k as [|k IH]; intros l H; [reflexivity|].
  destruct l as [|x l]; simpl in H; [lia|].
  cbn [skipn]. rewrite IH by lia.
  destruct l; [simpl in H; lia|reflexivity].
Qed.

Lemma size_wrap_le (z : Z) : 0 <= z -> 0 <= size_wrap z <= z.
Proof.
  intros H. unfold size_wrap. split.
  - apply Z.mod_pos_bound. reflexivity.
  - apply Z.mod_le; [assumption|reflexivity].
Qed.

(** ** The logger *)

(** The newest entry survives the trimming as soon as the buffer may hold
    one entry. *)
Lemma log_last (lvl : Logger.LogLevel) (src msg : string) (lg : Logger.t)
  (d : Logger.LogEntry) :
  Logger.level_rank (Logger.min_level_ lg) <= Logger.level_rank lvl ->
  1 <= Logger.max_entries_ lg ->
  last (Logger.entries_ (Logger.log lvl src msg lg)) d
  = {| Logger.level := lvl; Logger.source := src; Logger.message := msg |}.
Proof.
  intros Hl Hm. unfold Logger.log.
  destruct (Z.ltb_spec (Logger.level_rank lvl)
              (Logger.level_rank (Logger.min_level_ lg))); [lia|].
  cbn [Logger.entries_].
  destruct (_ >? _) eqn:E.
  - apply Z.gtb_lt in E. rewrite size_app in *. unfold size_sub.
    change (size [_]) with 1 in *.
    pose proof (size_wrap_le
                  (size (Logger.entries_ lg) + 1 - Logger.max_entries_ lg)
                  ltac:(lia)) as Hw.
    rewrite last_skipn by (rewrite length_app; unfold size in *; simpl; lia).
    apply last_last.
  - apply last_last.
Qed.

Lemma log_settings (lvl : Logger.LogLevel) (src msg : string)
  (lg : Logger.t) :
  Logger.min_level_ (Logger.log lvl src msg lg) = Logger.min_level_ lg
  /\ Logger.max_entries_ (Logger.log lvl src msg lg) = Logger.max_entries_ lg.
Proof. unfold Logger.log. destruct (_ <? _); split; reflexivity. Qed.

(** X10: a message whose level passes the filter is appended and the
    buffer then trimmed from the front to [max_entries_]: the new buffer is
    a suffix of the old one followed by the new entry, it holds
    [min (size + 1, max_entries_)] entries, and the new entry is its last
    one unless [max_entries_] is 0. *)
Theorem log_appends_and_trims (lvl : Logger.LogLevel) (src msg : string)
  (lg : Logger.t) :
  Logger.level_rank (Logger.min_level_ lg) <= Logger.level_rank lvl ->
  0 <= Logger.max_entries_ lg ->
  size (Logger.entries_ lg) + 1 < 2 ^ 64 ->
  let e := {| Logger.level := lvl; Logger.source := src;
              Logger.message := msg |} in
  let lg' := Logger.log lvl src msg lg in
  (exists dropped,
      (Logger.entries_ lg ++ [e])%list
      = (dropped ++ Logger.entries_ lg')%list)
  /\ size (Logger.entries_ lg')
     = Z.min (size (Logger.entries_ lg) + 1) (Logger.max_entries_ lg)
  /\ (1 <= Logger.max_entries_ lg ->
      forall d, last (Logger.entries_ lg') d = e).
Proof.
  intros Hl Hm Hs e lg'. split; [|split].
  - subst lg'. unfold Logger.log.
    destruct (Z.ltb_spec (Logger.level_rank lvl)
                (Logger.level_rank (Logger.min_level_ lg))); [lia|].
    cbn [Logger.entries_]. fold e.
    destruct (_ >? _).
    + eexists. symmetry. apply firstn_skipn.
    + exists []. reflexivity.
  - subst lg'. unfold Logger.log.
    destruct (Z.ltb_spec (Logger.level_rank lvl)
                (Logger.level_rank (Logger.min_level_ lg))); [lia|].
    cbn [Logger.entries_]. fold e.
    assert (Hsz : size (Logger.entries_ lg ++ [e])%list
                  = size (Logger.entries_ lg) + 1)
      by (rewrite size_app; reflexivity).
    destruct (_ >? _) eqn:E.
    + apply Z.gtb_lt in E. rewrite Hsz in *. unfold size_sub.
      rewrite RendererMore.size_small by lia.
      rewrite size_skipn, Hsz. lia.
    + rewrite Z.gtb_ltb in E. apply Z.ltb_ge in E. lia.
  - intros H1 d. now apply log_last.
Qed.

Lemma log_appends_and_trims_witness :
  let lg := Logger.set_max_entries 2
              (Logger.log Logger.INFO "a" "one"
                 (Logger.log Logger.INFO "a" "two" Logger.initial)) in
  size (Logger.entries_ (Logger.log Logger.WARN "b" "three" lg))
  = Z.min (size (Logger.entries_ lg) + 1) (Logger.max_entries_ lg).
Proof.
  cbv zeta.
  apply (log_appends_and_trims Logger.WARN "b" "three"
           (Logger.set_max_entries 2
              (Logger.log Logger.INFO "a" "one"
                 (Logger.log Logger.INFO "a" "two" Logger.initial))));
    vm_compute; congruence.
Defined.

Lemma get_recent_logs_size (count : Z) (lg : Logger.t) :
  0 <= count -> size (Logger.entries_ lg) < 2 ^ 64 ->
  size (Logger.get_recent_logs count lg)
  = Z.min count (size (Logger.entries_ lg)).
Proof.
  intros Hc Hs. unfold Logger.get_recent_logs.
  destruct (Z.leb_spec (size (Logger.entries_ lg)) count) as [H|H]; [lia|].
  unfold size_sub. rewrite RendererMore.size_small by lia.
  rewrite size_skipn. lia.
Qed.

(** X11: [get_recent_logs count] returns the newest
    [min (count, size)] entries, in the order in which they were logged. *)
Theorem get_recent_logs_suffix (count : Z) (lg : Logger.t) :
  0 <= count -> size (Logger.entries_ lg) < 2 ^ 64 ->
  (exists older,
      Logger.entries_ lg
      = (older ++ Logger.get_recent_logs count lg)%list)
  /\ size (Logger.get_recent_logs count lg)
     = Z.min count (size (Logger.entries_ lg)).
Proof.
  intros Hc Hs. split; [|now apply get_recent_logs_size].
  unfold Logger.get_recent_logs.
  destruct (Z.leb_spec (size (Logger.entries_ lg)) count) as [H|H].
  - exists []. reflexivity.
  - eexists. symmetry. apply firstn_skipn.
Qed.

Lemma get_recent_logs_suffix_witness :
  let lg := Logger.log Logger.INFO "a" "one"
              (Logger.log Logger.INFO "a" "two" Logger.initial) in
  size (Logger.get_recent_logs 1 lg) = Z.min 1 (size (Logger.entries_ lg)).
Proof.
  cbv zeta.
  apply (get_recent_logs_suffix 1
           (Logger.log Logger.INFO "a" "one"
              (Logger.log Logger.INFO "a" "two" Logger.initial)));
    [lia | vm_compute; reflexivity].
Defined.

(** ** The mode names *)

(** X12: [string_to_mode] inverts [mode_to_string]; every string that is
    not one of the three names is read as [PAPER]. *)
Theorem mode_names_round_trip :
  (forall mode, AppState.string_to_mode (AppState.mode_to_string mode) = mode)
  /\ (forall str,
        AppState.string_to_mode str <> AppState.PAPER ->
        str = AppState.mode_to_string (AppState.string_to_mode str)).
Proof.
  split.
  - intros []; reflexivity.
  - intros str. unfold AppState.string_to_mode.
    destruct (String.eqb_spec str "LIVE"); [subst; reflexivity|].
    destruct (String.eqb_spec str "PAPER"); [congruence|].
    destruct (String.eqb_spec str "BACKTEST"); [subst; reflexivity|].
    congruence.
Qed.

(** ** The HTTP client *)

Section HttpFacts.
Variable parse : string -> json + string.

(** A GET followed by [handle_response]: a document comes out exactly
    when the transfer was answered with a status code from 200 to 299 and a
    non-empty body that parses. *)
Lemma get_then_handle (base_url_ : string) (network : string -> Http.Transfer)
  (path endpoint : string) (g : Globals) (doc : json) :
  fst (bind (Http.get base_url_ network path)
            (fun response => Http.handle_response parse response endpoint) g)
  = Some doc
  <-> exists code response_body,
        network (Http.full_url base_url_ path)
        = Http.Answered code response_body
        /\ 200 <= code < 300
        /\ response_body <> ""
        /\ parse response_body = inl doc.
Proof.
  unfold Http.get, Http.handle_response, Http.as_json, Http.perform_request.
  destruct (network (Http.full_url base_url_ path))
    as [|strerror|code response_body]; run_effects.
  - split; [discriminate|]. intros (c & b & H & _). discriminate.
  - split; [discriminate|]. intros (c & b & H & _). discriminate.
  - destruct (Z.geb_spec code 200) as [H1|H1];
      destruct (Z.ltb_spec code 300) as [H2|H2]; cbn;
      try (split; [discriminate|];
           intros (c & b & H & Hc & _); injection H as <- <-; lia).
    destruct (String.eqb_spec response_body "") as [E|E]; cbn.
    + split; [discriminate|].
      intros (c & b & H & _ & Hb & _). injection H as <- <-. congruence.
    + destruct (parse response_body) as [d|what] eqn:P; cbn.
      * split.
        -- intros H. injection H as <-.
           exists code, response_body. repeat split; try assumption; lia.
        -- intros (c & b & H & _ & _ & Hp). injection H as <- <-.
           congruence.
      * split; [discriminate|].
        intros (c & b & H & _ & _ & Hp). injection H as <- <-. congruence.
Qed.

(** X13: [get_status_overview] and [get_status_regime] deliver a document
    exactly when the transfer of their URL was answered with a status code
    from 200 to 299 and a non-empty body that parses; the document is the
    parsed body.  The URL is the base followed by the path; the regime
    request carries [as_of_date] only when it is not empty. *)
Theorem api_request_document (base_url_ : string)
  (network : string -> Http.Transfer) (g : Globals) (doc : json) :
  let delivered url :=
    exists code response_body,
      network (base_url_ ++ url) = Http.Answered code response_body
      /\ 200 <= code < 300
      /\ response_body <> ""
      /\ parse response_body = inl doc in
  (fst (Http.get_status_overview parse base_url_ network g) = Some doc
   <-> delivered "/api/status/overview")
  /\ forall region as_of_date,
       fst (Http.get_status_regime parse base_url_ network region as_of_date g)
       = Some doc
       <-> delivered
             (("/api/status/regime?region=" ++ region)
              ++ (if String.eqb as_of_date "" then ""
                  else "&as_of_date=" ++ as_of_date)).
Proof.
  cbv zeta. split.
  - unfold Http.get_status_overview. rewrite get_then_handle. reflexivity.
  - intros region as_of_date. unfold Http.get_status_regime.
    rewrite get_then_handle.
    destruct (String.eqb as_of_date "").
    + cbn [Http.full_url append Ascii.eqb Bool.eqb]. cbv iota.
      rewrite RendererMore.append_empty. reflexivity.
    + reflexivity.
Qed.

(** X14: whatever the transfer does, [get_status_overview] leaves the
    application state alone; when it delivers a document it logs nothing,
    and when it delivers none the last line it logs is an ERROR of
    "ApiClient" (with a logger that records errors and holds at least one
    entry). *)
Theorem get_status_overview_log (base_url_ : string)
  (network : string -> Http.Transfer) (g : Globals) :
  Logger.level_rank (Logger.min_level_ (logger g)) <= 3 ->
  1 <= Logger.max_entries_ (logger g) ->
  let r := Http.get_status_overview parse base_url_ network g in
  app_state (snd r) = app_state g
  /\ match fst r with
     | Some _ => logger (snd r) = logger g
     | None =>
         forall d,
           Logger.level (last (Logger.entries_ (logger (snd r))) d)
           = Logger.ERROR
           /\ Logger.source (last (Logger.entries_ (logger (snd r))) d)
              = "ApiClient"
     end.
Proof.
  intros Hl Hm.
  assert (Hfinal : forall msg lg d,
             Logger.level_rank (Logger.min_level_ lg) <= 3 ->
             1 <= Logger.max_entries_ lg ->
             Logger.level
               (last (Logger.entries_
                        (Logger.log Logger.ERROR "ApiClient" msg lg)) d)
             = Logger.ERROR
             /\ Logger.source
                  (last (Logger.entries_
                           (Logger.log Logger.ERROR "ApiClient" msg lg)) d)
                = "ApiClient").
  { intros msg lg d H1 H2. rewrite log_last by assumption. split; reflexivity. }
  assert (Hkeep : forall lvl src msg,
             Logger.level_rank
               (Logger.min_level_ (Logger.log lvl src msg (logger g))) <= 3
             /\ 1 <= Logger.max_entries_ (Logger.log lvl src msg (logger g))).
  { intros lvl src msg.
    destruct (log_settings lvl src msg (logger g)) as [-> ->]. auto. }
  cbv zeta.
  unfold Http.get_status_overview, Http.get, Http.handle_response,
    Http.as_json, Http.perform_request.
  destruct (network _) as [|strerror|code response_body]; run_effects.
  - cbn. split; [reflexivity|]. intros d. now apply Hfinal.
  - cbn. split; [reflexivity|]. intros d. apply Hfinal; apply Hkeep.
  - destruct ((code >=? 200) && (code <? 300)); cbn.
    + destruct (String.eqb response_body ""); cbn.
      * split; [reflexivity|]. intros d. now apply Hfinal.
      * destruct (parse response_body); cbn.
        -- destruct g. split; reflexivity.
        -- split; [reflexivity|]. intros d. apply Hfinal; apply Hkeep.
    + split; [reflexivity|]. intros d. apply Hfinal; apply Hkeep.
Qed.

End HttpFacts.

Lemma get_status_overview_log_witness :
  let r := Http.get_status_overview (fun _ => inr "no parser") "http://host"
             (fun _ => Http.Answered 503 "") Session.globals in
  app_state (snd r) = app_state Session.globals
  /\ match fst r with
     | Some _ => logger (snd r) = logger Session.globals
     | None =>
         forall d,
           Logger.level (last (Logger.entries_ (logger (snd r))) d)
           = Logger.ERROR
           /\ Logger.source (last (Logger.entries_ (logger (snd r))) d)
              = "ApiClient"
     end.
Proof.
  apply (get_status_overview_log (fun _ => inr "no parser") "http://host"
           (fun _ => Http.Answered 503 "") Session.globals);
    vm_compute; congruence.
Defined.

End ServicesMore.

(* ================================================================== *)
(** * Properties shared by the panel classes *)
(* ================================================================== *)

Module PanelMore.
Import Cxx CxxFacts Keys Eff Api PanelFacts PanelContract.
Local Open Scope string_scope.
Local Open Scope Z_scope.

(** [BasePanel::handle_input] assigns [scroll_offset_] only, and does not
    assign at all when it reports the key as not handled. *)
Lemma base_handle_input_frame (p : BasePanel.t) (ch : Z) :
  let r := BasePanel.handle_input p ch in
  BasePanel.panel_id_ (fst r) = BasePanel.panel_id_ p
  /\ BasePanel.display_name_ (fst r) = BasePanel.display_name_ p
  /\ BasePanel.needs_refresh_ (fst r) = BasePanel.needs_refresh_ p
  /\ BasePanel.max_scroll_ (fst r) = BasePanel.max_scroll_ p
  /\ (snd r = false -> fst r = p).
Proof.
  cbv zeta. unfold BasePanel.handle_input.
  repeat match goal with
         | |- context [if ?b then _ else _] => destruct b
         end; cbn; repeat split; try reflexivity; discriminate.
Qed.

Ltac frame_done :=
  cbn; repeat split; intros; try discriminate; try tauto; auto.

(** X15: whatever the class of the panel and whatever the key,
    [handle_input] keeps the panel's id and its dirty flag, does not touch
    the application state, and keeps the placeholder dataset when the panel
    shows it; when it reports the key as not handled it has changed nothing
    at all, the log included. *)
Theorem panel_handle_input_frame (panel : Panel.t) (ch : Z) (g : Globals) :
  let r := Panel.handle_input panel ch g in
  Panel.panel_id (fst (fst r)) = Panel.panel_id panel
  /\ Panel.needs_refresh (fst (fst r)) = Panel.needs_refresh panel
  /\ app_state (snd r) = app_state g
  /\ (Panel.shows_placeholder panel -> Panel.shows_placeholder (fst (fst r)))
  /\ (snd (fst r) = false -> fst (fst r) = panel /\ snd r = g).
Proof.
  cbv zeta. destruct panel as [p|p|p|p|p|p|p|p];
    unfold Panel.handle_input, Panel.panel_id, Panel.needs_refresh, Panel.base.
  - unfold OverviewPanel.handle_input.
    pose proof (base_handle_input_frame (OverviewPanel.base p) ch)
      as (H1 & _ & H3 & _ & H5).
    destruct (BasePanel.handle_input (OverviewPanel.base p) ch) as [b c].
    run_effects. cbn in *.
    split; [assumption|]. split; [assumption|]. split; [reflexivity|].
    split; [tauto|].
    intros Hc. rewrite (H5 Hc). split; [now destruct p|reflexivity].
  - unfold RegimeStabPanel.handle_input. run_effects.
    destruct ((ch =? KEY_UP) || (ch =? KEY_DOWN)); frame_done.
  - unfold LiveSystemPanel.handle_input. run_effects.
    destruct (ch =? KEY_UP);
      [destruct (LiveSystemPanel.scroll_offset_ p >? 0)|
       destruct (ch =? KEY_DOWN);
       [destruct (int_add (LiveSystemPanel.scroll_offset_ p) 10
                  <? int_wrap (size (LiveSystemPanel.recent_logs_ p)))|]];
      frame_done.
  - frame_done.
  - unfold ExecutionPanel.handle_input. run_effects.
    destruct (ch =? KEY_UP);
      [destruct (ExecutionPanel.scroll_offset_ p >? 0)|
       destruct (ch =? KEY_DOWN);
       [destruct (int_add (ExecutionPanel.scroll_offset_ p) 10
                  <? int_wrap (size (ExecutionPanel.recent_orders_ p)))|]];
      frame_done.
  - unfold AssessmentUniversePanel.handle_input. run_effects.
    destruct (ch =? KEY_UP);
      [destruct (AssessmentUniversePanel.scroll_offset_ p >? 0)|
       destruct (ch =? KEY_DOWN);
       [destruct (int_add (AssessmentUniversePanel.scroll_offset_ p) 10
                  <? int_wrap (size (AssessmentUniversePanel.members_ p)))|]];
      frame_done.
  - frame_done.
  - frame_done.
Qed.

(** The scroll step shared by the three classes with a list of their own. *)
Lemma list_scroll_step (offset rows ch : Z) :
  0 <= rows <= INT_MAX ->
  0 <= offset <= Z.max 0 (rows - 10) ->
  0 <= (if ch =? KEY_UP
        then if offset >? 0 then int_sub offset 1 else offset
        else if ch =? KEY_DOWN
             then if int_add offset 10 <? int_wrap rows
                  then int_add offset 1 else offset
             else offset)
    <= Z.max 0 (rows - 10).
Proof.
  intros Hr Ho.
  assert (Hb : INT_MAX = 2147483647) by reflexivity.
  unfold int_add, int_sub.
  destruct (ch =? KEY_UP).
  - destruct (Z.gtb_spec offset 0); [|lia].
    rewrite int_wrap_small by lia. lia.
  - destruct (ch =? KEY_DOWN); [|lia].
    rewrite (int_wrap_small (offset + 10)), (int_wrap_small rows) by lia.
    destruct (Z.ltb_spec (offset + 10) rows); [|lia].
    rewrite int_wrap_small by lia. lia.
Qed.

Lemma size_nonneg {A} (v : list A) : 0 <= size v.
Proof. unfold size. lia. Qed.

(** X16: the three classes that scroll a list of their own (live system,
    execution, assessment universe) never scroll past the point where ten
    rows are left to show: an offset within [0, max (0, rows - 10)] stays
    there whatever the key, and no key changes the number of rows. *)
Theorem list_scroll_stays_in_window (panel : Panel.t) (ch : Z)
  (g : Globals) :
  (forall offset rows, scrolled_list panel = Some (offset, rows) ->
                       rows <= INT_MAX) ->
  scroll_in_window panel ->
  let panel' := fst (fst (Panel.handle_input panel ch g)) in
  scroll_in_window panel'
  /\ option_map snd (scrolled_list panel')
     = option_map snd (scrolled_list panel).
Proof.
  intros Hrows Hw. cbv zeta.
  destruct panel as [p|p|p|p|p|p|p|p];
    unfold scroll_in_window, scrolled_list in *; cbn [option_map snd];
    unfold Panel.handle_input.
  - unfold OverviewPanel.handle_input.
    destruct (BasePanel.handle_input _ _). cbn. auto.
  - unfold RegimeStabPanel.handle_input. run_effects.
    destruct (_ || _); cbn; auto.
  - specialize (Hrows _ _ eq_refl).
    pose proof (list_scroll_step _ _ ch
                  (conj (size_nonneg _) Hrows) Hw) as H.
    unfold LiveSystemPanel.handle_input. run_effects.
    destruct (ch =? KEY_UP);
      [destruct (LiveSystemPanel.scroll_offset_ p >? 0)|
       destruct (ch =? KEY_DOWN);
       [destruct (int_add (LiveSystemPanel.scroll_offset_ p) 10
                  <? int_wrap (size (LiveSystemPanel.recent_logs_ p)))|]];
      cbn; auto.
  - cbn. auto.
  - specialize (Hrows _ _ eq_refl).
    pose proof (list_scroll_step _ _ ch
                  (conj (size_nonneg _) Hrows) Hw) as H.
    unfold ExecutionPanel.handle_input. run_effects.
    destruct (ch =? KEY_UP);
      [destruct (ExecutionPanel.scroll_offset_ p >? 0)|
       destruct (ch =? KEY_DOWN);
       [destruct (int_add (ExecutionPanel.scroll_offset_ p) 10
                  <? int_wrap (size (ExecutionPanel.recent_orders_ p)))|]];
      cbn; auto.
  - specialize (Hrows _ _ eq_refl).
    pose proof (list_scroll_step _ _ ch
                  (conj (size_nonneg _) Hrows) Hw) as H.
    unfold AssessmentUniversePanel.handle_input. run_effects.
    destruct (ch =? KEY_UP);
      [destruct (AssessmentUniversePanel.scroll_offset_ p >? 0)|
       destruct (ch =? KEY_DOWN);
       [destruct (int_add (AssessmentUniversePanel.scroll_offset_ p) 10
                  <? int_wrap (size (AssessmentUniversePanel.members_ p)))|]];
      cbn; auto.
  - cbn. auto.
  - cbn. auto.
Qed.

Lemma list_scroll_stays_in_window_witness :
  let panel :=
    Panel.Execution
      {| ExecutionPanel.base := BasePanel.make "execution" "Execution";
         ExecutionPanel.recent_orders_ := ExecutionPanel.mock_recent_orders;
         ExecutionPanel.scroll_offset_ := 5 |} in
  scroll_in_window
    (fst (fst (Panel.handle_input panel KEY_DOWN Session.globals))).
Proof.
  cbv zeta.
  refine (proj1 (list_scroll_stays_in_window
                   (Panel.Execution
                      {| ExecutionPanel.base :=
                           BasePanel.make "execution" "Execution";
                         ExecutionPanel.recent_orders_ :=
                           ExecutionPanel.mock_recent_orders;
                         ExecutionPanel.scroll_offset_ := 5 |})
                   KEY_DOWN Session.globals _ _)).
  - intros offset rows H. injection H as <- <-. vm_compute. discriminate.
  - unfold scroll_in_window. cbn. lia.
Defined.

(** [refresh] under the contract of the document readers: the panel keeps
    its id and the application state is left alone. *)
Lemma refresh_frame (ps : Panel.Parsers) (api : ApiClient) (panel : Panel.t)
  (g : Globals) :
  parsers_only_fill ps ->
  Panel.panel_id (fst (Panel.refresh ps api panel g)) = Panel.panel_id panel
  /\ app_state (snd (Panel.refresh ps api panel g)) = app_state g.
Proof.
  intros [Hr Hs].
  destruct panel as [p|p|p|p|p|p|p|p];
    unfold Panel.refresh, Panel.panel_id, Panel.base,
      OverviewPanel.refresh, RegimeStabPanel.refresh,
      LiveSystemPanel.refresh, PortfolioRiskPanel.refresh,
      ExecutionPanel.refresh, AssessmentUniversePanel.refresh,
      MetaExperimentsPanel.refresh, AntHillPanel.refresh;
    run_effects.
  - destruct (document (get_status_overview api)); cbn; split; reflexivity.
  - destruct (document (get_status_regime api "US" "")) as [d|].
    + match goal with
      | |- context [Panel.parse_regime_data ps d p ?g0] =>
          destruct (Hr d p g0) as [H1 H2];
          destruct (Panel.parse_regime_data ps d p g0)
      end.
      cbn in *. rewrite H1, H2. split; reflexivity.
    + cbn. split; reflexivity.
  - destruct (document (get_status_overview api)) as [d|].
    + match goal with
      | |- context [Panel.parse_system_data ps d p ?g0] =>
          destruct (Hs d p g0) as (H1 & _ & H2);
          destruct (Panel.parse_system_data ps d p g0)
      end.
      cbn in *. rewrite H1, H2. split; reflexivity.
    + cbn. split; reflexivity.
  - cbn. split; reflexivity.
  - destruct (document (get_status_execution api "MAIN" "" 50 50));
      cbn; split; reflexivity.
  - destruct (document (get_status_universe api _)); cbn; split; reflexivity.
  - cbn. split; reflexivity.
  - cbn. split; reflexivity.
Qed.

(** X17: against an unavailable data source [refresh] is idempotent on the
    panel: a second refresh, whatever was logged in between, leaves the panel
    the first one produced; and the panel keeps its id. *)
Theorem refresh_unavailable_idempotent (ps : Panel.Parsers)
  (api : ApiClient) (panel : Panel.t) (g g' : Globals) :
  unavailable api ->
  let once := fst (Panel.refresh ps api panel g) in
  fst (Panel.refresh ps api once g') = once
  /\ Panel.panel_id once = Panel.panel_id panel.
Proof.
  intros (Ho & Hr & Hs & Hu & He).
  destruct panel as [p|p|p|p|p|p|p|p]; cbv zeta;
    unfold Panel.refresh, Panel.panel_id, Panel.base,
      OverviewPanel.refresh, RegimeStabPanel.refresh,
      LiveSystemPanel.refresh, PortfolioRiskPanel.refresh,
      ExecutionPanel.refresh, AssessmentUniversePanel.refresh,
      MetaExperimentsPanel.refresh, AntHillPanel.refresh;
    run_effects;
    rewrite ?Ho, ?Hr, ?Hu, ?He; cbn; rewrite ?Ho, ?Hr, ?Hu, ?He; cbn;
    split; reflexivity.
Qed.

Lemma refresh_unavailable_idempotent_witness :
  let once := fst (Panel.refresh Session.parsers down
                     (Panel.Overview OverviewPanel.make) Session.globals) in
  fst (Panel.refresh Session.parsers down once Session.globals) = once
  /\ Panel.panel_id once = "overview".
Proof.
  exact (refresh_unavailable_idempotent Session.parsers down
           (Panel.Overview OverviewPanel.make) Session.globals
           Session.globals down_unavailable).
Defined.

End PanelMore.

(* ================================================================== *)
(** * Consistency of the navigation state *)
(* ================================================================== *)

Module NavigationMore.
Import Cxx CxxFacts Keys Eff Api Application Session.
Import PanelFacts ApplicationFacts PanelContract PanelMore.
Local Open Scope string_scope.
Local Open Scope Z_scope.

Lemma panel_id_mark_dirty (panel : Panel.t) :
  Panel.panel_id (Panel.map_base BasePanel.mark_dirty panel)
  = Panel.panel_id panel
  /\ Panel.needs_refresh (Panel.map_base BasePanel.mark_dirty panel) = true.
Proof. destruct panel; split; reflexivity. Qed.

(** The factory: the panel made for an id stands in for it, and making it
    touches the log only. *)
Lemma create_panel_spec (id : string) (g : Globals) :
  Panel.panel_id (fst (create_panel id g)) = shown_id id
  /\ app_state (snd (create_panel id g)) = app_state g.
Proof.
  unfold shown_id, implemented, create_panel. cbn [existsb].
  repeat match goal with
         | |- context [String.eqb id ?s] =>
             destruct (String.eqb_spec id s);
             [subst; split; reflexivity|]
         end.
  split; reflexivity.
Qed.

Lemma set_active_panel_spec (panel : Panel.t) (ui : UIManager.t)
  (g : Globals) :
  let r := UIManager.set_active_panel (Some panel) ui g in
  UIManager.active_panel_ (fst r)
  = Some (Panel.map_base BasePanel.mark_dirty panel)
  /\ UIManager.layout_ (fst r) = UIManager.layout_ ui
  /\ app_state (snd r)
     = AppState.set_active_panel (Panel.panel_id panel) (app_state g).
Proof.
  cbv zeta. unfold UIManager.set_active_panel, Panel.on_deactivated,
    Panel.on_activated. run_effects.
  destruct (UIManager.active_panel_ ui); destruct panel; cbn;
    repeat split.
Qed.

(** A key passed to the panel: the id stays, the application state too. *)
Lemma panel_handle_input_id (panel : Panel.t) (ch : Z) (g : Globals) :
  Panel.panel_id (fst (fst (Panel.handle_input panel ch g)))
  = Panel.panel_id panel
  /\ app_state (snd (Panel.handle_input panel ch g)) = app_state g.
Proof.
  destruct panel as [p|p|p|p|p|p|p|p];
    unfold Panel.handle_input, Panel.panel_id, Panel.base.
  - unfold OverviewPanel.handle_input.
    pose proof (base_handle_input_frame (OverviewPanel.base p) ch)
      as (H1 & _).
    destruct (BasePanel.handle_input (OverviewPanel.base p) ch) as [b c].
    cbn in *. auto.
  - unfold RegimeStabPanel.handle_input. run_effects.
    destruct ((ch =? KEY_UP) || (ch =? KEY_DOWN)); cbn; auto.
  - unfold LiveSystemPanel.handle_input. run_effects.
    destruct (ch =? KEY_UP);
      [destruct (LiveSystemPanel.scroll_offset_ p >? 0)|
       destruct (ch =? KEY_DOWN);
       [destruct (int_add (LiveSystemPanel.scroll_offset_ p) 10
                  <? int_wrap (size (LiveSystemPanel.recent_logs_ p)))|]];
      cbn; auto.
  - cbn. auto.
  - unfold ExecutionPanel.handle_input. run_effects.
    destruct (ch =? KEY_UP);
      [destruct (ExecutionPanel.scroll_offset_ p >? 0)|
       destruct (ch =? KEY_DOWN);
       [destruct (int_add (ExecutionPanel.scroll_offset_ p) 10
                  <? int_wrap (size (ExecutionPanel.recent_orders_ p)))|]];
      cbn; auto.
  - unfold AssessmentUniversePanel.handle_input. run_effects.
    destruct (ch =? KEY_UP);
      [destruct (AssessmentUniversePanel.scroll_offset_ p >? 0)|
       destruct (ch =? KEY_DOWN);
       [destruct (int_add (AssessmentUniversePanel.scroll_offset_ p) 10
                  <? int_wrap (size (AssessmentUniversePanel.members_ p)))|]];
      cbn; auto.
  - cbn. auto.
  - cbn. auto.
Qed.

(** Every workspace the cycle can reach exists and lists a panel. *)
Lemma next_workspace_known (active : string) :
  exists w first rest,
    WorkspaceManager.get_workspace
      (next_after active "global" WorkspaceManager.get_workspace_ids)
    = Some w
    /\ WorkspaceManager.panel_ids w = first :: rest.
Proof.
  unfold WorkspaceManager.get_workspace_ids, WorkspaceManager.workspaces_.
  cbn [map fst next_after].
  repeat match goal with
         | |- context [String.eqb ?s active] =>
             destruct (String.eqb s active);
             [do 3 eexists; split; reflexivity|]
         end.
  do 3 eexists; split; reflexivity.
Qed.

(** A state with the same list, index, application state and panel id is
    as consistent as the one it comes from. *)
Lemma consistent_same (app app' : Application.t) (g g' : Globals) :
  navigation_consistent app g ->
  current_panel_list_ app' = current_panel_list_ app ->
  current_panel_index_ app' = current_panel_index_ app ->
  app_state g' = app_state g ->
  (forall panel,
      UIManager.active_panel_ (ui_manager_ app) = Some panel ->
      exists panel',
        UIManager.active_panel_ (ui_manager_ app') = Some panel'
        /\ Panel.panel_id panel' = Panel.panel_id panel) ->
  navigation_consistent app' g'.
Proof.
  unfold navigation_consistent. intros (H1 & H2 & H3 & p & H4 & H5) L I A P.
  rewrite L, I, A. repeat split; try assumption; try lia.
  destruct (P p H4) as (p' & Hp & Hid). exists p'. split; [assumption|].
  now rewrite Hid.
Qed.

Section Navigation.
Variable ps : Panel.Parsers.
Hypothesis contract : parsers_only_fill ps.

(** What [switch_to_panel] leaves: a panel standing in for the requested
    id, marked dirty by its activation although it has just been refreshed;
    the requested id as the active panel id; everything else as it was. *)
Lemma switch_to_panel_spec (env : Env) (id : string) (app : Application.t)
  (g : Globals) :
  let r := switch_to_panel ps env id app g in
  (exists panel,
      UIManager.active_panel_ (ui_manager_ (fst r)) = Some panel
      /\ Panel.panel_id panel = shown_id id
      /\ Panel.needs_refresh panel = true)
  /\ app_state (snd r) = AppState.set_active_panel id (app_state g)
  /\ UIManager.layout_ (ui_manager_ (fst r))
     = UIManager.layout_ (ui_manager_ app)
  /\ current_panel_list_ (fst r) = current_panel_list_ app
  /\ current_panel_index_ (fst r) = current_panel_index_ app.
Proof.
  cbv zeta. unfold switch_to_panel. run_effects.
  match goal with
  | |- context [create_panel id ?g0] =>
      destruct (create_panel_spec id g0) as [C1 C2];
      destruct (create_panel id g0) as [p0 g1]
  end.
  match goal with
  | |- context [Panel.refresh ps ?api p0 g1] =>
      destruct (refresh_frame ps api p0 g1 contract) as [R1 R2];
      destruct (Panel.refresh ps api p0 g1) as [p1 g2]
  end.
  match goal with
  | |- context [UIManager.set_active_panel (Some p1) ?ui g2] =>
      pose proof (set_active_panel_spec p1 ui g2) as (S1 & S2 & S3);
      destruct (UIManager.set_active_panel (Some p1) ui g2) as [ui' g3]
  end.
  cbn in *. destruct (panel_id_mark_dirty p1) as [D1 D2].
  split; [|split; [|split; [|split]]].
  - eexists. split; [exact S1|]. split; [|exact D2].
    rewrite D1, R1. exact C1.
  - rewrite S3, R2, C2. reflexivity.
  - exact S2.
  - reflexivity.
  - reflexivity.
Qed.

Lemma switch_to_panel_consistent (env : Env) (app : Application.t)
  (g : Globals) :
  current_panel_list_ app
  = WorkspaceManager.get_panels (AppState.active_workspace_ (app_state g)) ->
  0 <= current_panel_index_ app < size (current_panel_list_ app) ->
  let r := switch_to_panel ps env
             (at_ "" (current_panel_list_ app) (current_panel_index_ app))
             app g in
  navigation_consistent (fst r) (snd r).
Proof.
  intros Hl Hi. cbv zeta.
  destruct (switch_to_panel_spec env
              (at_ "" (current_panel_list_ app) (current_panel_index_ app))
              app g) as ((p & P1 & P2 & _) & A & _ & L & I).
  unfold navigation_consistent. rewrite L, I, A. cbn.
  repeat split; try assumption; try lia.
  exists p. split; assumption.
Qed.

Lemma cycle_next_panel_consistent (env : Env) (app : Application.t)
  (g : Globals) :
  navigation_consistent app g ->
  let r := cycle_next_panel ps env app g in
  navigation_consistent (fst r) (snd r)
  /\ AppState.active_workspace_ (app_state (snd r))
     = AppState.active_workspace_ (app_state g).
Proof.
  intros (H1 & H2 & H3 & H4). cbv zeta. unfold cycle_next_panel.
  destruct (current_panel_list_ app) as [|id0 ids] eqn:E.
  { unfold size in H2. simpl in H2. lia. }
  rewrite <- E in *. run_effects.
  set (n := size (current_panel_list_ app)) in *.
  set (i := size_add (current_panel_index_ app) 1 mod n).
  assert (Hi : 0 <= i < n) by (apply Z.mod_pos_bound; lia).
  pose proof (switch_to_panel_consistent env
                (set_panels (current_panel_list_ app) i app) g H1 Hi) as C.
  pose proof (switch_to_panel_spec env
                (at_ "" (current_panel_list_ app) i)
                (set_panels (current_panel_list_ app) i app) g)
    as (_ & A & _).
  cbn [current_panel_list_ current_panel_index_ set_panels] in *.
  destruct (switch_to_panel ps env _ _ g) as [app1 g1].
  cbn [fst snd] in *. split.
  - eapply consistent_same; [exact C|reflexivity|reflexivity|reflexivity|].
    intros panel Hp. exists panel. split; [assumption|reflexivity].
  - rewrite A. reflexivity.
Qed.

(** [switch_workspace] to a workspace that exists and lists a panel makes
    the navigation state consistent, whatever it was. *)
Lemma switch_workspace_consistent (env : Env) (id : string)
  (w : WorkspaceManager.Workspace) (first : string) (rest : list string)
  (app : Application.t) (g : Globals) :
  WorkspaceManager.get_workspace id = Some w ->
  WorkspaceManager.panel_ids w = first :: rest ->
  let r := switch_workspace ps env id app g in
  navigation_consistent (fst r) (snd r)
  /\ AppState.active_workspace_ (app_state (snd r)) = id
  /\ current_panel_index_ (fst r) = 0.
Proof.
  intros Hw Hp. cbv zeta. unfold switch_workspace. run_effects.
  rewrite Hw. cbn [current_panel_list_ set_panels]. rewrite Hp.
  match goal with
  | |- context [switch_to_panel ps env first ?a ?g0] =>
      pose proof (switch_to_panel_consistent env a g0) as C;
      pose proof (switch_to_panel_spec env first a g0) as (_ & A & _ & _ & I)
  end.
  cbn [current_panel_list_ current_panel_index_ set_panels app_state
       AppState.set_active_workspace AppState.active_workspace_] in *.
  change (at_ "" (first :: rest) 0) with first in C.
  split; [|split].
  - apply C.
    + unfold WorkspaceManager.get_panels. now rewrite Hw.
    + unfold size. simpl. lia.
  - rewrite A. reflexivity.
  - exact I.
Qed.

Lemma cycle_next_workspace_consistent (env : Env) (app : Application.t)
  (g : Globals) :
  let r := cycle_next_workspace ps env app g in
  navigation_consistent (fst r) (snd r)
  /\ AppState.active_workspace_ (app_state (snd r))
     = next_after (AppState.active_workspace_ (app_state g)) "global"
         WorkspaceManager.get_workspace_ids
  /\ current_panel_index_ (fst r) = 0.
Proof.
  cbv zeta.
  destruct (next_workspace_known (AppState.active_workspace_ (app_state g)))
    as (w & first & rest & Hw & Hp).
  unfold cycle_next_workspace.
  change WorkspaceManager.get_workspace_ids
    with ["global"; "monitoring"; "overview"; "research"; "trading"] in *.
  run_effects.
  exact (switch_workspace_consistent env _ w first rest app g Hw Hp).
Qed.

Lemma update_layout_frame (env : Env) (ui : UIManager.t) (g : Globals) :
  UIManager.active_panel_ (fst (UIManager.update_layout env ui g))
  = UIManager.active_panel_ ui
  /\ app_state (snd (UIManager.update_layout env ui g)) = app_state g.
Proof.
  unfold UIManager.update_layout. run_effects.
  destruct (_ || _); split; reflexivity.
Qed.

Lemma handle_input_consistent (env : Env) (ch : Z) (app : Application.t)
  (g : Globals) :
  navigation_consistent app g ->
  let r := handle_input ps env ch app g in
  navigation_consistent (fst (fst r)) (snd r).
Proof.
  intros H. cbv zeta. unfold handle_input. run_effects.
  destruct ((ch =? 113) || (ch =? 81)).
  { cbn. eapply consistent_same; [exact H|reflexivity..|].
    intros p Hp. exists p. auto. }
  destruct ((ch =? 114) || (ch =? 82)).
  { destruct (UIManager.active_panel_ (ui_manager_ app)) as [panel|] eqn:E.
    - match goal with
      | |- context [Panel.refresh ps ?api panel ?g0] =>
          destruct (refresh_frame ps api panel g0 contract) as [R1 R2];
          destruct (Panel.refresh ps api panel g0) as [p1 g1]
      end.
      cbn in *. eapply consistent_same; [exact H|reflexivity..|assumption|].
      cbn. rewrite E. intros p Hp. injection Hp as <-.
      exists p1. auto.
    - cbn. eapply consistent_same; [exact H|reflexivity..|].
      intros p Hp. exists p. auto. }
  destruct (ch =? 9).
  { match goal with
    | |- context [cycle_next_panel ps env app ?g0] =>
        pose proof (cycle_next_panel_consistent env app g0) as C;
        destruct (cycle_next_panel ps env app g0) as [app1 g1]
    end.
    cbn in *. apply C.
    eapply consistent_same; [exact H|reflexivity..|].
    intros p Hp. exists p. auto. }
  destruct ((ch =? 119) || (ch =? 87)).
  { match goal with
    | |- context [cycle_next_workspace ps env app ?g0] =>
        pose proof (cycle_next_workspace_consistent env app g0) as C;
        destruct (cycle_next_workspace ps env app g0) as [app1 g1]
    end.
    cbn in *. apply C. }
  destruct (ch =? KEY_RESIZE).
  { match goal with
    | |- context [UIManager.update_layout env ?ui ?g0] =>
        destruct (update_layout_frame env ui g0) as [U1 U2];
        destruct (UIManager.update_layout env ui g0) as [ui1 g1]
    end.
    cbn in *. eapply consistent_same; [exact H|reflexivity..|assumption|].
    cbn. rewrite U1. intros p Hp. exists p. auto. }
  destruct (UIManager.active_panel_ (ui_manager_ app)) as [panel|] eqn:E.
  - match goal with
    | |- context [Panel.handle_input panel ch ?g0] =>
        destruct (panel_handle_input_id panel ch g0) as [P1 P2];
        destruct (Panel.handle_input panel ch g0) as [[p1 c] g1]
    end.
    cbn in *. eapply consistent_same; [exact H|reflexivity..|assumption|].
    cbn. rewrite E. intros p Hp. injection Hp as <-. exists p1. auto.
  - cbn. eapply consistent_same; [exact H|reflexivity..|].
    intros p Hp. exists p. auto.
Qed.

Lemma handle_auto_refresh_consistent (env : Env) (app : Application.t)
  (g : Globals) :
  navigation_consistent app g ->
  let r := handle_auto_refresh ps env app g in
  navigation_consistent (fst r) (snd r).
Proof.
  intros H. cbv zeta. rewrite handle_auto_refresh_cases.
  destruct (_ >=? _); [|exact H].
  destruct (UIManager.active_panel_ (ui_manager_ app)) as [panel|] eqn:E.
  - destruct (refresh_frame ps (api_client env) panel g contract)
      as [R1 R2].
    destruct (Panel.refresh ps (api_client env) panel g) as [p1 g1].
    cbn in *. eapply consistent_same; [exact H|reflexivity..|assumption|].
    cbn. rewrite E. intros p Hp. injection Hp as <-. exists p1. auto.
  - cbn. eapply consistent_same; [exact H|reflexivity..|].
    cbn. intros p Hp. exists p. auto.
Qed.

Lemma loop_iteration_consistent (env : Env) (ch : Z) (app : Application.t)
  (g : Globals) :
  navigation_consistent app g ->
  let r := loop_iteration ps env ch app g in
  navigation_consistent (fst (fst r)) (snd r).
Proof.
  intros H. cbv zeta. unfold loop_iteration. run_effects.
  destruct (ch =? ERR).
  - pose proof (handle_auto_refresh_consistent env app g H) as C.
    destruct (handle_auto_refresh ps env app g). exact C.
  - pose proof (handle_input_consistent env ch app g H) as C.
    destruct (handle_input ps env ch app g) as [[app1 flag] g1].
    cbn [fst snd] in *. destruct flag; [|exact C].
    pose proof (handle_auto_refresh_consistent env app1 g1 C) as C'.
    destruct (handle_auto_refresh ps env app1 g1). exact C'.
Qed.

(** X18: the loop keeps the navigation state consistent.  Starting from a
    state in which the panel list is the one of the active workspace, the
    cycle index points into it, the recorded active panel id is the entry at
    the index and the active panel object stands in for that id, every run
    of loop iterations, whatever keys and clock readings it meets, ends in
    such a state.  The document readers are assumed to assign their own
    class's data only. *)
Theorem navigation_stays_consistent (events : list (Env * Z))
  (app : Application.t) (g : Globals) :
  navigation_consistent app g ->
  navigation_consistent (fst (run_loop ps events app g))
                        (snd (run_loop ps events app g)).
Proof.
  revert app g. induction events as [|[env ch] events IH]; intros app g H.
  - exact H.
  - cbn [run_loop]. run_effects.
    pose proof (loop_iteration_consistent env ch app g H) as C.
    destruct (loop_iteration ps env ch app g) as [[app1 flag] g1].
    cbn [fst snd] in *. destruct flag; [now apply IH|exact C].
Qed.

(** X19: [switch_to_panel] ends with an active panel that stands in for
    the requested id (the panel of that class, or an overview panel for an
    id the factory does not know), with the requested id recorded as the
    active panel id, and with the panel marked as needing a refresh: the
    activation sets the flag again after [refresh] has run. *)
Theorem switch_to_panel_leaves_dirty (env : Env) (id : string)
  (app : Application.t) (g : Globals) :
  let r := switch_to_panel ps env id app g in
  exists panel,
    UIManager.active_panel_ (ui_manager_ (fst r)) = Some panel
    /\ Panel.panel_id panel = (if implemented id then id else "overview")
    /\ Panel.needs_refresh panel = true
    /\ AppState.active_panel_ (app_state (snd r)) = id
    /\ AppState.active_workspace_ (app_state (snd r))
       = AppState.active_workspace_ (app_state g).
Proof.
  cbv zeta.
  destruct (switch_to_panel_spec env id app g)
    as ((p & P1 & P2 & P3) & A & _).
  exists p. rewrite A. repeat split; assumption.
Qed.

Lemma handle_auto_refresh_app_state (env : Env) (app : Application.t)
  (g : Globals) :
  app_state (snd (handle_auto_refresh ps env app g)) = app_state g.
Proof.
  rewrite handle_auto_refresh_cases.
  destruct (_ >=? _); [|reflexivity].
  destruct (UIManager.active_panel_ (ui_manager_ app)) as [panel|];
    [|reflexivity].
  destruct (refresh_frame ps (api_client env) panel g contract) as [_ R].
  destruct (Panel.refresh ps (api_client env) panel g). exact R.
Qed.

(** One iteration that handles [w]: the loop goes on, in the next
    workspace. *)
Lemma loop_iteration_next_workspace (env : Env) (app : Application.t)
  (g : Globals) :
  let r := loop_iteration ps env 119 app g in
  snd (fst r) = true
  /\ AppState.active_workspace_ (app_state (snd r))
     = next_after (AppState.active_workspace_ (app_state g)) "global"
         WorkspaceManager.get_workspace_ids.
Proof.
  cbv zeta. unfold loop_iteration.
  change (119 =? ERR) with false. cbv iota.
  unfold handle_input.
  change ((119 =? 113) || (119 =? 81)) with false.
  change ((119 =? 114) || (119 =? 82)) with false.
  change (119 =? 9) with false.
  change ((119 =? 119) || (119 =? 87)) with true. cbv iota.
  run_effects.
  match goal with
  | |- context [cycle_next_workspace ps env app ?g0] =>
      destruct (cycle_next_workspace_consistent env app g0) as (_ & W & _);
      destruct (cycle_next_workspace ps env app g0) as [app1 g1]
  end.
  cbn [fst snd app_state] in *.
  pose proof (handle_auto_refresh_app_state env app1 g1) as A.
  destruct (handle_auto_refresh ps env app1 g1) as [app2 g2].
  cbn [fst snd] in *. rewrite A, W. split; reflexivity.
Qed.

(** X20: [w] walks through the five workspaces in the order of their ids
    and wraps around: five iterations that each handle a [w] bring the
    active workspace back to where it was. *)
Theorem workspace_cycle_returns (e1 e2 e3 e4 e5 : Env)
  (app : Application.t) (g : Globals) :
  In (AppState.active_workspace_ (app_state g))
     WorkspaceManager.get_workspace_ids ->
  AppState.active_workspace_
    (app_state
       (snd (run_loop ps
               [(e1, 119); (e2, 119); (e3, 119); (e4, 119); (e5, 119)]
               app g)))
  = AppState.active_workspace_ (app_state g).
Proof.
  intros Hin. cbn [run_loop]. run_effects.
  destruct (loop_iteration_next_workspace e1 app g) as [F1 W1].
  destruct (loop_iteration ps e1 119 app g) as [[a1 f1] g1].
  cbn [fst snd] in *. subst f1. cbv iota.
  destruct (loop_iteration_next_workspace e2 a1 g1) as [F2 W2].
  destruct (loop_iteration ps e2 119 a1 g1) as [[a2 f2] g2].
  cbn [fst snd] in *. subst f2. cbv iota.
  destruct (loop_iteration_next_workspace e3 a2 g2) as [F3 W3].
  destruct (loop_iteration ps e3 119 a2 g2) as [[a3 f3] g3].
  cbn [fst snd] in *. subst f3. cbv iota.
  destruct (loop_iteration_next_workspace e4 a3 g3) as [F4 W4].
  destruct (loop_iteration ps e4 119 a3 g3) as [[a4 f4] g4].
  cbn [fst snd] in *. subst f4. cbv iota.
  destruct (loop_iteration_next_workspace e5 a4 g4) as [F5 W5].
  destruct (loop_iteration ps e5 119 a4 g4) as [[a5 f5] g5].
  cbn [fst snd] in *. subst f5. cbv iota. cbn [fst snd].
  rewrite W5, W4, W3, W2, W1.
  generalize dependent (AppState.active_workspace_ (app_state g)).
  intros ws Hin.
  change WorkspaceManager.get_workspace_ids
    with ["global"; "monitoring"; "overview"; "research"; "trading"] in *.
  destruct Hin as [<-|[<-|[<-|[<-|[<-|[]]]]]]; reflexivity.
Qed.

Lemma cycle_prev_panel_consistent (env : Env) (app : Application.t)
  (g : Globals) :
  navigation_consistent app g ->
  size (current_panel_list_ app) < 2 ^ 64 ->
  let r := cycle_prev_panel ps env app g in
  navigation_consistent (fst r) (snd r)
  /\ current_panel_index_ (fst r)
     = (if current_panel_index_ app =? 0
        then size (current_panel_list_ app) - 1
        else current_panel_index_ app - 1)
  /\ current_panel_list_ (fst r) = current_panel_list_ app.
Proof.
  intros (H1 & H2 & H3 & H4) Hn. cbv zeta. unfold cycle_prev_panel.
  destruct (current_panel_list_ app) as [|id0 ids] eqn:E.
  { unfold size in H2. simpl in H2. lia. }
  rewrite <- E in *. run_effects.
  set (n := size (current_panel_list_ app)) in *.
  set (i := if current_panel_index_ app =? 0 then size_sub n 1
            else size_sub (current_panel_index_ app) 1).
  assert (Hi : i = if current_panel_index_ app =? 0 then n - 1
                   else current_panel_index_ app - 1).
  { subst i. unfold size_sub, size_wrap.
    destruct (Z.eqb_spec (current_panel_index_ app) 0);
      apply Z.mod_small; lia. }
  assert (Hr : 0 <= i < n)
    by (rewrite Hi; destruct (Z.eqb_spec (current_panel_index_ app) 0); lia).
  pose proof (switch_to_panel_consistent env
                (set_panels (current_panel_list_ app) i app) g H1 Hr) as C.
  pose proof (switch_to_panel_spec env
                (at_ "" (current_panel_list_ app) i)
                (set_panels (current_panel_list_ app) i app) g)
    as (_ & _ & _ & L & I).
  cbn [current_panel_list_ current_panel_index_ set_panels] in *.
  destruct (switch_to_panel ps env _ _ g) as [app1 g1].
  cbn [fst snd] in *. split; [|split].
  - eapply consistent_same; [exact C|reflexivity|reflexivity|reflexivity|].
    intros panel Hp. exists panel. split; [assumption|reflexivity].
  - rewrite I. exact Hi.
  - exact L.
Qed.

Lemma cycle_next_panel_index (env : Env) (app : Application.t)
  (g : Globals) :
  0 <= current_panel_index_ app < size (current_panel_list_ app) ->
  size (current_panel_list_ app) < 2 ^ 64 ->
  let r := cycle_next_panel ps env app g in
  current_panel_index_ (fst r)
  = (if current_panel_index_ app + 1 =? size (current_panel_list_ app)
     then 0 else current_panel_index_ app + 1)
  /\ current_panel_list_ (fst r) = current_panel_list_ app.
Proof.
  intros H2 Hn. cbv zeta. unfold cycle_next_panel.
  destruct (current_panel_list_ app) as [|id0 ids] eqn:E.
  { unfold size in H2. simpl in H2. lia. }
  rewrite <- E in *. run_effects.
  set (n := size (current_panel_list_ app)) in *.
  match goal with
  | |- context [switch_to_panel ps env ?id ?a g] =>
      pose proof (switch_to_panel_spec env id a g) as (_ & _ & _ & L & I);
      destruct (switch_to_panel ps env id a g) as [app1 g1]
  end.
  cbn [fst snd current_panel_list_ current_panel_index_ set_panels] in *.
  split; [|exact L]. rewrite I.
  unfold size_add. rewrite RendererMore.size_small by lia.
  destruct (Z.eqb_spec (current_panel_index_ app + 1) n) as [->|Hne].
  - apply Z.mod_same. lia.
  - apply Z.mod_small. lia.
Qed.

(** X21: [cycle_prev_panel] undoes [cycle_next_panel]: from a consistent
    navigation state, stepping forward and then back ends at the cycle
    index and the active panel id it started from, the last entry of the
    list being followed by the first. *)
Theorem cycle_prev_undoes_next (env env' : Env) (app : Application.t)
  (g : Globals) :
  navigation_consistent app g ->
  size (current_panel_list_ app) < 2 ^ 64 ->
  let r1 := cycle_next_panel ps env app g in
  let r2 := cycle_prev_panel ps env' (fst r1) (snd r1) in
  current_panel_index_ (fst r2) = current_panel_index_ app
  /\ current_panel_list_ (fst r2) = current_panel_list_ app
  /\ AppState.active_panel_ (app_state (snd r2))
     = AppState.active_panel_ (app_state g).
Proof.
  intros H Hn. cbv zeta.
  pose proof H as (_ & H2 & H3 & _).
  destruct (cycle_next_panel_consistent env app g H) as [C1 _].
  destruct (cycle_next_panel_index env app g H2 Hn) as [I1 L1].
  destruct (cycle_next_panel ps env app g) as [app1 g1].
  cbn [fst snd] in *.
  assert (Hn1 : size (current_panel_list_ app1) < 2 ^ 64)
    by now rewrite L1.
  destruct (cycle_prev_panel_consistent env' app1 g1 C1 Hn1)
    as (C2 & I2 & L2).
  destruct (cycle_prev_panel ps env' app1 g1) as [app2 g2].
  cbn [fst snd] in *.
  assert (Hi : current_panel_index_ app2 = current_panel_index_ app).
  { rewrite I2, I1, L1.
    destruct (Z.eqb_spec (current_panel_index_ app + 1)
                (size (current_panel_list_ app))).
    - cbn. lia.
    - destruct (Z.eqb_spec (current_panel_index_ app + 1) 0); lia. }
  split; [exact Hi|]. split; [now rewrite L2|].
  destruct C2 as (_ & _ & A & _).
  rewrite A, L2, L1, Hi. symmetry. exact H3.
Qed.

(** X22: [q] and [Q] end the loop at once: the iterations that would
    follow are not run, and neither is the auto-refresh check of the same
    iteration, however long ago the last refresh was; the application is
    the one before the key, and so is the application state. *)
Theorem quit_ends_loop (env : Env) (ch : Z) (rest : list (Env * Z))
  (app : Application.t) (g : Globals) :
  keeps_running ch = false ->
  let r := run_loop ps ((env, ch) :: rest) app g in
  r = run_loop ps [(env, ch)] app g
  /\ fst r = app
  /\ app_state (snd r) = app_state g.
Proof.
  intros Hk. unfold keeps_running in Hk. apply negb_false_iff in Hk.
  assert (He : (ch =? ERR) = false).
  { destruct (Z.eqb_spec ch ERR) as [->|]; [discriminate Hk|reflexivity]. }
  cbv zeta. cbn [run_loop]. unfold loop_iteration, handle_input.
  rewrite He, Hk. run_effects. cbn. repeat split.
Qed.

End Navigation.

Lemma session_parsers_only_fill : parsers_only_fill Session.parsers.
Proof. split; intros; repeat split. Qed.

Lemma started_consistent :
  navigation_consistent (fst started) (snd started).
Proof.
  unfold navigation_consistent. split; [reflexivity|].
  split; [vm_compute; split; congruence|]. split; [reflexivity|].
  eexists. split; reflexivity.
Qed.

Lemma navigation_stays_consistent_witness :
  let s := after_keys [(0, 9); (0, 119); (0, KEY_DOWN); (11000000000, 9)] in
  navigation_consistent (fst s) (snd s).
Proof.
  cbv zeta. unfold after_keys.
  apply (navigation_stays_consistent Session.parsers
           session_parsers_only_fill).
  exact started_consistent.
Defined.

Lemma switch_to_panel_leaves_dirty_witness :
  exists panel,
    UIManager.active_panel_
      (ui_manager_ (fst (switch_to_panel Session.parsers (env_at 0)
                           "execution" (fst started) (snd started))))
    = Some panel
    /\ Panel.panel_id panel = "execution"
    /\ Panel.needs_refresh panel = true.
Proof.
  destruct (switch_to_panel_leaves_dirty Session.parsers
              session_parsers_only_fill (env_at 0) "execution"
              (fst started) (snd started)) as (p & H1 & H2 & H3 & _).
  exists p. repeat split; assumption.
Defined.

Lemma workspace_cycle_returns_witness :
  AppState.active_workspace_
    (app_state
       (snd (run_loop Session.parsers
               [(env_at 0, 119); (env_at 1, 119); (env_at 2, 119);
                (env_at 3, 119); (env_at 4, 119)]
               (fst started) (snd started))))
  = "overview".
Proof.
  apply (workspace_cycle_returns Session.parsers session_parsers_only_fill
           (env_at 0) (env_at 1) (env_at 2) (env_at 3) (env_at 4)
           (fst started) (snd started)).
  vm_compute. tauto.
Defined.

Lemma cycle_prev_undoes_next_witness :
  let r1 := cycle_next_panel Session.parsers (env_at 0) (fst started)
              (snd started) in
  let r2 := cycle_prev_panel Session.parsers (env_at 0) (fst r1) (snd r1) in
  current_panel_index_ (fst r2) = 0
  /\ current_panel_list_ (fst r2) = ["overview"; "regime_stab"; "live_system"]
  /\ AppState.active_panel_ (app_state (snd r2)) = "overview".
Proof.
  apply (cycle_prev_undoes_next Session.parsers session_parsers_only_fill
           (env_at 0) (env_at 0) (fst started) (snd started)).
  - exact started_consistent.
  - vm_compute. reflexivity.
Defined.

Lemma quit_ends_loop_witness :
  let r := run_loop Session.parsers [(env_at 20000000000, 113); (env_at 0, 9)]
             (fst started) (snd started) in
  r = run_loop Session.parsers [(env_at 20000000000, 113)]
        (fst started) (snd started)
  /\ fst r = fst started
  /\ app_state (snd r) = app_state (snd started).
Proof.
  apply (quit_ends_loop Session.parsers (env_at 20000000000) 113
           [(env_at 0, 9)] (fst started) (snd started)).
  reflexivity.
Defined.

End NavigationMore.

(* ================================================================== *)
(** * Properties of the layout object and of the sidebars *)
(* ================================================================== *)

Module ScreenMore.
Import Cxx CxxFacts Eff Layout LayoutFacts PanelFacts.
Local Open Scope string_scope.
Local Open Scope Z_scope.

(** ** The layout object *)

(** X23: [calculate] never narrows the sidebars of a layout object: a
    width above 180 columns sets both to 35, any other width leaves them as
    they are, so that they only ever grow. *)
Theorem sidebars_never_narrow (l : LayoutDimensions) (tw th : Z) :
  reachable l ->
  let l' := calculate l tw th in
  left_width l <= left_width l'
  /\ right_width l <= right_width l'
  /\ (180 < tw -> left_width l' = 35 /\ right_width l' = 35)
  /\ (tw <= 180 ->
      left_width l' = left_width l /\ right_width l' = right_width l).
Proof.
  intros Hl. destruct (reachable_thickness l Hl) as (_ & _ & Hw).
  cbv zeta. cbn [calculate left_width right_width].
  destruct (Z.gtb_spec tw 180); repeat split; lia.
Qed.

Lemma sidebars_never_narrow_witness :
  let l' := calculate (calculate initial 200 40) 100 40 in
  left_width (calculate initial 200 40) <= left_width l'
  /\ right_width (calculate initial 200 40) <= right_width l'
  /\ (180 < 100 -> left_width l' = 35 /\ right_width l' = 35)
  /\ (100 <= 180 ->
      left_width l' = left_width (calculate initial 200 40)
      /\ right_width l' = right_width (calculate initial 200 40)).
Proof.
  apply (sidebars_never_narrow (calculate initial 200 40) 100 40).
  repeat constructor.
Defined.

(** X24: after [update_layout] the layout records the terminal size that
    curses reported, and a second call at the same size is a no-op: it
    returns the same screen manager and logs nothing. *)
Theorem update_layout_idempotent (env : Env) (ui : UIManager.t)
  (g g' : Globals) :
  let ui' := fst (UIManager.update_layout env ui g) in
  term_width (UIManager.layout_ ui') = term_cols env
  /\ term_height (UIManager.layout_ ui') = term_lines env
  /\ UIManager.update_layout env ui' g' = (ui', g').
Proof.
  cbv zeta.
  assert (H : term_width
                (UIManager.layout_ (fst (UIManager.update_layout env ui g)))
              = term_cols env
              /\ term_height
                   (UIManager.layout_
                      (fst (UIManager.update_layout env ui g)))
                 = term_lines env).
  { unfold UIManager.update_layout. run_effects.
    destruct (Z.eqb_spec (term_lines env)
                (term_height (UIManager.layout_ ui)));
      destruct (Z.eqb_spec (term_cols env)
                  (term_width (UIManager.layout_ ui))); cbn; auto. }
  destruct H as [Hw Hh]. split; [exact Hw|]. split; [exact Hh|].
  generalize dependent (fst (UIManager.update_layout env ui g)).
  intros ui' Hw Hh.
  unfold UIManager.update_layout. rewrite Hw, Hh, !Z.eqb_refl. reflexivity.
Qed.

(** ** The sidebars *)

Import Sidebar.










End ScreenMore.
